(** * Roundnet scoreboard: event log, set winner, serve rotation, statistics

    A shallow embedding of the scoring core of [src/js/Scoreboard.js]
    (class [Scoreboard]) and the properties of it that the specification
    states.  The DOM, the timers and the remote store are outside the
    embedding; what the core reads from them (score fields, the starting
    server and receiver selects, the authorisation of the channel) is a
    field of the state record.

    Conventions of the embedding.
    - A JavaScript number is an integer ([Z]); the only fractional values
      the core computes are the halves in the serve rotation, which are
      computed in [Q].  [NaN] is the [None] of [option Z].
    - [%] is the truncated remainder: [Z.rem] on integers, [js_mod] on
      rationals.  [Math.floor] is [Qfloor]; [Math.floor (n / 2)] on an
      integer [n] is [n / 2] in [Z].
    - A thrown [TypeError] is the [TypeError] of [JsResult]; [undefined]
      as the result of an array read is [None].
    - The [set] argument of a method is a number.  Where the source hands
      on a digit string that [==] and [Number] read as that number (the
      capture of [set_(\d+)], an event's own [set] field that passed
      [event.set == set]), the embedding hands on the number. *)

From Stdlib Require Import ZArith QArith Qround Lia List Bool.
From Stdlib Require Import Ascii String DecimalString.
From stdpp Require Import gmap strings list fin_maps.

Local Open Scope string_scope.
Local Open Scope list_scope.
Local Open Scope Z_scope.

(** ** JavaScript values and operators *)

Module JS.

(** The values an event field holds. *)
Inductive jsval : Type :=
| JUndefined
| JNull
| JNum (n : Z)
| JStr (s : string).

(** ToBoolean. *)
Definition truthy (v : jsval) : bool :=
  match v with
  | JUndefined | JNull => false
  | JNum n => negb (n =? 0)
  | JStr s => negb (String.eqb s "")
  end.

(** [typeof v === 'string']. *)
Definition is_string (v : jsval) : bool :=
  match v with JStr _ => true | _ => false end.

(** [v !== undefined]. *)
Definition is_defined (v : jsval) : bool :=
  match v with JUndefined => false | _ => true end.

(** [a === b]. *)
Definition strict_eq (a b : jsval) : bool :=
  match a, b with
  | JUndefined, JUndefined => true
  | JNull, JNull => true
  | JNum m, JNum n => m =? n
  | JStr s, JStr t => String.eqb s t
  | _, _ => false
  end.

(** StringToNumber on the strings the embedding reads as numbers: the
    empty string is 0, a string of decimal digits is its value, every
    other string is [NaN]. *)
Definition string_to_number (s : string) : option Z :=
  if String.eqb s "" then Some 0
  else option_map (fun u => Z.of_N (N.of_uint u)) (NilEmpty.uint_of_string s).

(** [Number(v)]. *)
Definition to_number (v : jsval) : option Z :=
  match v with
  | JUndefined => None
  | JNull => Some 0
  | JNum n => Some n
  | JStr s => string_to_number s
  end.

(** [a == b]: [null] and [undefined] equal each other and nothing
    else, a number and a string are compared as numbers. *)
Definition loose_eq (a b : jsval) : bool :=
  match a, b with
  | (JUndefined | JNull), (JUndefined | JNull) => true
  | JNum m, JNum n => m =? n
  | JStr s, JStr t => String.eqb s t
  | JNum m, JStr s | JStr s, JNum m =>
      match string_to_number s with Some n => m =? n | None => false end
  | _, _ => false
  end.

(** [v > n] for a number [n]: false when [v] converts to [NaN]. *)
Definition gt_num (v : jsval) (n : Z) : bool :=
  match to_number v with Some m => n <? m | None => false end.

(** [x || 0] on a number: [NaN] and 0 give 0. *)
Definition or_zero (x : option Z) : Z :=
  match x with Some n => n | None => 0 end.

(** [Math.trunc] of a rational. *)
Definition Qtrunc (q : Q) : Z := Z.quot (Qnum q) (Zpos (Qden q)).

(** [x % y] on rationals: the remainder has the sign of [x]. *)
Definition js_mod (x y : Q) : Q := (x - y * inject_Z (Qtrunc (x / y)))%Q.

(** [arr[i]]: [undefined] outside the array, a negative index included. *)
Definition index {A : Type} (arr : list A) (i : Z) : option A :=
  if i <? 0 then None else nth_error arr (Z.to_nat i).

(** [arr.indexOf(x)] on an array of strings. *)
Fixpoint indexOf (arr : list string) (x : string) : Z :=
  match arr with
  | [] => -1
  | y :: rest =>
      if String.eqb y x then 0
      else let i := indexOf rest x in if i <? 0 then -1 else i + 1
  end.

(** [arr.slice(start)]. *)
Definition slice_from {A : Type} (start : Z) (arr : list A) : list A :=
  let len := Z.of_nat (length arr) in
  let k := if start <? 0 then Z.max (len + start) 0 else Z.min start len in
  skipn (Z.to_nat k) arr.

(** [s.toLowerCase()] on ASCII letters. *)
Definition lower_ascii (c : ascii) : ascii :=
  let n := nat_of_ascii c in
  if (65 <=? n)%nat && (n <=? 90)%nat then ascii_of_nat (n + 32) else c.

Fixpoint toLowerCase (s : string) : string :=
  match s with
  | EmptyString => EmptyString
  | String c rest => String (lower_ascii c) (toLowerCase rest)
  end.

(** A call that returns or throws. *)
Inductive JsResult (A : Type) : Type :=
| Ok (a : A)
| TypeError.
Arguments Ok {A} a.
Arguments TypeError {A}.

Definition bind {A B : Type} (r : JsResult A) (k : A -> JsResult B) : JsResult B :=
  match r with
  | Ok a => k a
  | TypeError => TypeError
  end.

End JS.

Import JS.

#[global] Instance JsResult_ret : MRet JsResult := fun A a => Ok a.
#[global] Instance JsResult_bind : MBind JsResult := fun A B k r => JS.bind r k.

(** ** Data model *)

(** An entry of [event_history]: an object with the fields the handlers
    write, each possibly absent. *)
Record Event : Type := mkEvent {
  ev_type : jsval;
  ev_team : jsval;
  ev_score : jsval;
  ev_set : jsval
}.

Definition score_event (team : string) (score set : Z) : Event :=
  mkEvent (JStr "score") (JStr team) (JNum score) (JNum set).
Definition squad_score_event (team : jsval) (score : Z) : Event :=
  mkEvent (JStr "squad_score") team (JNum score) (JStr "squad").
Definition set_event (set : Z) : Event :=
  mkEvent (JStr "set") JUndefined JUndefined (JNum set).
Definition reset_event : Event :=
  mkEvent (JStr "reset") JUndefined JUndefined JUndefined.

(** [this.gameSettings]. *)
Record GameSettings : Type := mkGameSettings {
  win_points : Z;
  min_win_margin : Z;
  hardcap : Z
}.

(** The state the core reads and writes. *)
Record Scoreboard : Type := mkScoreboard {
  active_set : Z;
  event_history : list Event;
  gameSettings : GameSettings;
  (** the check at the head of [uploadData] passes *)
  authorized : bool;
  (** the score field of a set and team, as [getScore] reads it *)
  score_field : Z -> string -> Z;
  (** the [starting_server] and [starting_receiver] fields of a set *)
  starting_server_field : Z -> string;
  starting_receiver_field : Z -> string
}.

Definition with_event_history (sb : Scoreboard) (h : list Event) : Scoreboard :=
  mkScoreboard (active_set sb) h (gameSettings sb) (authorized sb)
    (score_field sb) (starting_server_field sb) (starting_receiver_field sb).

(** The settings of the constructor. *)
Definition default_settings : GameSettings := mkGameSettings 15 2 21.

(** ** Event log *)

(** [this.event_history.push(e)]. *)
Definition push (log : list Event) (e : Event) : list Event := log ++ [e].

(** [handleEventHistory]: keep the last 200 entries. *)
Definition handleEventHistory (sb : Scoreboard) : Scoreboard :=
  if 200 <? Z.of_nat (length (event_history sb))
  then with_event_history sb (slice_from (-200) (event_history sb))
  else sb.

(** The index at which [$.each(arr, callback)] stops: the first element
    on which the callback returns [false]. *)
Fixpoint each_break {A : Type} (stop : A -> bool) (arr : list A) : option nat :=
  match arr with
  | [] => None
  | x :: rest => if stop x then Some O else option_map S (each_break stop rest)
  end.

(** [arr.splice(start, 1)]. *)
Definition splice1 {A : Type} (start : Z) (arr : list A) : list A :=
  let len := Z.of_nat (length arr) in
  let k := if start <? 0 then Z.max (len + start) 0 else Z.min start len in
  firstn (Z.to_nat k) arr ++ skipn (S (Z.to_nat k)) arr.

(** The test of [removeEventHistoryEvents]. *)
Definition removal_match (team : jsval) (newScore : Z) (set : jsval)
    (event : Event) : bool :=
  strict_eq (ev_type event) (JStr "score")
  && strict_eq (ev_team event) team
  && gt_num (ev_score event) newScore
  && loose_eq (ev_set event) set.

(** [removeEventHistoryEvents(team, newScore, set)]. *)
Definition removeEventHistoryEvents (sb : Scoreboard) (team : jsval)
    (newScore : Z) (set : jsval) : Scoreboard :=
  let reversedHistory := rev (event_history sb) in
  match each_break (removal_match team newScore set) reversedHistory with
  | Some index =>
      with_event_history sb
        (splice1 (Z.of_nat (length (event_history sb)) - 1 - Z.of_nat index)
           (event_history sb))
  | None => sb
  end.

Definition is_reset (event : Event) : bool :=
  strict_eq (ev_type event) (JStr "reset").

(** [getLastResetIndex(event_history)]. *)
Definition getLastResetIndex (event_history : list Event) : Z :=
  match each_break is_reset (rev event_history) with
  | Some i => Z.of_nat (length event_history) - 1 - Z.of_nat i
  | None => -1
  end.

(** The callback of the [filter] in [getScoreHistory]. *)
Definition history_match (set : Z) (event : Event) : bool :=
  strict_eq (ev_type event) (JStr "score")
  && loose_eq (ev_set event) (JNum set)
  && truthy (ev_team event)
  && is_string (ev_team event)
  && is_defined (ev_score event).

(** [getScoreHistory(set)]. *)
Definition getScoreHistory (sb : Scoreboard) (set : Z) : list Event :=
  let startIndex := getLastResetIndex (event_history sb) in
  let slicedEventHistory := slice_from (startIndex + 1) (event_history sb) in
  List.filter (history_match set) slicedEventHistory.

(** The loop of [scoreHistoryToTeamPoints], from a given [lastScore]. *)
Fixpoint teamPoints (lastScore : option Z) (slicedEventHistory : list Event)
    (team : string) : list (option Z) :=
  match slicedEventHistory with
  | [] => []
  | event :: rest =>
      match ev_team event with
      | JStr t =>
          if strict_eq (ev_type event) (JStr "score") && truthy (ev_team event)
          then
            let lastScore' :=
              if String.eqb (toLowerCase t) (toLowerCase team)
              then to_number (ev_score event) else lastScore in
            lastScore' :: teamPoints lastScore' rest team
          else teamPoints lastScore rest team
      | _ => teamPoints lastScore rest team
      end
  end.

(** [scoreHistoryToTeamPoints(slicedEventHistory, team)]. *)
Definition scoreHistoryToTeamPoints (slicedEventHistory : list Event)
    (team : string) : list (option Z) :=
  teamPoints (Some 0) slicedEventHistory team.

(** ** Scores, set winner, overtime *)

(** [getScore(set, team)]. *)
Definition getScore (sb : Scoreboard) (set : Z) (team : string) : Z :=
  score_field sb set team.

(** [getScoreAtPointIndex(set, team, pointIndex)]. *)
Definition getScoreAtPointIndex (sb : Scoreboard) (set : Z) (team : string)
    (pointIndex : Z) : Z :=
  let scoreHistory := getScoreHistory sb set in
  let teamPointsList := scoreHistoryToTeamPoints scoreHistory team in
  if Z.of_nat (length teamPointsList) <=? pointIndex
  then getScore sb set team
  else or_zero (mjoin (index teamPointsList pointIndex)).

(** [getTotalPointsInSet(set)]. *)
Definition getTotalPointsInSet (sb : Scoreboard) (set : Z) : Z :=
  let scoreA := getScore sb set "a" in
  let scoreB := getScore sb set "b" in
  scoreA + scoreB.

(** [setWinner(set)]: ['a'], ['b'] or [null]. *)
Definition setWinner (sb : Scoreboard) (set : Z) : option string :=
  let scoreA := getScore sb set "a" in
  let scoreB := getScore sb set "b" in
  if (hardcap (gameSettings sb) <=? scoreA) || (hardcap (gameSettings sb) <=? scoreB)
  then Some (if scoreB <? scoreA then "a" else "b")
  else if (win_points (gameSettings sb) <=? scoreA)
          || (win_points (gameSettings sb) <=? scoreB)
  then
    let scoreDifference := Z.abs (scoreA - scoreB) in
    if min_win_margin (gameSettings sb) <=? scoreDifference
    then Some (if scoreB <? scoreA then "a" else "b")
    else None
  else None.

(** [isInOvertime(set, pointIndex)]; [pointIndex] is [None] for the
    default [null]. *)
Definition isInOvertime (sb : Scoreboard) (set : Z) (pointIndex : option Z) : bool :=
  let scoreA :=
    match pointIndex with
    | None => getScore sb set "a"
    | Some i => getScoreAtPointIndex sb set "a" i
    end in
  let scoreB :=
    match pointIndex with
    | None => getScore sb set "b"
    | Some i => getScoreAtPointIndex sb set "b" i
    end in
  if (hardcap (gameSettings sb) <=? scoreA) || (hardcap (gameSettings sb) <=? scoreB)
  then true
  else if (win_points (gameSettings sb) <=? scoreA)
          || (win_points (gameSettings sb) <=? scoreB)
  then
    let scoreDifference := Z.abs (scoreA - scoreB) in
    scoreDifference <? min_win_margin (gameSettings sb)
  else false.

(** ** Serve and receive rotation *)

(** [getPlayerTeam(player)]; [None] is [undefined] as argument and
    [null] as result. *)
Definition getPlayerTeam (player : option string) : option string :=
  match player with
  | Some p =>
      if String.eqb p "a" || String.eqb p "b" then Some "a"
      else if String.eqb p "c" || String.eqb p "d" then Some "b"
      else None
  | None => None
  end.

(** [getStartingServer(set)] and [getStartingReceiver(set)]. *)
Definition getStartingServer (sb : Scoreboard) (set : Z) : string :=
  starting_server_field sb set.
Definition getStartingReceiver (sb : Scoreboard) (set : Z) : string :=
  starting_receiver_field sb set.

(** [getStartingTeam(set)]. *)
Definition getStartingTeam (sb : Scoreboard) (set : Z) : option string :=
  let startingServer := getStartingServer sb set in
  if negb (String.eqb startingServer "")
  then Some (if String.eqb startingServer "a" || String.eqb startingServer "b"
             then "a" else "b")
  else None.

(** The chain of [if]s that binds [serveOrder] in
    [getServingPlayerAtPoint]; [None] when no branch is taken and the
    variable stays [undefined]. *)
Definition serveOrderOf (startingServer startingReceiver : string)
    : option (list string) :=
  if String.eqb startingServer "a" && String.eqb startingReceiver "c"
  then Some ["a"; "d"; "b"; "c"]
  else if String.eqb startingServer "a" && String.eqb startingReceiver "d"
  then Some ["a"; "c"; "b"; "d"]
  else if String.eqb startingServer "b" && String.eqb startingReceiver "c"
  then Some ["b"; "d"; "a"; "c"]
  else if String.eqb startingServer "b" && String.eqb startingReceiver "d"
  then Some ["b"; "c"; "a"; "d"]
  else if String.eqb startingServer "c" && String.eqb startingReceiver "a"
  then Some ["c"; "b"; "d"; "a"]
  else if String.eqb startingServer "c" && String.eqb startingReceiver "b"
  then Some ["c"; "a"; "d"; "b"]
  else if String.eqb startingServer "d" && String.eqb startingReceiver "a"
  then Some ["d"; "b"; "c"; "a"]
  else if String.eqb startingServer "d" && String.eqb startingReceiver "b"
  then Some ["d"; "a"; "c"; "b"]
  else None.

(** [getServingPlayerAtPoint(pointIndex, set)]. *)
Definition getServingPlayerAtPoint (sb : Scoreboard) (pointIndex set : Z)
    : JsResult (option string) :=
  let startingServer := getStartingServer sb set in
  let startingReceiver := getStartingReceiver sb set in
  let isOvertime := isInOvertime sb set (Some pointIndex) in
  match serveOrderOf startingServer startingReceiver with
  | None => TypeError (* [serveOrder.indexOf] on [undefined] *)
  | Some serveOrder =>
      let startIndex := indexOf serveOrder startingServer in
      if pointIndex =? 0 then Ok (Some startingServer)
      else if negb isOvertime then
        let steps := Qfloor (js_mod (inject_Z (pointIndex + 1) / 2) 4) in
        Ok (index serveOrder (Z.rem (startIndex + steps) 4))
      else
        let pointsTillOvertime := win_points (gameSettings sb) * 2 - 2 in
        let steps :=
          Qfloor (js_mod (js_mod (inject_Z (pointsTillOvertime + 1) / 2) 4
                          + inject_Z (Z.rem (pointIndex - pointsTillOvertime) 4)) 4) in
        Ok (index serveOrder (Z.rem (startIndex + steps) 4))
  end.

(** The three arrays a branch of [getReceivingPlayerAtPoint] binds. *)
Record ReceiveOrders : Type := mkReceiveOrders {
  receivingOrder : list string;
  overtimeOrder15 : list string;
  overtimeOrder21 : list string
}.

(** The chain of [if]s of [getReceivingPlayerAtPoint]. *)
Definition receiveOrdersOf (startingServer startingReceiver : string)
    : option ReceiveOrders :=
  if String.eqb startingServer "a" && String.eqb startingReceiver "c"
  then Some (mkReceiveOrders ["c"; "b"; "a"; "c"; "d"; "a"; "b"; "d"]
               ["a"; "d"; "b"; "c"] ["b"; "d"; "a"; "c"])
  else if String.eqb startingServer "a" && String.eqb startingReceiver "d"
  then Some (mkReceiveOrders ["d"; "b"; "a"; "d"; "c"; "a"; "b"; "c"]
               ["a"; "c"; "b"; "d"] ["b"; "c"; "a"; "d"])
  else if String.eqb startingServer "b" && String.eqb startingReceiver "c"
  then Some (mkReceiveOrders ["c"; "a"; "b"; "c"; "d"; "b"; "a"; "d"]
               ["b"; "d"; "a"; "c"] ["a"; "d"; "b"; "c"])
  else if String.eqb startingServer "b" && String.eqb startingReceiver "d"
  then Some (mkReceiveOrders ["d"; "a"; "b"; "d"; "c"; "b"; "a"; "c"]
               ["b"; "c"; "a"; "d"] ["a"; "c"; "b"; "d"])
  else if String.eqb startingServer "c" && String.eqb startingReceiver "a"
  then Some (mkReceiveOrders ["a"; "d"; "c"; "a"; "b"; "c"; "d"; "b"]
               ["c"; "b"; "d"; "a"] ["d"; "b"; "c"; "a"])
  else if String.eqb startingServer "c" && String.eqb startingReceiver "b"
  then Some (mkReceiveOrders ["b"; "d"; "c"; "b"; "a"; "c"; "d"; "a"]
               ["c"; "a"; "d"; "b"] ["d"; "a"; "c"; "b"])
  else if String.eqb startingServer "d" && String.eqb startingReceiver "a"
  then Some (mkReceiveOrders ["a"; "c"; "d"; "a"; "b"; "d"; "c"; "b"]
               ["d"; "b"; "c"; "a"] ["c"; "b"; "d"; "a"])
  else if String.eqb startingServer "d" && String.eqb startingReceiver "b"
  then Some (mkReceiveOrders ["b"; "c"; "d"; "b"; "a"; "d"; "c"; "a"]
               ["d"; "a"; "c"; "b"] ["c"; "a"; "d"; "b"])
  else None.

(** [getReceivingPlayerAtPoint(pointIndex, set)]. *)
Definition getReceivingPlayerAtPoint (sb : Scoreboard) (pointIndex set : Z)
    : JsResult (option string) :=
  let startingServer := getStartingServer sb set in
  let startingReceiver := getStartingReceiver sb set in
  let isOvertime := isInOvertime sb set (Some pointIndex) in
  match receiveOrdersOf startingServer startingReceiver with
  | None => TypeError (* [receivingOrder.indexOf] on [undefined] *)
  | Some orders =>
      let startIndex := indexOf (receivingOrder orders) startingReceiver in
      if pointIndex =? 0 then Ok (Some startingReceiver)
      else if negb isOvertime then
        let steps := Z.rem pointIndex 8 in
        Ok (index (receivingOrder orders) (Z.rem (startIndex + steps) 8))
      else
        let steps := Z.rem (pointIndex - 1) 4 in
        if win_points (gameSettings sb) =? 15
        then Ok (index (overtimeOrder15 orders) (Z.rem (startIndex + steps) 4))
        else Ok (index (overtimeOrder21 orders) (Z.rem (startIndex + steps) 4))
  end.

(** The object [getServeInfo] returns. *)
Record ServeInfo : Type := mkServeInfo {
  team : string;
  serveNumber : Z;
  isOvertime : bool
}.

Definition other_team (t : string) : string :=
  if String.eqb t "a" then "b" else "a".

(** [getServeInfo()]; [None] is [null]. *)
Definition getServeInfo (sb : Scoreboard) : option ServeInfo :=
  match getStartingTeam sb (active_set sb) with
  | None => None
  | Some startingTeam =>
      let totalPoints := getTotalPointsInSet sb (active_set sb) in
      let isOvertime := isInOvertime sb (active_set sb) None in
      if isOvertime then
        let servingTeam :=
          if Z.rem totalPoints 2 =? 0 then startingTeam else other_team startingTeam in
        Some (mkServeInfo servingTeam 1 true)
      else if totalPoints =? 0 then
        Some (mkServeInfo startingTeam 1 false)
      else
        let servesAfterFirst := totalPoints - 1 in
        let serveGroup := servesAfterFirst / 2 in
        let isStartingTeamServe := Z.rem serveGroup 2 =? 0 in
        let servingTeam :=
          if isStartingTeamServe then other_team startingTeam else startingTeam in
        let serveNumber := Z.rem servesAfterFirst 2 + 1 in
        Some (mkServeInfo servingTeam serveNumber false)
  end.

(** ** Score input *)

(** [updateCurrentPlayersDisplay()]: the two lookups; the texts it sets
    are outside the embedding, an exception of a lookup is not. *)
Definition updateCurrentPlayersDisplay (sb : Scoreboard) : JsResult unit :=
  let totalPoints := getTotalPointsInSet sb (active_set sb) in
  server ← getServingPlayerAtPoint sb totalPoints (active_set sb);
  receiver ← getReceivingPlayerAtPoint sb totalPoints (active_set sb);
  Ok tt.

(** [uploadData(elemList)] as far as it touches the state: past the
    channel check it calls [handleEventHistory] before it writes. *)
Definition uploadData (sb : Scoreboard) : Scoreboard :=
  if authorized sb then handleEventHistory sb else sb.

(** [set] as [getScoreElemDetails] returns it: the number the captured
    digits denote, or [null]. *)
Definition set_detail (set : option Z) : jsval :=
  match set with Some n => JNum n | None => JNull end.

(** The loop of the score input handler that reads [oldScore] from the
    most recent matching event. *)
Definition oldScoreOf (log : list Event) (eventType : string) (team : jsval)
    (set : option Z) (isSquadScore : bool) : Z :=
  match
    List.find (fun ev =>
      strict_eq (ev_type ev) (JStr eventType)
      && strict_eq (ev_team ev) team
      && (isSquadScore || loose_eq (ev_set ev) (set_detail set)))
      (rev log)
  with
  | Some ev => or_zero (to_number (ev_score ev))
  | None => 0
  end.

(** The history update of the score input handler: [team] and [set] are
    the details of the edited field, [newScore] its value read with
    [Number(...) || 0]. *)
Definition scoreInputHistory (sb : Scoreboard) (team : jsval) (set : option Z)
    (newScore : Z) (isSquadScore : bool) : Scoreboard :=
  let eventType := if isSquadScore then "squad_score" else "score" in
  let oldScore := oldScoreOf (event_history sb) eventType team set isSquadScore in
  if (newScore <? oldScore) && negb isSquadScore
  then removeEventHistoryEvents sb team newScore (set_detail set)
  else
    let eventData :=
      mkEvent (JStr eventType) team (JNum newScore)
        (if isSquadScore then JStr "squad" else JNum (or_zero (to_number (set_detail set)))) in
    with_event_history sb (push (event_history sb) eventData).

(** The score input handler: the history update, then the display
    refresh and the upload; an exception of the refresh ends the
    handler before the upload. *)
Definition scoreInput (sb : Scoreboard) (team : jsval) (set : option Z)
    (newScore : Z) (isSquadScore : bool) : Scoreboard :=
  let sb1 := scoreInputHistory sb team set newScore isSquadScore in
  match updateCurrentPlayersDisplay sb1 with
  | Ok _ => uploadData sb1
  | TypeError => sb1
  end.

(** ** Statistics *)

Record TeamStats : Type := mkTeamStats {
  team_breaks : Z;
  team_breakOpportunities : Z
}.

Record PlayerStats : Type := mkPlayerStats {
  sideouts : Z;
  sideoutOpportunities : Z;
  breaks : Z;
  breakOpportunities : Z
}.

(** The counters of the [stats] object; the percentages, rounded from
    floating-point quotients at the end, are not part of the embedding. *)
Record Statistics : Type := mkStatistics {
  teamA : TeamStats;
  teamB : TeamStats;
  players : gmap string PlayerStats
}.

Definition initial_statistics : Statistics :=
  mkStatistics (mkTeamStats 0 0) (mkTeamStats 0 0)
    (<["a" := mkPlayerStats 0 0 0 0]>
       (<["b" := mkPlayerStats 0 0 0 0]>
          (<["c" := mkPlayerStats 0 0 0 0]>
             (<["d" := mkPlayerStats 0 0 0 0]> ∅)))).

(** [stats[`team${t.toUpperCase()}`].field++]: a [TypeError] when [t]
    is [null] or names no team. *)
Definition update_team (t : option string) (f : TeamStats -> TeamStats)
    (stats : Statistics) : JsResult Statistics :=
  match t with
  | Some t' =>
      if String.eqb t' "a"
      then Ok (mkStatistics (f (teamA stats)) (teamB stats) (players stats))
      else if String.eqb t' "b"
      then Ok (mkStatistics (teamA stats) (f (teamB stats)) (players stats))
      else TypeError
  | None => TypeError
  end.

(** [stats.players[p].field++]: a [TypeError] when [p] is [undefined]
    or no key of [stats.players]. *)
Definition update_player (p : option string) (f : PlayerStats -> PlayerStats)
    (stats : Statistics) : JsResult Statistics :=
  match p with
  | Some p' =>
      match players stats !! p' with
      | Some ps =>
          Ok (mkStatistics (teamA stats) (teamB stats) (<[p' := f ps]> (players stats)))
      | None => TypeError
      end
  | None => TypeError
  end.

Definition incr_team_breaks (t : TeamStats) : TeamStats :=
  mkTeamStats (team_breaks t + 1) (team_breakOpportunities t).
Definition incr_team_breakOpportunities (t : TeamStats) : TeamStats :=
  mkTeamStats (team_breaks t) (team_breakOpportunities t + 1).
Definition incr_sideouts (p : PlayerStats) : PlayerStats :=
  mkPlayerStats (sideouts p + 1) (sideoutOpportunities p) (breaks p) (breakOpportunities p).
Definition incr_sideoutOpportunities (p : PlayerStats) : PlayerStats :=
  mkPlayerStats (sideouts p) (sideoutOpportunities p + 1) (breaks p) (breakOpportunities p).
Definition incr_breaks (p : PlayerStats) : PlayerStats :=
  mkPlayerStats (sideouts p) (sideoutOpportunities p) (breaks p + 1) (breakOpportunities p).
Definition incr_breakOpportunities (p : PlayerStats) : PlayerStats :=
  mkPlayerStats (sideouts p) (sideoutOpportunities p) (breaks p) (breakOpportunities p + 1).

(** The callback of [eventsToProcess.forEach] in [calculateStatistics],
    for the entry [{ event, index, set: event.set }] of a single-set
    run; [set] is the number [event.set] equals. *)
Definition processEvent (sb : Scoreboard) (set : Z) (stats : Statistics)
    (index : Z) (event : Event) : JsResult Statistics :=
  if negb (truthy (ev_team event)) || negb (truthy (ev_set event)) then Ok stats
  else
    match ev_team event with
    | JStr t =>
        let team := toLowerCase t in
        servingPlayer ← getServingPlayerAtPoint sb index set;
        receivingPlayer ← getReceivingPlayerAtPoint sb index set;
        let servingTeam := getPlayerTeam servingPlayer in
        let isBreak :=
          match servingTeam with Some st => String.eqb team st | None => false end in
        stats ← update_team servingTeam incr_team_breakOpportunities stats;
        stats ← update_player servingPlayer incr_breakOpportunities stats;
        stats ← update_player receivingPlayer incr_sideoutOpportunities stats;
        if isBreak then
          stats ← update_team (Some team) incr_team_breaks stats;
          update_player servingPlayer incr_breaks stats
        else update_player receivingPlayer incr_sideouts stats
    | _ => TypeError (* [event.team.toLowerCase] is not a function *)
    end.

(** The [forEach] over the indexed events. *)
Fixpoint processEvents (sb : Scoreboard) (set : Z) (stats : Statistics)
    (index : Z) (events : list Event) : JsResult Statistics :=
  match events with
  | [] => Ok stats
  | event :: rest =>
      stats' ← processEvent sb set stats index event;
      processEvents sb set stats' (index + 1) rest
  end.

(** [calculateStatistics('set', set)]: the single-set run. *)
Definition calculateStatistics (sb : Scoreboard) (set : Z) : JsResult Statistics :=
  let scoreEvents := getScoreHistory sb set in
  processEvents sb set initial_statistics 0 scoreEvents.

(** The sum of a counter over the four players. *)
Definition players_total (field : PlayerStats -> Z) (stats : Statistics) : Z :=
  foldr (fun p acc => from_option field 0 (players stats !! p) + acc) 0
    ["a"; "b"; "c"; "d"].

(** A board for examples: every set shows the same two scores and the
    same starting players. *)
Definition board (settings : GameSettings) (scoreA scoreB : Z)
    (startingServer startingReceiver : string) (log : list Event) : Scoreboard :=
  mkScoreboard 1 log settings true
    (fun _ t => if String.eqb t "a" then scoreA else scoreB)
    (fun _ => startingServer) (fun _ => startingReceiver).

(** The settings of the specification's set-winner examples. *)
Definition settings_21_25 : GameSettings := mkGameSettings 21 2 25.

(** A score event without a team, as the score input handler writes it
    for a field whose name carries neither [team_a] nor [team_b]. *)
Definition teamless_score_event : Event :=
  mkEvent (JStr "score") JNull (JNum 1) (JNum 1).

(** A board in overtime at its second point: both teams were entered
    at 15 with the first two events of set 1. *)
Definition early_overtime_board : Scoreboard :=
  board default_settings 15 15 "c" "a"
    [score_event "a" 15 1; score_event "b" 15 1].

(** A set to 16 points at 16:15, with no event logged. *)
Definition even_win_points_board : Scoreboard :=
  board (mkGameSettings 16 2 22) 16 15 "a" "c" [].

(** A board on which no starting server and receiver are chosen. *)
Definition unconfigured_board : Scoreboard :=
  board default_settings 0 0 "" "" [].

(** A set to 15 points shown at 21:0, with no event logged. *)
Definition hardcap_board : Scoreboard :=
  board default_settings 21 0 "a" "c" [].

(** Three points of a set: a, b, a. *)
Definition three_point_board : Scoreboard :=
  board default_settings 2 1 "a" "c"
    [score_event "a" 1 1; score_event "b" 1 1; score_event "a" 2 1].

(** One score event logged for set 0. *)
Definition set_zero_board : Scoreboard :=
  board default_settings 1 0 "a" "c" [score_event "a" 1 0].

(** The keys of [stats.players]. *)
Definition is_player (p : string) : Prop :=
  p = "a" \/ p = "b" \/ p = "c" \/ p = "d".

Definition four_players (m : gmap string PlayerStats) : Prop :=
  forall p, is_Some (m !! p) <-> is_player p.

(** The entries [calculateStatistics] passes over without counting. *)
Definition skipped (event : Event) : bool :=
  negb (truthy (ev_team event)) || negb (truthy (ev_set event)).

(** Point [p] of the set is not in overtime before point
    [2 * win_points - 2], point 0 apart. *)
Definition overtime_in_time (sb : Scoreboard) (set p : Z) : Prop :=
  isInOvertime sb set (Some p) = true ->
  p = 0 \/ (1 <= win_points (gameSettings sb) /\
            win_points (gameSettings sb) * 2 - 2 <= p).

(** A board that shows 1:1 while the log of the set still holds the
    events of a 15:15 entered before. *)
Definition drifted_board : Scoreboard :=
  board default_settings 1 1 "a" "c"
    [score_event "a" 15 1; score_event "b" 14 1; score_event "b" 15 1;
     score_event "a" 1 1; score_event "b" 1 1].

(** One point logged with no starting players chosen. *)
Definition unconfigured_point_board : Scoreboard :=
  board default_settings 1 0 "" "" [score_event "a" 1 1].

(** The eight starting configurations. *)
Definition valid_pairs : list (string * string) :=
  [("a", "c"); ("a", "d"); ("b", "c"); ("b", "d");
   ("c", "a"); ("c", "b"); ("d", "a"); ("d", "b")].

Definition valid_configuration (startingServer startingReceiver : string) : Prop :=
  In (startingServer, startingReceiver) valid_pairs.

(** Server and receiver are players of opposite teams. *)
Definition opposite_teams (server receiver : JsResult (option string)) : Prop :=
  exists s r,
    server = Ok (Some s) /\ receiver = Ok (Some r) /\
    ((getPlayerTeam (Some s) = Some "a" /\ getPlayerTeam (Some r) = Some "b") \/
     (getPlayerTeam (Some s) = Some "b" /\ getPlayerTeam (Some r) = Some "a")).

(** The team of a slot of a rotation array: [t] on the slots where
    [own] holds, the other team elsewhere. *)
Definition slot_team (t : string) (own : bool) : option string :=
  Some (if own then t else other_team t).

(** ** Further operations of the class *)

(** The slice [getScoreHistory] filters: the log after its last reset
    event. *)
Definition sinceLastReset (log : list Event) : list Event :=
  slice_from (getLastResetIndex log + 1) log.

(** The test [event.team.toLowerCase() === team.toLowerCase()] of
    [scoreHistoryToTeamPoints], false for a team that is no string. *)
Definition event_of_team (team : string) (event : Event) : bool :=
  match ev_team event with
  | JStr t => String.eqb (toLowerCase t) (toLowerCase team)
  | _ => false
  end.

(** A counter of a player in [stats.players], 0 for a key that is
    missing. *)
Definition player_count (field : PlayerStats -> Z) (stats : Statistics)
    (q : string) : Z :=
  from_option field 0 (players stats !! q).

(** 1 when the condition holds, else 0. *)
Definition one_if (b : bool) : Z := if b then 1 else 0.

(** The counters of the teams are those of their players, and no
    counter of a player exceeds its opportunities. *)
Definition counters_consistent (stats : Statistics) : Prop :=
  team_breakOpportunities (teamA stats) =
    player_count breakOpportunities stats "a"
    + player_count breakOpportunities stats "b" /\
  team_breakOpportunities (teamB stats) =
    player_count breakOpportunities stats "c"
    + player_count breakOpportunities stats "d" /\
  team_breaks (teamA stats) =
    player_count breaks stats "a" + player_count breaks stats "b" /\
  team_breaks (teamB stats) =
    player_count breaks stats "c" + player_count breaks stats "d" /\
  forall q, is_player q ->
    0 <= player_count sideouts stats q <= player_count sideoutOpportunities stats q /\
    0 <= player_count breaks stats q <= player_count breakOpportunities stats q.

(** [n] points are counted: once as a break opportunity, once as a
    sideout opportunity, and once as a break or as a sideout. *)
Definition counters_add_up (n : Z) (stats : Statistics) : Prop :=
  players_total breakOpportunities stats = n /\
  players_total sideoutOpportunities stats = n /\
  players_total breaks stats + players_total sideouts stats = n.

(** ** Sets and reset *)

Definition with_active_set (sb : Scoreboard) (set : Z) : Scoreboard :=
  mkScoreboard set (event_history sb) (gameSettings sb) (authorized sb)
    (score_field sb) (starting_server_field sb) (starting_receiver_field sb).

(** The set counter input handler: [updateSets] writes [active_set]
    back into the counter and redraws the sets, then a set event is
    pushed. *)
Definition setCounterInput (sb : Scoreboard) : Scoreboard :=
  with_event_history sb (push (event_history sb) (set_event (active_set sb))).

(** The set change buttons handler.  [change] and [currentSet] are what
    [Number] makes of the button's attribute and of the counter's
    value, [None] for [NaN]; a comparison with [NaN] is false. *)
Definition setChangeButton (sb : Scoreboard) (change currentSet : option Z)
    : Scoreboard :=
  match currentSet, change with
  | Some c, Some d =>
      let newSet := c + d in
      if (0 <? newSet) && (newSet <=? 7)
      then uploadData (setCounterInput (with_active_set sb newSet))
      else sb
  | _, _ => sb
  end.

(** The reset scores button handler.  [val(0)] on the score inputs
    makes every score [getScore] reads 0; the selects of the starting
    players are left out by the selector. *)
Definition resetScores (sb : Scoreboard) : Scoreboard :=
  uploadData
    (mkScoreboard 1 (push [] reset_event) (gameSettings sb) (authorized sb)
       (fun _ _ => 0) (starting_server_field sb) (starting_receiver_field sb)).

(** [getPlayedSets()], as the positions of [this.$sets] it keeps;
    [sets] is the number of elements of [this.$sets]. *)
Definition getPlayedSets (sb : Scoreboard) (sets : nat) : list nat :=
  List.filter (fun i => Z.of_nat i + 1 <? active_set sb) (seq 0 sets).

(** [this.setWinner(i + 1) === team]. *)
Definition won_by (sb : Scoreboard) (team : string) (i : nat) : bool :=
  match setWinner sb (Z.of_nat i + 1) with
  | Some winner => String.eqb winner team
  | None => false
  end.

(** [getSetScore(team)]: the callback counts by the position in
    [playedSets]. *)
Definition getSetScore (sb : Scoreboard) (sets : nat) (team : string) : Z :=
  let playedSets := getPlayedSets sb sets in
  fold_left (fun setScore i => if won_by sb team i then setScore + 1 else setScore)
    (seq 0 (length playedSets)) 0.

(** A played set has a winner. *)
Definition decided (sb : Scoreboard) (i : nat) : bool :=
  match setWinner sb (Z.of_nat i + 1) with Some _ => true | None => false end.

(** ** Score history display *)

(** One [score_item] element that [updateScoreHistoryForContainer]
    appends: its class [active], its [streak] attribute, its [break]
    attribute and the number it shows. *)
Record ScoreItem : Type := mkScoreItem {
  item_active : bool;
  item_streak : Z;
  item_break : bool;
  item_score : option Z
}.

(** [x > y] on numbers, false when one of them is [NaN]. *)
Definition num_gt (x y : option Z) : bool :=
  match x, y with
  | Some a, Some b => b <? a
  | _, _ => false
  end.

(** [i > 0 ? scoresList[i - 1] : 0]. *)
Definition previous_score (scoresList : list (option Z)) (i : Z) : option Z :=
  if 0 <? i then mjoin (index scoresList (i - 1)) else Some 0.

(** The [$.each] over [scoresList] in [updateScoreHistoryForContainer],
    from position [i] with the streak so far. *)
Fixpoint scoreItems (sb : Scoreboard) (set : Z) (team : string)
    (scoresList : list (option Z)) (i streak : Z) (rest : list (option Z))
    : JsResult (list ScoreItem) :=
  match rest with
  | [] => Ok []
  | score :: rest' =>
      let isActive := num_gt score (previous_score scoresList i) in
      let streak' := if isActive then streak + 1 else 0 in
      isBreak ←
        (if isActive then
           servingPlayer ← getServingPlayerAtPoint sb i set;
           let servingTeam := getPlayerTeam servingPlayer in
           Ok (match servingTeam with
               | Some st => String.eqb st team
               | None => false
               end)
         else Ok false);
      items ← scoreItems sb set team scoresList (i + 1) streak' rest';
      Ok (mkScoreItem isActive streak' isBreak score :: items)
  end.

(** [updateScoreHistoryForContainer($container, set)] for a container
    of [team]: the elements it appends. *)
Definition updateScoreHistoryForContainer (sb : Scoreboard) (team : string)
    (set : Z) : JsResult (list ScoreItem) :=
  let scoresList := scoreHistoryToTeamPoints (getScoreHistory sb set) team in
  scoreItems sb set team scoresList 0 0 scoresList.

(** The elements shown with the [break] attribute. *)
Definition breaks_shown (items : list ScoreItem) : Z :=
  Z.of_nat (length (List.filter item_break items)).

(** The events of [team] whose element is not [active]: the score they
    carry is not above the one before. *)
Definition not_raising (team : string) (events : list Event)
    (items : list ScoreItem) : Z :=
  Z.of_nat (length (List.filter
    (fun p => event_of_team team (fst p) && negb (item_active (snd p)))
    (combine events items))).

(** ** Serve indicator *)

(** What [updateServeIndicator] leaves on the [.serve_indicator]
    elements: whether they are shown, the team whose indicators are
    [active], and the classes [single_serve], [serve_1] and [serve_2]
    of these. *)
Record ServeIndicator : Type := mkServeIndicator {
  indicator_shown : bool;
  indicator_team : option string;
  single_serve : bool;
  serve_1 : bool;
  serve_2 : bool
}.

(** [updateServeIndicator()]. *)
Definition updateServeIndicator (sb : Scoreboard) : ServeIndicator :=
  let serveInfo := getServeInfo sb in
  match setWinner sb (active_set sb) with
  | Some _ => mkServeIndicator false None false false false
  | None =>
      match serveInfo with
      | Some info =>
          let totalPoints := getTotalPointsInSet sb (active_set sb) in
          mkServeIndicator true (Some (team info))
            ((totalPoints =? 0) || isOvertime info)
            (serveNumber info =? 1) (serveNumber info =? 2)
      | None => mkServeIndicator true None false false false
      end
  end.

(** ** Refresh *)

(** [updateUI()]: of its steps [handleEventHistory] alone writes the
    state the core reads; the steps before it redraw sets, scores,
    indicators and settings, and [updateCurrentPlayersDisplay], which
    may throw, comes after it. *)
Definition updateUI (sb : Scoreboard) : Scoreboard * JsResult unit :=
  let sb' := handleEventHistory sb in
  (sb', updateCurrentPlayersDisplay sb').

(** A log at its cap: 200 score events of team a for set 1. *)
Definition full_log : list Event := repeat (score_event "a" 1 1) 200.

(** Boards that hold the log at its cap: one of an authorised user with
    starting players a and c, one of a user who is not authorised for
    the channel, one with no starting players chosen. *)
Definition full_board : Scoreboard :=
  board default_settings 1 0 "a" "c" full_log.
Definition unauthorised_full_board : Scoreboard :=
  mkScoreboard 1 full_log default_settings false
    (fun _ t => if String.eqb t "a" then 1 else 0)
    (fun _ => "a") (fun _ => "c").
Definition unconfigured_full_board : Scoreboard :=
  board default_settings 1 0 "" "" full_log.

(** * Properties *)

(** ** The embedding on small inputs *)

(** The first nine points of a set that a serves to c: one serve of a,
    then two serves each of d, b, c, a. *)
Example rotation_first_points :
  List.map (fun p =>
      (getServingPlayerAtPoint (board default_settings 0 0 "a" "c" []) p 1,
       getReceivingPlayerAtPoint (board default_settings 0 0 "a" "c" []) p 1))
    [0; 1; 2; 3; 4; 5; 6; 7; 8]
  = [(Ok (Some "a"), Ok (Some "c")); (Ok (Some "d"), Ok (Some "b"));
     (Ok (Some "d"), Ok (Some "a")); (Ok (Some "b"), Ok (Some "c"));
     (Ok (Some "b"), Ok (Some "d")); (Ok (Some "c"), Ok (Some "a"));
     (Ok (Some "c"), Ok (Some "b")); (Ok (Some "a"), Ok (Some "d"));
     (Ok (Some "a"), Ok (Some "c"))].
Proof. vm_compute. reflexivity. Qed.

(** At 15:15 overtime begins: b serves points 27 and 28, then c, a, d
    serve one point each. *)
Example rotation_into_overtime :
  List.map (fun p =>
      (getServingPlayerAtPoint (board default_settings 15 15 "a" "c" []) p 1,
       getReceivingPlayerAtPoint (board default_settings 15 15 "a" "c" []) p 1))
    [28; 29; 30; 31; 32]
  = [(Ok (Some "b"), Ok (Some "c")); (Ok (Some "c"), Ok (Some "a"));
     (Ok (Some "a"), Ok (Some "d")); (Ok (Some "d"), Ok (Some "b"));
     (Ok (Some "b"), Ok (Some "c"))].
Proof. vm_compute. reflexivity. Qed.

(** [%] keeps the sign of the dividend. *)
Example js_mod_negative :
  (js_mod (29 # 2) 4 == 5 # 2)%Q /\ (js_mod (-1 # 2) 4 == -1 # 2)%Q /\
  Qfloor (js_mod (-1 # 2) 4) = -1.
Proof. repeat split; vm_compute; reflexivity. Qed.

(** Three points a, b, a of a set that a serves to c: a break of a, a
    break of d, a sideout of a. *)
Example statistics_three_points :
  (stats ← calculateStatistics three_point_board 1;
   Ok (teamA stats, teamB stats,
       [players stats !! "a"; players stats !! "b";
        players stats !! "c"; players stats !! "d"]))
  = Ok (mkTeamStats 1 1, mkTeamStats 1 2,
        [Some (mkPlayerStats 1 1 1 1); Some (mkPlayerStats 0 1 0 0);
         Some (mkPlayerStats 0 1 0 0); Some (mkPlayerStats 0 0 1 2)]).
Proof. vm_compute. reflexivity. Qed.

(** A reset hides what was logged before it. *)
Example history_after_reset :
  getScoreHistory
    (board default_settings 1 0 "a" "c"
       [score_event "a" 5 1; reset_event; set_event 1; score_event "b" 1 2;
        squad_score_event (JStr "a") 3; score_event "a" 1 1]) 1
  = [score_event "a" 1 1].
Proof. reflexivity. Qed.

(** A comparison on [Z] decided by [lia]. *)
Ltac zbool :=
  match goal with
  | |- true = _ => symmetry
  | |- false = _ => symmetry
  | _ => idtac
  end;
  match goal with
  | |- (_ <? _) = true => apply Z.ltb_lt
  | |- (_ <? _) = false => apply Z.ltb_ge
  | |- (_ <=? _) = true => apply Z.leb_le
  | |- (_ <=? _) = false => apply Z.leb_gt
  | |- (_ =? _) = true => apply Z.eqb_eq
  | |- (_ =? _) = false => apply Z.eqb_neq
  end; lia.

(** ** Set winner *)

Section SetWinner.

Variable sb : Scoreboard.
Variable set : Z.

Let scoreA := getScore sb set "a".
Let scoreB := getScore sb set "b".
Let gs := gameSettings sb.

Lemma setWinner_hardcap :
  hardcap gs <= scoreA \/ hardcap gs <= scoreB ->
  setWinner sb set = Some (if scoreB <? scoreA then "a" else "b").
Proof.
  intros H. unfold setWinner. fold scoreA scoreB gs.
  destruct (hardcap gs <=? scoreA) eqn:Ha; [reflexivity|].
  destruct (hardcap gs <=? scoreB) eqn:Hb; [reflexivity|].
  lia.
Qed.

Lemma setWinner_below_hardcap :
  scoreA < hardcap gs -> scoreB < hardcap gs ->
  setWinner sb set =
    if ((win_points gs <=? scoreA) || (win_points gs <=? scoreB))
       && (min_win_margin gs <=? Z.abs (scoreA - scoreB))
    then Some (if scoreB <? scoreA then "a" else "b")
    else None.
Proof.
  intros Ha Hb. unfold setWinner. fold scoreA scoreB gs.
  replace (hardcap gs <=? scoreA) with false by lia.
  replace (hardcap gs <=? scoreB) with false by lia.
  cbn [orb].
  destruct ((win_points gs <=? scoreA) || (win_points gs <=? scoreB));
    cbn [andb]; reflexivity.
Qed.

End SetWinner.

(** C2.  [setWinner] decides a set in three steps.  When a score has
    reached the hardcap the team with the higher score wins, whatever
    the margin.  Otherwise, when a score has reached [win_points] and the
    scores differ by at least [min_win_margin], the team with the higher
    score wins.  Otherwise there is no winner. *)
Theorem setWinner_three_cases (sb : Scoreboard) (set : Z) :
  let scoreA := getScore sb set "a" in
  let scoreB := getScore sb set "b" in
  let gs := gameSettings sb in
  let hardcap_reached := hardcap gs <= scoreA \/ hardcap gs <= scoreB in
  let win_points_reached := win_points gs <= scoreA \/ win_points gs <= scoreB in
  let margin_met := min_win_margin gs <= Z.abs (scoreA - scoreB) in
  (hardcap_reached ->
     (scoreB < scoreA -> setWinner sb set = Some "a") /\
     (scoreA < scoreB -> setWinner sb set = Some "b")) /\
  (~ hardcap_reached -> win_points_reached -> margin_met ->
     (scoreB < scoreA -> setWinner sb set = Some "a") /\
     (scoreA < scoreB -> setWinner sb set = Some "b")) /\
  (~ hardcap_reached -> ~ (win_points_reached /\ margin_met) ->
     setWinner sb set = None).
Proof.
  cbv zeta.
  split; [intros H; split; intros Hlt
         | split; [intros Hh Hw Hm; split; intros Hlt | intros Hh Hn]].
  - rewrite setWinner_hardcap by exact H.
    replace (getScore sb set "b" <? getScore sb set "a") with true by lia.
    reflexivity.
  - rewrite setWinner_hardcap by exact H.
    replace (getScore sb set "b" <? getScore sb set "a") with false by lia.
    reflexivity.
  - rewrite setWinner_below_hardcap by lia.
    replace (_ || _) with true by lia.
    replace (min_win_margin _ <=? _) with true by lia.
    replace (getScore sb set "b" <? getScore sb set "a") with true by lia.
    reflexivity.
  - rewrite setWinner_below_hardcap by lia.
    replace (_ || _) with true by lia.
    replace (min_win_margin _ <=? _) with true by lia.
    replace (getScore sb set "b" <? getScore sb set "a") with false by lia.
    reflexivity.
  - rewrite setWinner_below_hardcap by lia.
    destruct (_ && _) eqn:E; [|reflexivity].
    exfalso. apply Hn. lia.
Qed.

(** C3 (as the code has it).  With [win_points] 21, [hardcap] 25 and
    [min_win_margin] 2, the scores 21:19, 23:21 and 25:23 are each won
    by team a: 21:19 reaches [win_points] with a margin of two. *)
Theorem setWinner_examples (sb : Scoreboard) (set : Z) :
  gameSettings sb = settings_21_25 ->
  (getScore sb set "a" = 21 -> getScore sb set "b" = 19 ->
     setWinner sb set = Some "a") /\
  (getScore sb set "a" = 23 -> getScore sb set "b" = 21 ->
     setWinner sb set = Some "a") /\
  (getScore sb set "a" = 25 -> getScore sb set "b" = 23 ->
     setWinner sb set = Some "a").
Proof.
  intros Hgs. unfold setWinner. rewrite Hgs. cbn [hardcap win_points min_win_margin settings_21_25].
  repeat split; intros -> ->; reflexivity.
Qed.

Lemma setWinner_examples_witness :
  setWinner (board settings_21_25 21 19 "a" "c" []) 1 = Some "a".
Proof.
  exact (proj1 (setWinner_examples (board settings_21_25 21 19 "a" "c" []) 1
                  eq_refl) eq_refl eq_refl).
Defined.

(** C3 (counterexample).  At 21:19 the code names team a the winner,
    not nobody. *)
Lemma setWinner_21_19_is_won :
  setWinner (board settings_21_25 21 19 "a" "c" []) 1 = Some "a" /\
  setWinner (board settings_21_25 21 19 "a" "c" []) 1 <> None.
Proof. split; [reflexivity | discriminate]. Qed.

(** C10.  With equal scores at or above the hardcap [setWinner] returns
    team b. *)
Theorem setWinner_tie_at_hardcap (sb : Scoreboard) (set : Z) :
  getScore sb set "a" = getScore sb set "b" ->
  hardcap (gameSettings sb) <= getScore sb set "a" ->
  setWinner sb set = Some "b".
Proof.
  intros Heq Hcap. rewrite setWinner_hardcap by (left; exact Hcap).
  rewrite Heq, Z.ltb_irrefl. reflexivity.
Qed.

Lemma setWinner_tie_at_hardcap_witness :
  setWinner (board settings_21_25 25 25 "a" "c" []) 1 = Some "b".
Proof.
  apply (setWinner_tie_at_hardcap (board settings_21_25 25 25 "a" "c" []) 1).
  - reflexivity.
  - vm_compute. discriminate.
Defined.

(** ** Event log *)

Section EachBreak.

Context {A : Type} (stop : A -> bool).

Lemma each_break_Some (arr : list A) (i : nat) :
  each_break stop arr = Some i ->
  exists pre x post,
    arr = pre ++ x :: post /\ length pre = i /\ stop x = true /\
    Forall (fun y => stop y = false) pre.
Proof.
  revert i. induction arr as [|a arr IH]; intros i H; [discriminate|].
  cbn in H. destruct (stop a) eqn:Ha.
  - injection H as <-. exists [], a, arr. repeat split; auto.
  - destruct (each_break stop arr) as [j|] eqn:Hj; [|discriminate].
    injection H as <-.
    destruct (IH j eq_refl) as (pre & x & post & -> & <- & Hx & Hpre).
    exists (a :: pre), x, post. repeat split; auto.
Qed.

Lemma each_break_None (arr : list A) :
  each_break stop arr = None -> Forall (fun y => stop y = false) arr.
Proof.
  induction arr as [|a arr IH]; intros H; [constructor|].
  cbn in H. destruct (stop a) eqn:Ha; [discriminate|].
  destruct (each_break stop arr); [discriminate|].
  constructor; auto.
Qed.

(** Scanning the reversed copy finds the last element that stops the
    scan; the position the callers compute from the index is its
    position in the array. *)
Lemma each_break_rev (arr : list A) :
  match each_break stop (rev arr) with
  | Some i =>
      exists before x after,
        arr = before ++ x :: after /\ stop x = true /\
        Forall (fun y => stop y = false) after /\
        Z.of_nat (length arr) - 1 - Z.of_nat i = Z.of_nat (length before)
  | None => Forall (fun y => stop y = false) arr
  end.
Proof.
  destruct (each_break stop (rev arr)) as [i|] eqn:H.
  - destruct (each_break_Some _ _ H) as (pre & x & post & Hrev & Hlen & Hx & Hpre).
    exists (rev post), x, (rev pre).
    assert (Harr : arr = rev post ++ x :: rev pre).
    { rewrite <- (rev_involutive arr), Hrev, rev_app_distr. cbn.
      rewrite <- app_assoc. reflexivity. }
    repeat split; auto.
    + apply Forall_rev; exact Hpre.
    + rewrite Harr. rewrite length_app. cbn [length]. rewrite !length_rev. lia.
  - apply each_break_None in H. apply Forall_rev in H.
    rewrite rev_involutive in H. exact H.
Qed.

Lemma splice1_middle (before after : list A) (x : A) :
  splice1 (Z.of_nat (length before)) (before ++ x :: after) = before ++ after.
Proof.
  unfold splice1. rewrite length_app. cbn [length].
  replace (Z.of_nat (length before) <? 0) with false by zbool.
  rewrite Z.min_l by lia. rewrite Nat2Z.id.
  rewrite firstn_app, firstn_all, Nat.sub_diag. cbn [firstn]. rewrite app_nil_r.
  replace (S (length before)) with (length (before ++ [x]))
    by (rewrite length_app; cbn; lia).
  replace (before ++ x :: after) with ((before ++ [x]) ++ after)
    by (rewrite <- app_assoc; reflexivity).
  rewrite skipn_app, skipn_all, Nat.sub_diag. reflexivity.
Qed.

Lemma slice_from_after (before after : list A) (x : A) :
  slice_from (Z.of_nat (length before) + 1) (before ++ x :: after) = after.
Proof.
  unfold slice_from. rewrite length_app. cbn [length].
  replace (Z.of_nat (length before) + 1 <? 0) with false by zbool.
  rewrite Z.min_l by lia.
  replace (Z.to_nat (Z.of_nat (length before) + 1)) with (length (before ++ [x]))
    by (rewrite length_app; cbn; lia).
  replace (before ++ x :: after) with ((before ++ [x]) ++ after)
    by (rewrite <- app_assoc; reflexivity).
  rewrite skipn_app, skipn_all, Nat.sub_diag. reflexivity.
Qed.

Lemma slice_from_zero (arr : list A) : slice_from 0 arr = arr.
Proof.
  unfold slice_from. cbn. rewrite Z.min_l by lia. reflexivity.
Qed.

Lemma slice_from_last (n : nat) (arr : list A) :
  (0 < n < length arr)%nat ->
  slice_from (- Z.of_nat n) arr = skipn (length arr - n) arr /\
  length (slice_from (- Z.of_nat n) arr) = n.
Proof.
  intros Hlen. unfold slice_from.
  replace (- Z.of_nat n <? 0) with true by zbool.
  rewrite Z.max_l by lia.
  replace (Z.to_nat (Z.of_nat (length arr) + - Z.of_nat n))
    with (length arr - n)%nat by lia.
  split; [reflexivity|]. rewrite length_skipn. lia.
Qed.

End EachBreak.

(** [handleEventHistory] returns the last 200 entries of a longer log
    and leaves a log of at most 200 entries as it is. *)
Lemma handleEventHistory_log (sb : Scoreboard) :
  event_history (handleEventHistory sb) =
    skipn (length (event_history sb) - 200) (event_history sb).
Proof.
  unfold handleEventHistory.
  destruct (200 <? Z.of_nat (length (event_history sb))) eqn:H.
  - cbn [event_history with_event_history].
    exact (proj1 (slice_from_last 200 (event_history sb) ltac:(lia))).
  - replace (length (event_history sb) - 200)%nat with 0%nat by lia.
    reflexivity.
Qed.

Lemma handleEventHistory_length (sb : Scoreboard) :
  (length (event_history (handleEventHistory sb)) <= 200)%nat.
Proof.
  rewrite handleEventHistory_log, length_skipn. lia.
Qed.

Lemma handleEventHistory_short (sb : Scoreboard) :
  (length (event_history sb) <= 200)%nat -> handleEventHistory sb = sb.
Proof.
  intros H. unfold handleEventHistory.
  replace (200 <? Z.of_nat (length (event_history sb))) with false by zbool.
  reflexivity.
Qed.

(** The part of the log [getScoreHistory] filters: what follows the
    last reset event, the whole log when there is none. *)
Lemma slice_after_last_reset (log : list Event) :
  exists before after,
    log = before ++ after /\
    (before = [] \/ exists older r, before = older ++ [r] /\ is_reset r = true) /\
    Forall (fun e => is_reset e = false) after /\
    slice_from (getLastResetIndex log + 1) log = after.
Proof.
  unfold getLastResetIndex.
  pose proof (each_break_rev is_reset log) as H.
  destruct (each_break is_reset (rev log)) as [i|].
  - destruct H as (older & r & after & Hlog & Hr & Hafter & Hidx).
    exists (older ++ [r]), after. rewrite Hidx.
    split; [rewrite <- app_assoc; exact Hlog|].
    split; [right; exists older, r; auto|].
    split; [exact Hafter|].
    rewrite Hlog at 1. apply slice_from_after.
  - exists [], log. repeat split; auto. apply slice_from_zero.
Qed.

(** C5 (as the code has it).  [getScoreHistory(set)] is the part of the
    log after the most recent reset event (the whole log when there is
    none), filtered, in log order, to the events of type ['score'] whose
    set equals [set] and which carry a non-empty string as team and a
    score that is not [undefined]. *)
Theorem getScoreHistory_since_last_reset (sb : Scoreboard) (set : Z) :
  exists before after,
    event_history sb = before ++ after /\
    (before = [] \/ exists older r, before = older ++ [r] /\ is_reset r = true) /\
    Forall (fun e => is_reset e = false) after /\
    getScoreHistory sb set =
      List.filter (fun event =>
        strict_eq (ev_type event) (JStr "score")
        && loose_eq (ev_set event) (JNum set)
        && truthy (ev_team event)
        && is_string (ev_team event)
        && is_defined (ev_score event)) after.
Proof.
  destruct (slice_after_last_reset (event_history sb))
    as (before & after & Hlog & Hbefore & Hafter & Hslice).
  exists before, after. repeat split; auto.
  unfold getScoreHistory. rewrite Hslice. reflexivity.
Qed.

(** C5 (counterexample).  A score event of the set without a team is of
    type ['score'] and of the given set, and [getScoreHistory] leaves it
    out. *)
Lemma getScoreHistory_drops_teamless_event :
  event_history
    (scoreInputHistory (board default_settings 0 0 "a" "c" []) JNull (Some 1) 1 false)
  = [teamless_score_event] /\
  getScoreHistory (board default_settings 0 0 "a" "c" [teamless_score_event]) 1 = [] /\
  List.filter (fun event =>
      strict_eq (ev_type event) (JStr "score") && loose_eq (ev_set event) (JNum 1))
    (event_history (board default_settings 0 0 "a" "c" [teamless_score_event]))
  = [teamless_score_event].
Proof. repeat split; reflexivity. Qed.

(** [removeEventHistoryEvents] removes the last event that passes its
    test and nothing else; when no event passes, the log stays. *)
Lemma removeEventHistoryEvents_spec (sb : Scoreboard) (team : jsval)
    (newScore : Z) (set : jsval) :
  let log := event_history sb in
  let log' := event_history (removeEventHistoryEvents sb team newScore set) in
  let matches := removal_match team newScore set in
  (exists before e after,
      log = before ++ e :: after /\ matches e = true /\
      Forall (fun x => matches x = false) after /\
      log' = before ++ after) \/
  (Forall (fun x => matches x = false) log /\ log' = log).
Proof.
  cbv zeta. unfold removeEventHistoryEvents.
  pose proof (each_break_rev (removal_match team newScore set) (event_history sb)) as H.
  destruct (each_break _ (rev (event_history sb))) as [i|].
  - left. destruct H as (before & e & after & Hlog & He & Hafter & Hidx).
    exists before, e, after. repeat split; auto.
    cbn [event_history with_event_history]. rewrite Hidx.
    rewrite Hlog at 1. apply splice1_middle.
  - right. split; [exact H | reflexivity].
Qed.

Lemma removeEventHistoryEvents_length (sb : Scoreboard) (team : jsval)
    (newScore : Z) (set : jsval) :
  (length (event_history (removeEventHistoryEvents sb team newScore set))
   <= length (event_history sb))%nat.
Proof.
  destruct (removeEventHistoryEvents_spec sb team newScore set)
    as [(before & e & after & Hlog & _ & _ & ->) | [_ ->]]; [|lia].
  rewrite Hlog, !length_app. cbn [length]. lia.
Qed.

Lemma removeEventHistoryEvents_fields (sb : Scoreboard) (team : jsval)
    (newScore : Z) (set : jsval) :
  removeEventHistoryEvents sb team newScore set =
    with_event_history sb
      (event_history (removeEventHistoryEvents sb team newScore set)).
Proof.
  unfold removeEventHistoryEvents.
  destruct (each_break _ _); [reflexivity|]. destruct sb; reflexivity.
Qed.

(** C4.  A score edit of a set score below the score of the latest
    event of that team and set removes the most recent event of type
    ['score'] of that team and set whose score is above the new score,
    and no other: the entries before and after it stay, in order.  When
    no event passes this test the log stays as it is.  The upload that
    ends the handler leaves a log within the cap of 200 as the edit left
    it. *)
Theorem score_decrease_removes_one_event (sb : Scoreboard) (team : jsval)
    (set : option Z) (newScore : Z) :
  newScore < oldScoreOf (event_history sb) "score" team set false ->
  let log := event_history sb in
  let log' := event_history (scoreInputHistory sb team set newScore false) in
  let matches := fun event =>
    strict_eq (ev_type event) (JStr "score")
    && strict_eq (ev_team event) team
    && gt_num (ev_score event) newScore
    && loose_eq (ev_set event) (set_detail set) in
  ((exists before e after,
       log = before ++ e :: after /\ matches e = true /\
       Forall (fun x => matches x = false) after /\
       log' = before ++ after) \/
   (Forall (fun x => matches x = false) log /\ log' = log)) /\
  ((length log <= 200)%nat ->
   event_history (scoreInput sb team set newScore false) = log').
Proof.
  intros Hlt. cbv zeta.
  assert (Hstep : scoreInputHistory sb team set newScore false =
                  removeEventHistoryEvents sb team newScore (set_detail set)).
  { unfold scoreInputHistory.
    replace (newScore <? _) with true by zbool. reflexivity. }
  rewrite Hstep. split.
  - exact (removeEventHistoryEvents_spec sb team newScore (set_detail set)).
  - intros Hlen. unfold scoreInput. rewrite Hstep.
    destruct (updateCurrentPlayersDisplay _); [|reflexivity].
    unfold uploadData. destruct (authorized _); [|reflexivity].
    rewrite handleEventHistory_short; [reflexivity|].
    pose proof (removeEventHistoryEvents_length sb team newScore (set_detail set)).
    lia.
Qed.

Lemma score_decrease_removes_one_event_witness :
  event_history
    (scoreInput
       (board default_settings 2 1 "a" "c"
          [score_event "a" 1 1; score_event "b" 1 1; score_event "a" 2 1])
       (JStr "a") (Some 1) 1 false)
  = [score_event "a" 1 1; score_event "b" 1 1].
Proof.
  destruct (score_decrease_removes_one_event
              (board default_settings 2 1 "a" "c"
                 [score_event "a" 1 1; score_event "b" 1 1; score_event "a" 2 1])
              (JStr "a") (Some 1) 1 ltac:(vm_compute; reflexivity)) as [_ H].
  rewrite H; [vm_compute; reflexivity | cbn; lia].
Defined.

(** ** Rotation arithmetic *)

(** [lia] with the equations of division and remainder by a constant. *)
Ltac zdiv := Z.to_euclidean_division_equations; lia.

Lemma Qtrunc_comp (x y : Q) : (x == y)%Q -> Qtrunc x = Qtrunc y.
Proof.
  destruct x as [a b], y as [c d]. unfold Qeq, Qtrunc. cbn [Qnum Qden].
  intros H.
  rewrite <- (Z.quot_mul_cancel_r a (Zpos b) (Zpos d)) by lia.
  rewrite <- (Z.quot_mul_cancel_r c (Zpos d) (Zpos b)) by lia.
  rewrite H. f_equal. lia.
Qed.

(** The remainder modulo 4 of a number of halves. *)
Lemma js_mod_half (x : Q) (m : Z) :
  (x == m # 2)%Q -> (js_mod x 4 == Z.rem m 8 # 2)%Q.
Proof.
  intros Hx. unfold js_mod.
  assert (Ht : Qtrunc (x / 4) = Z.quot m 8).
  { transitivity (Qtrunc (m # 8)); [|reflexivity].
    apply Qtrunc_comp. rewrite Hx. unfold Qeq. cbn. lia. }
  rewrite Ht, Hx. unfold Qeq. cbn.
  pose proof (Z.quot_rem' m 8). lia.
Qed.

(** The step of the server in normal play. *)
Lemma normal_steps (pointIndex : Z) :
  Qfloor (js_mod (inject_Z (pointIndex + 1) / 2) 4) = Z.rem (pointIndex + 1) 8 / 2.
Proof.
  rewrite (Qfloor_comp _ (Z.rem (pointIndex + 1) 8 # 2)); [reflexivity|].
  apply js_mod_half. unfold Qeq. cbn. lia.
Qed.

(** The step of the server in overtime. *)
Lemma overtime_steps (pointsTillOvertime pointIndex : Z) :
  Qfloor (js_mod (js_mod (inject_Z (pointsTillOvertime + 1) / 2) 4
                  + inject_Z (Z.rem (pointIndex - pointsTillOvertime) 4)) 4)
  = Z.rem (Z.rem (pointsTillOvertime + 1) 8
           + 2 * Z.rem (pointIndex - pointsTillOvertime) 4) 8 / 2.
Proof.
  set (h := pointsTillOvertime + 1).
  set (r := Z.rem (pointIndex - pointsTillOvertime) 4).
  rewrite (Qfloor_comp _ (Z.rem (Z.rem h 8 + 2 * r) 8 # 2)); [reflexivity|].
  apply js_mod_half.
  rewrite (js_mod_half (inject_Z h / 2) h) by (unfold Qeq; cbn; lia).
  unfold Qeq. cbn. lia.
Qed.

(** ** Rotation tables *)

(** Case analysis over the eight starting configurations. *)
Ltac each_configuration H :=
  unfold valid_configuration, valid_pairs in H; cbn [In] in H;
  repeat (destruct H as [H | H]; [injection H as <- <- |]);
  [.. | contradiction].

Ltac each_of_four k Hk :=
  assert (k = 0 \/ k = 1 \/ k = 2 \/ k = 3) as [-> | [-> | [-> | ->]]] by lia;
  clear Hk.

Ltac each_of_eight k Hk :=
  assert (k = 0 \/ k = 1 \/ k = 2 \/ k = 3 \/ k = 4 \/ k = 5 \/ k = 6 \/ k = 7)
    as [-> | [-> | [-> | [-> | [-> | [-> | [-> | ->]]]]]]] by lia;
  clear Hk.

(** In a valid configuration the starting server is on a team [t], the
    starting receiver on the other one, and the players of [serveOrder]
    alternate between the two teams from the starting server on. *)
Lemma serveOrder_teams (ss sr : string) :
  valid_configuration ss sr ->
  exists t order,
    (t = "a" \/ t = "b") /\
    getPlayerTeam (Some ss) = Some t /\
    getPlayerTeam (Some sr) = Some (other_team t) /\
    negb (String.eqb ss "") = true /\
    (if String.eqb ss "a" || String.eqb ss "b" then "a" else "b") = t /\
    serveOrderOf ss sr = Some order /\
    forall k, 0 <= k < 4 ->
      exists player,
        index order (Z.rem (indexOf order ss + k) 4) = Some player /\
        getPlayerTeam (Some player) = slot_team t (Z.even k).
Proof.
  intros H. each_configuration H.
  1-4: exists "a"; eexists; split; [left; reflexivity|];
    do 5 (split; [reflexivity|]);
    intros k Hk; each_of_four k Hk; eexists; split; reflexivity.
  all: exists "b"; eexists; split; [right; reflexivity|];
    do 5 (split; [reflexivity|]);
    intros k Hk; each_of_four k Hk; eexists; split; reflexivity.
Qed.

(** The receivers of normal play are on the team that does not serve:
    slot [j] of [receivingOrder] faces slot [((j + 1) % 8) / 2] of
    [serveOrder].  The two overtime orders alternate between the teams,
    starting on the team of the starting server. *)
Lemma receiveOrders_teams (ss sr : string) (t : string) :
  valid_configuration ss sr ->
  getPlayerTeam (Some ss) = Some t ->
  exists orders,
    receiveOrdersOf ss sr = Some orders /\
    (forall j, 0 <= j < 8 ->
       exists player,
         index (receivingOrder orders)
           (Z.rem (indexOf (receivingOrder orders) sr + j) 8) = Some player /\
         getPlayerTeam (Some player) =
           slot_team t (negb (Z.even (Z.rem (j + 1) 8 / 2)))) /\
    (forall i, 0 <= i < 4 ->
       exists player15 player21,
         index (overtimeOrder15 orders)
           (Z.rem (indexOf (receivingOrder orders) sr + i) 4) = Some player15 /\
         index (overtimeOrder21 orders)
           (Z.rem (indexOf (receivingOrder orders) sr + i) 4) = Some player21 /\
         getPlayerTeam (Some player15) = slot_team t (Z.even i) /\
         getPlayerTeam (Some player21) = slot_team t (Z.even i)).
Proof.
  intros H Ht. each_configuration H.
  all: cbn in Ht; injection Ht as <-.
  all: eexists; split; [reflexivity|]; split.
  all: try (intros j Hj; each_of_eight j Hj; eexists; split; reflexivity).
  all: intros i Hi; each_of_four i Hi; do 2 eexists; repeat split; reflexivity.
Qed.

(** Outside the eight configurations no branch binds the arrays. *)
Lemma orders_undefined (ss sr : string) :
  ~ valid_configuration ss sr ->
  serveOrderOf ss sr = None /\ receiveOrdersOf ss sr = None.
Proof.
  intros H. unfold serveOrderOf, receiveOrdersOf.
  repeat match goal with
  | |- context [String.eqb ?a ?b] =>
      is_var a; destruct (String.eqb_spec a b) as [-> | ?]; cbn
  end.
  all: try (split; reflexivity).
  all: exfalso; apply H; unfold valid_configuration, valid_pairs; cbn [In]; tauto.
Qed.

(** ** Server and receiver *)

(** The parity of the server's step in overtime, for an odd
    [win_points] from the point at which overtime can begin. *)
Lemma overtime_parity (wp p : Z) :
  Z.odd wp = true -> 1 <= wp -> 1 <= p -> wp * 2 - 2 <= p ->
  let k := Z.rem (Z.rem (wp * 2 - 2 + 1) 8 + 2 * Z.rem (p - (wp * 2 - 2)) 4) 8 / 2 in
  let i := Z.rem (p - 1) 4 in
  0 <= k < 4 /\ 0 <= i < 4 /\
  Z.even k = (Z.rem p 2 =? 0) /\ Z.even i = negb (Z.even k).
Proof.
  intros Hodd Hwp Hp Hot. cbv zeta.
  apply Z.odd_spec in Hodd. destruct Hodd as [m ->].
  set (k := Z.rem _ 8 / 2). set (i := Z.rem (p - 1) 4).
  assert (Hk : 0 <= k < 4) by (subst k; zdiv).
  assert (Hi : 0 <= i < 4) by (subst i; zdiv).
  assert (Hkp : k mod 2 = p mod 2) by (subst k; zdiv).
  assert (Hip : i mod 2 = (p - 1) mod 2) by (subst i; zdiv).
  assert (Hrem : Z.rem p 2 = p mod 2) by zdiv.
  repeat split; try lia.
  - rewrite Zeven_mod, Hkp, Hrem. reflexivity.
  - rewrite !Zeven_mod, Hkp, Hip.
    destruct (Z.eqb_spec ((p - 1) mod 2) 0), (Z.eqb_spec (p mod 2) 0);
      try reflexivity; exfalso; zdiv.
Qed.

(** Overtime before its first possible point: the server's step need
    not be an index of [serveOrder]. *)
Lemma overtime_steps_in_range (wp p : Z) :
  1 <= wp -> wp * 2 - 2 <= p ->
  0 <= Z.rem (Z.rem (wp * 2 - 2 + 1) 8 + 2 * Z.rem (p - (wp * 2 - 2)) 4) 8 / 2 < 4.
Proof. intros Hwp Hp. zdiv. Qed.

Lemma opposite_slots (t s r : string) (own : bool) :
  t = "a" \/ t = "b" ->
  getPlayerTeam (Some s) = slot_team t own ->
  getPlayerTeam (Some r) = slot_team t (negb own) ->
  opposite_teams (Ok (Some s)) (Ok (Some r)).
Proof.
  intros Ht Hs Hr. exists s, r. split; [reflexivity|]. split; [reflexivity|].
  rewrite Hs, Hr. destruct Ht as [-> | ->], own; cbn; auto.
Qed.

Section Rotation.

Variable sb : Scoreboard.
Variable set : Z.

Let ss := getStartingServer sb set.
Let sr := getStartingReceiver sb set.
Let wp := win_points (gameSettings sb).

Hypothesis Hvalid : valid_configuration ss sr.

(** The server in normal play: the slot [((p + 1) % 8) / 2] of
    [serveOrder], of the starting team when the slot is even. *)
Lemma serving_normal (t : string) (p : Z) :
  getPlayerTeam (Some ss) = Some t -> 0 <= p ->
  isInOvertime sb set (Some p) = false ->
  exists s,
    getServingPlayerAtPoint sb p set = Ok (Some s) /\
    getPlayerTeam (Some s) = slot_team t (Z.even (Z.rem (p + 1) 8 / 2)).
Proof.
  intros Ht Hp Hot.
  destruct (serveOrder_teams ss sr Hvalid)
    as (t' & order & _ & Ht' & _ & _ & _ & Horder & Hslots).
  assert (t' = t) as -> by congruence.
  unfold getServingPlayerAtPoint. fold ss sr. rewrite Horder, Hot.
  destruct (Z.eqb_spec p 0) as [-> | Hp0].
  - exists ss. split; [reflexivity|]. rewrite Ht. reflexivity.
  - cbn [negb]. rewrite normal_steps.
    destruct (Hslots (Z.rem (p + 1) 8 / 2) ltac:(zdiv)) as (s & Hs & Hteam).
    exists s. rewrite Hs. auto.
Qed.

(** The receiver in normal play is on the other team. *)
Lemma receiving_normal (t : string) (p : Z) :
  getPlayerTeam (Some ss) = Some t -> 0 <= p ->
  isInOvertime sb set (Some p) = false ->
  exists r,
    getReceivingPlayerAtPoint sb p set = Ok (Some r) /\
    getPlayerTeam (Some r) = slot_team t (negb (Z.even (Z.rem (p + 1) 8 / 2))).
Proof.
  intros Ht Hp Hot.
  destruct (serveOrder_teams ss sr Hvalid)
    as (t' & _ & _ & Ht' & Hsr & _).
  assert (t' = t) as -> by congruence.
  destruct (receiveOrders_teams ss sr t Hvalid Ht) as (orders & Horders & Hnormal & _).
  unfold getReceivingPlayerAtPoint. fold ss sr. rewrite Horders, Hot.
  destruct (Z.eqb_spec p 0) as [-> | Hp0].
  - exists sr. split; [reflexivity|]. rewrite Hsr. reflexivity.
  - cbn [negb].
    destruct (Hnormal (Z.rem p 8) ltac:(zdiv)) as (r & Hr & Hteam).
    exists r. rewrite Hr. split; [reflexivity|]. rewrite Hteam.
    do 3 f_equal. zdiv.
Qed.

(** The server in overtime, from a step that is an index of
    [serveOrder]. *)
Lemma serving_overtime (t : string) (p : Z) :
  getPlayerTeam (Some ss) = Some t -> 1 <= p ->
  isInOvertime sb set (Some p) = true ->
  1 <= wp -> wp * 2 - 2 <= p ->
  exists s,
    getServingPlayerAtPoint sb p set = Ok (Some s) /\
    getPlayerTeam (Some s) =
      slot_team t
        (Z.even (Z.rem (Z.rem (wp * 2 - 2 + 1) 8
                        + 2 * Z.rem (p - (wp * 2 - 2)) 4) 8 / 2)).
Proof.
  intros Ht Hp Hot Hwp Hfrom.
  destruct (serveOrder_teams ss sr Hvalid)
    as (t' & order & _ & Ht' & _ & _ & _ & Horder & Hslots).
  assert (t' = t) as -> by congruence.
  unfold getServingPlayerAtPoint. fold ss sr wp. rewrite Horder, Hot.
  replace (p =? 0) with false by zbool. cbn [negb].
  rewrite overtime_steps.
  destruct (Hslots _ (overtime_steps_in_range wp p Hwp Hfrom)) as (s & Hs & Hteam).
  exists s. rewrite Hs. auto.
Qed.

(** The receiver in overtime: slot [(p - 1) % 4] of the overtime order,
    whichever of the two [win_points] selects. *)
Lemma receiving_overtime (t : string) (p : Z) :
  getPlayerTeam (Some ss) = Some t -> 1 <= p ->
  isInOvertime sb set (Some p) = true ->
  exists r,
    getReceivingPlayerAtPoint sb p set = Ok (Some r) /\
    getPlayerTeam (Some r) = slot_team t (Z.even (Z.rem (p - 1) 4)).
Proof.
  intros Ht Hp Hot.
  destruct (receiveOrders_teams ss sr t Hvalid Ht) as (orders & Horders & _ & Hover).
  unfold getReceivingPlayerAtPoint. fold ss sr wp. rewrite Horders, Hot.
  replace (p =? 0) with false by zbool. cbn [negb].
  destruct (Hover (Z.rem (p - 1) 4) ltac:(zdiv)) as (r15 & r21 & H15 & H21 & Ht15 & Ht21).
  destruct (wp =? 15).
  - exists r15. rewrite H15. auto.
  - exists r21. rewrite H21. auto.
Qed.

End Rotation.

(** C1 (as the code has it).  In each of the eight starting
    configurations and at every point index from 0 on, the server and
    the receiver of the point are players of opposite teams when the
    point is played in normal mode, or is point 0, or is played in
    overtime with an odd [win_points] of at least 1 at a point index of
    at least [2 * win_points - 2]. *)
Theorem server_and_receiver_on_opposite_teams (sb : Scoreboard) (set p : Z) :
  valid_configuration (getStartingServer sb set) (getStartingReceiver sb set) ->
  0 <= p ->
  (isInOvertime sb set (Some p) = true ->
   p = 0 \/
   (Z.odd (win_points (gameSettings sb)) = true /\
    1 <= win_points (gameSettings sb) /\
    win_points (gameSettings sb) * 2 - 2 <= p)) ->
  opposite_teams (getServingPlayerAtPoint sb p set)
                 (getReceivingPlayerAtPoint sb p set).
Proof.
  intros Hvalid Hp Hot.
  destruct (serveOrder_teams _ _ Hvalid)
    as (t & order & Hab & Ht & Hsr & _ & _ & Horder & _).
  destruct (Z.eqb_spec p 0) as [-> | Hp0].
  - (* point 0: the starting server and the starting receiver *)
    destruct (receiveOrders_teams _ _ t Hvalid Ht) as (orders & Horders & _).
    unfold getServingPlayerAtPoint, getReceivingPlayerAtPoint.
    rewrite Horder, Horders. cbn [Z.eqb].
    apply (opposite_slots t _ _ true Hab); [rewrite Ht | rewrite Hsr]; reflexivity.
  - destruct (isInOvertime sb set (Some p)) eqn:Hmode.
    + destruct (Hot eq_refl) as [-> | (Hodd & Hwp & Hfrom)]; [contradiction|].
      destruct (serving_overtime sb set Hvalid t p Ht ltac:(lia) Hmode Hwp Hfrom)
        as (s & -> & Hs).
      destruct (receiving_overtime sb set Hvalid t p Ht ltac:(lia) Hmode)
        as (r & -> & Hr).
      destruct (overtime_parity _ p Hodd Hwp ltac:(lia) Hfrom) as (_ & _ & _ & Hpar).
      rewrite Hpar in Hr.
      destruct (opposite_slots t r s _ Hab Hr) as (r' & s' & Hr' & Hs' & Hteams).
      { rewrite negb_involutive. exact Hs. }
      injection Hr' as <-. injection Hs' as <-.
      exists s, r. repeat split; tauto.
    + destruct (serving_normal sb set Hvalid t p Ht Hp Hmode) as (s & -> & Hs).
      destruct (receiving_normal sb set Hvalid t p Ht Hp Hmode) as (r & -> & Hr).
      exact (opposite_slots t s r _ Hab Hs Hr).
Qed.

Lemma server_and_receiver_on_opposite_teams_witness :
  opposite_teams
    (getServingPlayerAtPoint (board default_settings 15 14 "a" "c" []) 29 1)
    (getReceivingPlayerAtPoint (board default_settings 15 14 "a" "c" []) 29 1).
Proof.
  apply (server_and_receiver_on_opposite_teams
           (board default_settings 15 14 "a" "c" []) 1 29).
  - unfold valid_configuration, valid_pairs. cbn. tauto.
  - lia.
  - intros _. right. vm_compute. repeat split; discriminate.
Defined.

(** C1 (counterexample).  In overtime at point 1 the step of the server
    is negative and no player serves, while player c receives; and with
    [win_points] 16, at 16:15, player a both serves and receives. *)
Lemma overtime_rotation_breaks :
  (getServingPlayerAtPoint early_overtime_board 1 1 = Ok None /\
   getReceivingPlayerAtPoint early_overtime_board 1 1 = Ok (Some "c") /\
   isInOvertime early_overtime_board 1 (Some 1) = true) /\
  (getServingPlayerAtPoint even_win_points_board 31 1 = Ok (Some "a") /\
   getReceivingPlayerAtPoint even_win_points_board 31 1 = Ok (Some "a") /\
   isInOvertime even_win_points_board 1 (Some 31) = true) /\
  ~ opposite_teams (getServingPlayerAtPoint early_overtime_board 1 1)
                   (getReceivingPlayerAtPoint early_overtime_board 1 1) /\
  ~ opposite_teams (getServingPlayerAtPoint even_win_points_board 31 1)
                   (getReceivingPlayerAtPoint even_win_points_board 31 1).
Proof.
  split; [repeat split; vm_compute; reflexivity|].
  split; [repeat split; vm_compute; reflexivity|].
  split; intros (s & r & Hs & Hr & Hteams); vm_compute in Hs, Hr.
  - discriminate.
  - injection Hs as <-. injection Hr as <-.
    destruct Hteams as [[_ H] | [H _]]; vm_compute in H; discriminate.
Qed.

(** ** Lookups outside the eight configurations *)

(** For a pair of starting players outside the eight configurations
    both lookups throw, at every point index. *)
Lemma rotation_lookups_throw (sb : Scoreboard) (set p : Z) :
  ~ valid_configuration (getStartingServer sb set) (getStartingReceiver sb set) ->
  getServingPlayerAtPoint sb p set = TypeError /\
  getReceivingPlayerAtPoint sb p set = TypeError.
Proof.
  intros H. destruct (orders_undefined _ _ H) as [Hs Hr].
  unfold getServingPlayerAtPoint, getReceivingPlayerAtPoint.
  rewrite Hs, Hr. split; reflexivity.
Qed.

(** C9 (what the code does).  With no starting server and receiver
    chosen, and with two players of one team chosen, the lookups of
    server and receiver throw a [TypeError] instead of returning
    nothing, and so does the refresh of the display that calls them. *)
Theorem rotation_lookups_throw_unconfigured :
  getServingPlayerAtPoint unconfigured_board 0 1 = TypeError /\
  getReceivingPlayerAtPoint unconfigured_board 0 1 = TypeError /\
  getServingPlayerAtPoint (board default_settings 0 0 "a" "b" []) 3 1 = TypeError /\
  getReceivingPlayerAtPoint (board default_settings 0 0 "a" "b" []) 3 1 = TypeError /\
  updateCurrentPlayersDisplay unconfigured_board = TypeError.
Proof. repeat split; reflexivity. Qed.

(** ** The cap of the event log *)

Lemma serving_returns (sb : Scoreboard) (set p : Z) :
  valid_configuration (getStartingServer sb set) (getStartingReceiver sb set) ->
  exists player, getServingPlayerAtPoint sb p set = Ok player.
Proof.
  intros Hvalid.
  destruct (serveOrder_teams _ _ Hvalid) as (_ & order & _ & _ & _ & _ & _ & Horder & _).
  unfold getServingPlayerAtPoint. rewrite Horder.
  destruct (p =? 0); [eauto|]. destruct (negb _); eauto.
Qed.

Lemma receiving_returns (sb : Scoreboard) (set p : Z) :
  valid_configuration (getStartingServer sb set) (getStartingReceiver sb set) ->
  exists player, getReceivingPlayerAtPoint sb p set = Ok player.
Proof.
  intros Hvalid.
  destruct (serveOrder_teams _ _ Hvalid) as (t & _ & _ & Ht & _).
  destruct (receiveOrders_teams _ _ t Hvalid Ht) as (orders & Horders & _).
  unfold getReceivingPlayerAtPoint. rewrite Horders.
  destruct (p =? 0); [eauto|]. destruct (negb _); [eauto|].
  destruct (_ =? 15); eauto.
Qed.

(** The history update of the score input handler touches the log
    only. *)
Lemma scoreInputHistory_fields (sb : Scoreboard) (team : jsval) (set : option Z)
    (newScore : Z) (isSquadScore : bool) :
  scoreInputHistory sb team set newScore isSquadScore =
    with_event_history sb
      (event_history (scoreInputHistory sb team set newScore isSquadScore)).
Proof.
  unfold scoreInputHistory.
  destruct (_ && _); [apply removeEventHistoryEvents_fields | reflexivity].
Qed.

(** In a valid starting configuration the refresh of the player display
    returns, and the score input handler reaches its upload. *)
Lemma scoreInput_uploads (sb : Scoreboard) (team : jsval) (set : option Z)
    (newScore : Z) (isSquadScore : bool) :
  valid_configuration (getStartingServer sb (active_set sb))
    (getStartingReceiver sb (active_set sb)) ->
  scoreInput sb team set newScore isSquadScore =
    uploadData (scoreInputHistory sb team set newScore isSquadScore).
Proof.
  intros Hvalid. unfold scoreInput.
  rewrite (scoreInputHistory_fields sb team set newScore isSquadScore).
  set (log1 := event_history (scoreInputHistory sb team set newScore isSquadScore)).
  assert (Hvalid1 : valid_configuration
            (getStartingServer (with_event_history sb log1)
               (active_set (with_event_history sb log1)))
            (getStartingReceiver (with_event_history sb log1)
               (active_set (with_event_history sb log1)))) by exact Hvalid.
  unfold updateCurrentPlayersDisplay.
  destruct (serving_returns _ _
              (getTotalPointsInSet (with_event_history sb log1)
                 (active_set (with_event_history sb log1))) Hvalid1) as [s ->].
  destruct (receiving_returns _ _
              (getTotalPointsInSet (with_event_history sb log1)
                 (active_set (with_event_history sb log1))) Hvalid1) as [r ->].
  reflexivity.
Qed.

Lemma uploadData_shorter (sb : Scoreboard) :
  (length (event_history (uploadData sb)) <= length (event_history sb))%nat.
Proof.
  unfold uploadData. destruct (authorized sb); [|lia].
  rewrite handleEventHistory_log, length_skipn. lia.
Qed.

Lemma scoreInputHistory_length (sb : Scoreboard) (team : jsval) (set : option Z)
    (newScore : Z) (isSquadScore : bool) :
  (length (event_history (scoreInputHistory sb team set newScore isSquadScore))
   <= length (event_history sb) + 1)%nat.
Proof.
  unfold scoreInputHistory. destruct (_ && _).
  - pose proof (removeEventHistoryEvents_length sb team newScore (set_detail set)).
    lia.
  - cbn [event_history with_event_history]. unfold push.
    rewrite length_app. cbn [length]. lia.
Qed.

(** C6 (as the code has it).  The log is cut by [handleEventHistory]
    alone: it keeps the most recent 200 entries, the newest one
    included, drops the oldest ones, and leaves a log of at most 200
    entries as it is.  It runs at every refresh and in every upload of
    an authorised user, not at the append.  A handler adds at most one
    entry to the log, so that the log it leaves can be one entry above
    the cap until the next refresh or upload; the score input handler in
    a valid starting configuration and the set change buttons end with
    the upload, which for an authorised user leaves at most 200
    entries. *)
Theorem event_log_cut_at_upload_and_refresh (sb : Scoreboard) :
  let log := event_history sb in
  let cut := event_history (handleEventHistory sb) in
  (cut = skipn (length log - 200) log /\
   (length cut <= 200)%nat /\
   (exists dropped,
      log = dropped ++ cut /\ length dropped = (length log - 200)%nat) /\
   (forall older e, log = older ++ [e] -> exists kept, cut = kept ++ [e]) /\
   ((length log <= 200)%nat -> handleEventHistory sb = sb)) /\
  (fst (updateUI sb) = handleEventHistory sb /\
   (authorized sb = true -> uploadData sb = handleEventHistory sb) /\
   (authorized sb = false -> uploadData sb = sb)) /\
  ((forall team set x squad,
      (length (event_history (scoreInput sb team set x squad))
       <= length log + 1)%nat) /\
   length (event_history (setCounterInput sb)) = (length log + 1)%nat /\
   (forall change currentSet,
      (length (event_history (setChangeButton sb change currentSet))
       <= length log + 1)%nat) /\
   length (event_history (resetScores sb)) = 1%nat) /\
  (authorized sb = true ->
   (forall team set x squad,
      valid_configuration (getStartingServer sb (active_set sb))
        (getStartingReceiver sb (active_set sb)) ->
      scoreInput sb team set x squad =
        handleEventHistory (scoreInputHistory sb team set x squad) /\
      (length (event_history (scoreInput sb team set x squad)) <= 200)%nat) /\
   (forall change currentSet,
      setChangeButton sb change currentSet = sb \/
      (length (event_history (setChangeButton sb change currentSet))
       <= 200)%nat)).
Proof.
  cbv zeta. split; [|split; [|split]].
  - rewrite handleEventHistory_log.
    split; [reflexivity|].
    split; [rewrite <- handleEventHistory_log; apply handleEventHistory_length|].
    split; [|split].
    + exists (firstn (length (event_history sb) - 200) (event_history sb)).
      split; [symmetry; apply firstn_skipn|].
      rewrite length_firstn. lia.
    + intros older e Hlog. rewrite Hlog, length_app. cbn [length].
      rewrite skipn_app.
      replace (length older + 1 - 200 - length older)%nat with 0%nat by lia.
      eexists. reflexivity.
    + apply handleEventHistory_short.
  - split; [reflexivity|]. unfold uploadData.
    split; intros ->; reflexivity.
  - split; [|split; [|split]].
    + intros team set x squad. unfold scoreInput.
      pose proof (scoreInputHistory_length sb team set x squad) as Hstep.
      pose proof (uploadData_shorter (scoreInputHistory sb team set x squad)).
      destruct (updateCurrentPlayersDisplay _); lia.
    + unfold setCounterInput, push. cbn [event_history with_event_history].
      rewrite length_app. reflexivity.
    + intros change currentSet. unfold setChangeButton.
      destruct currentSet as [c|], change as [d|]; try lia.
      destruct (_ && _); [|lia].
      pose proof (uploadData_shorter
                    (setCounterInput (with_active_set sb (c + d)))) as Hup.
      unfold setCounterInput at 2, push in Hup.
      cbn [event_history with_event_history with_active_set] in Hup.
      rewrite length_app in Hup. cbn [length] in Hup. exact Hup.
    + unfold resetScores, uploadData. cbn [authorized].
      rewrite handleEventHistory_short by (cbn; lia).
      destruct (authorized sb); reflexivity.
  - intros Hauth. split.
    + intros team set x squad Hvalid.
      rewrite (scoreInput_uploads sb team set x squad Hvalid).
      assert (Hauth1 : authorized (scoreInputHistory sb team set x squad) = true)
        by (rewrite scoreInputHistory_fields; exact Hauth).
      unfold uploadData. rewrite Hauth1.
      split; [reflexivity | apply handleEventHistory_length].
    + intros change currentSet. unfold setChangeButton.
      destruct currentSet as [c|], change as [d|]; try (left; reflexivity).
      destruct (_ && _); [|left; reflexivity].
      right. unfold uploadData. cbn [authorized setCounterInput with_event_history
        with_active_set]. rewrite Hauth. apply handleEventHistory_length.
Qed.

(** C6 (counterexample).  On a log of 200 entries, an input on the set
    counter leaves 201 entries, and so do a score entry of a user who is
    not authorised for the channel, a score entry with no starting
    players chosen, and a set change of a user who is not authorised;
    the score entry of an authorised user in a valid configuration
    leaves 200. *)
Lemma handlers_leave_201_entries :
  length (event_history full_board) = 200%nat /\
  length (event_history (setCounterInput full_board)) = 201%nat /\
  length (event_history
            (scoreInput unauthorised_full_board (JStr "a") (Some 1) 1 false))
    = 201%nat /\
  length (event_history
            (scoreInput unconfigured_full_board (JStr "a") (Some 1) 1 false))
    = 201%nat /\
  length (event_history (setChangeButton unauthorised_full_board (Some 1) (Some 1)))
    = 201%nat /\
  length (event_history (scoreInput full_board (JStr "a") (Some 1) 1 false))
    = 200%nat.
Proof. repeat split; vm_compute; reflexivity. Qed.

(** ** Serve info *)

Lemma teamPoints_length (lastScore : option Z) (events : list Event) (t : string) :
  (length (teamPoints lastScore events t) <= length events)%nat.
Proof.
  revert lastScore. induction events as [|e events IH]; intros lastScore; cbn; [lia|].
  destruct (ev_team e); try (specialize (IH lastScore); lia).
  destruct (_ && _); cbn;
    match goal with
    | |- context [teamPoints ?l events t] => specialize (IH l)
    end; lia.
Qed.

(** Past the end of the score history of the set, the overtime status
    of a point index is the one of the scores shown. *)
Lemma isInOvertime_past_history (sb : Scoreboard) (set p : Z) :
  Z.of_nat (length (getScoreHistory sb set)) <= p ->
  isInOvertime sb set (Some p) = isInOvertime sb set None.
Proof.
  intros H. unfold isInOvertime, getScoreAtPointIndex, scoreHistoryToTeamPoints.
  pose proof (teamPoints_length (Some 0) (getScoreHistory sb set) "a").
  pose proof (teamPoints_length (Some 0) (getScoreHistory sb set) "b").
  replace (Z.of_nat (length (teamPoints _ _ "a")) <=? p) with true by zbool.
  replace (Z.of_nat (length (teamPoints _ _ "b")) <=? p) with true by zbool.
  reflexivity.
Qed.

(** C8 (as the code has it).  With a starting server chosen, as in
    every valid starting configuration, and a total point count from 0
    on, [getServeInfo] returns an object; its serve number is 1 or 2, 1
    at point 0 and 1 in overtime; in normal play after point 0 the
    points [2g + 1] and [2g + 2] form the serving turn [g], served with
    serve number 1 and 2 by the team that does not start when [g] is
    even and by the starting team when [g] is odd.  In a valid starting
    configuration its team is the team of the player
    [getServingPlayerAtPoint] returns at that point count at point 0,
    and, where the lookup sees the overtime status of the scores shown,
    in normal play and in overtime with an odd [win_points] of at least
    1 from point [2 * win_points - 2] on.  The lookup sees that status
    at every point count that is not below the number of events of the
    score history. *)
Theorem getServeInfo_matches_rotation (sb : Scoreboard) :
  let set := active_set sb in
  let totalPoints := getTotalPointsInSet sb set in
  let wp := win_points (gameSettings sb) in
  getStartingServer sb set <> "" ->
  0 <= totalPoints ->
  exists info startingTeam,
    getServeInfo sb = Some info /\
    getStartingTeam sb set = Some startingTeam /\
    isOvertime info = isInOvertime sb set None /\
    (serveNumber info = 1 \/ serveNumber info = 2) /\
    (totalPoints = 0 -> serveNumber info = 1 /\ team info = startingTeam) /\
    (isOvertime info = true -> serveNumber info = 1) /\
    (isOvertime info = false -> 1 <= totalPoints ->
       let g := (totalPoints - 1) / 2 in
       (totalPoints = 2 * g + 1 -> serveNumber info = 1) /\
       (totalPoints = 2 * g + 2 -> serveNumber info = 2) /\
       team info = (if Z.even g then other_team startingTeam else startingTeam)) /\
    (valid_configuration (getStartingServer sb set) (getStartingReceiver sb set) ->
     totalPoints = 0 \/
     (isInOvertime sb set (Some totalPoints) = isInOvertime sb set None /\
      (isOvertime info = false \/
       (Z.odd wp = true /\ 1 <= wp /\ wp * 2 - 2 <= totalPoints))) ->
       exists server,
         getServingPlayerAtPoint sb totalPoints set = Ok (Some server) /\
         getPlayerTeam (Some server) = Some (team info)) /\
    (Z.of_nat (length (getScoreHistory sb set)) <= totalPoints ->
     isInOvertime sb set (Some totalPoints) = isInOvertime sb set None).
Proof.
  cbv zeta.
  set (set := active_set sb). set (tp := getTotalPointsInSet sb set).
  intros Hserver Htp.
  set (t := if String.eqb (getStartingServer sb set) "a"
               || String.eqb (getStartingServer sb set) "b"
            then "a" else "b").
  assert (Hstart : getStartingTeam sb set = Some t).
  { unfold getStartingTeam.
    destruct (String.eqb_spec (getStartingServer sb set) ""); [contradiction|].
    reflexivity. }
  assert (Hzero : forall order,
            serveOrderOf (getStartingServer sb set) (getStartingReceiver sb set)
              = Some order ->
            getServingPlayerAtPoint sb 0 set = Ok (Some (getStartingServer sb set))).
  { intros order Horder. unfold getServingPlayerAtPoint. rewrite Horder.
    reflexivity. }
  unfold getServeInfo. fold set tp. rewrite Hstart.
  destruct (isInOvertime sb set None) eqn:Hmode.
  - (* overtime *)
    eexists; exists t. split; [reflexivity|]. cbn [isOvertime serveNumber team].
    split; [reflexivity|]. split; [reflexivity|]. split; [left; reflexivity|].
    split; [intros H0; split; [reflexivity | rewrite H0; reflexivity]|].
    split; [reflexivity|]. split; [discriminate|].
    split; [|intros Hlen; rewrite <- Hmode;
               exact (isInOvertime_past_history sb set tp Hlen)].
    intros Hvalid Hcase.
    destruct (serveOrder_teams _ _ Hvalid)
      as (t' & order & Hab & Ht & _ & _ & Hteam & Horder & _).
    assert (t' = t) as -> by (symmetry; exact Hteam).
    destruct (Z.eqb_spec tp 0) as [H0 | Hne].
    { rewrite H0, (Hzero order Horder). cbn [Z.rem Z.eqb].
      eexists. split; [reflexivity|]. exact Ht. }
    destruct Hcase as [H0 | [Hsync [Hn | (Hodd & Hwp & Hfrom)]]];
      [contradiction | discriminate |].
    destruct (serving_overtime sb set Hvalid t tp Ht ltac:(lia) Hsync Hwp Hfrom)
      as (s & Hs & Hst).
    destruct (overtime_parity _ tp Hodd Hwp ltac:(lia) Hfrom) as (_ & _ & Hpar & _).
    exists s. split; [exact Hs|]. rewrite Hst, Hpar. reflexivity.
  - (* normal play *)
    destruct (Z.eqb_spec tp 0) as [H0 | Hne].
    + eexists; exists t. split; [reflexivity|]. cbn [isOvertime serveNumber team].
      split; [reflexivity|]. split; [reflexivity|]. split; [left; reflexivity|].
      split; [intros _; split; reflexivity|].
      split; [reflexivity|]. split; [intros _ H1; lia|].
      split; [|intros Hlen; rewrite <- Hmode;
               exact (isInOvertime_past_history sb set tp Hlen)].
      intros Hvalid _.
      destruct (serveOrder_teams _ _ Hvalid)
        as (t' & order & Hab & Ht & _ & _ & Hteam & Horder & _).
      assert (t' = t) as -> by (symmetry; exact Hteam).
      rewrite H0, (Hzero order Horder).
      eexists. split; [reflexivity|]. exact Ht.
    + eexists; exists t. split; [reflexivity|]. cbn [isOvertime serveNumber team].
      assert (Hg : (Z.rem ((tp - 1) / 2) 2 =? 0) = Z.even ((tp - 1) / 2)).
      { rewrite Zeven_mod.
        destruct (Z.eqb_spec (Z.rem ((tp - 1) / 2) 2) 0),
                 (Z.eqb_spec (((tp - 1) / 2) mod 2) 0);
          try reflexivity; exfalso; zdiv. }
      split; [reflexivity|]. split; [reflexivity|].
      split; [zdiv|]. split; [intros H0; lia|]. split; [discriminate|].
      split; [|split; [|intros Hlen; rewrite <- Hmode;
               exact (isInOvertime_past_history sb set tp Hlen)]].
      * intros _ _. split; [intros; zdiv|]. split; [intros; zdiv|].
        rewrite Hg. reflexivity.
      * intros Hvalid Hcase.
        destruct (serveOrder_teams _ _ Hvalid)
          as (t' & order & Hab & Ht & _ & _ & Hteam & Horder & _).
        assert (t' = t) as -> by (symmetry; exact Hteam).
        destruct Hcase as [H0 | [Hsync _]]; [contradiction|].
        destruct (serving_normal sb set Hvalid t tp Ht Htp Hsync) as (s & Hs & Hst).
        exists s. split; [exact Hs|]. rewrite Hst, Hg. unfold slot_team. f_equal.
        assert (Hk : Z.even (Z.rem (tp + 1) 8 / 2) = negb (Z.even ((tp - 1) / 2))).
        { rewrite !Zeven_mod.
          destruct (Z.eqb_spec ((Z.rem (tp + 1) 8 / 2) mod 2) 0),
                   (Z.eqb_spec (((tp - 1) / 2) mod 2) 0);
            try reflexivity; exfalso; zdiv. }
        rewrite Hk. destruct (Z.even ((tp - 1) / 2)); reflexivity.
Qed.

Lemma getServeInfo_matches_rotation_witness :
  exists info,
    getServeInfo (board default_settings 3 2 "a" "c" []) = Some info /\
    serveNumber info = 1 /\ team info = "b" /\
    exists server,
      getServingPlayerAtPoint (board default_settings 3 2 "a" "c" []) 5 1
        = Ok (Some server) /\
      getPlayerTeam (Some server) = Some (team info).
Proof.
  destruct (getServeInfo_matches_rotation (board default_settings 3 2 "a" "c" []))
    as (info & t & Hinfo & _ & _ & _ & _ & _ & _ & Hteam & _).
  - discriminate.
  - vm_compute. discriminate.
  - exists info. split; [exact Hinfo|].
    assert (Hserver : exists server,
              getServingPlayerAtPoint (board default_settings 3 2 "a" "c" []) 5 1
                = Ok (Some server) /\
              getPlayerTeam (Some server) = Some (team info)).
    { apply Hteam.
      - unfold valid_configuration, valid_pairs. cbn. tauto.
      - right. split; [reflexivity|]. left.
        vm_compute in Hinfo. injection Hinfo as <-. reflexivity. }
    vm_compute in Hinfo. injection Hinfo as <-.
    split; [reflexivity|]. split; [reflexivity | exact Hserver].
Defined.

(** C8 (counterexample).  With [win_points] 16, at 16:15 in overtime,
    [getServeInfo] names team b while the server of point 31 is player a
    of team a; at 21:0 under the default settings [getServeInfo] names
    team b while no player serves point 21; and on a board that shows
    1:1 while the log holds a 15:15 at its third event, [getServeInfo]
    names team b for the second serve of its turn while the rotation,
    in overtime by the log, returns player a. *)
Lemma getServeInfo_differs_from_rotation :
  (getTotalPointsInSet even_win_points_board 1 = 31 /\
   getServeInfo even_win_points_board = Some (mkServeInfo "b" 1 true) /\
   getServingPlayerAtPoint even_win_points_board 31 1 = Ok (Some "a") /\
   getPlayerTeam (Some "a") = Some "a") /\
  (getTotalPointsInSet hardcap_board 1 = 21 /\
   getServeInfo hardcap_board = Some (mkServeInfo "b" 1 true) /\
   getServingPlayerAtPoint hardcap_board 21 1 = Ok None) /\
  (getTotalPointsInSet drifted_board 1 = 2 /\
   getServeInfo drifted_board = Some (mkServeInfo "b" 2 false) /\
   getServingPlayerAtPoint drifted_board 2 1 = Ok (Some "a")).
Proof. repeat split; vm_compute; reflexivity. Qed.

(** ** Statistics *)

Lemma initial_statistics_players : four_players (players initial_statistics).
Proof.
  intros p. unfold initial_statistics, is_player. cbn [players].
  rewrite !lookup_insert_is_Some, lookup_empty, is_Some_alt.
  destruct (decide ("a" = p)), (decide ("b" = p)), (decide ("c" = p)),
           (decide ("d" = p)); intuition congruence.
Qed.

Lemma getPlayerTeam_is_player (p t : string) :
  getPlayerTeam (Some p) = Some t -> is_player p /\ (t = "a" \/ t = "b").
Proof.
  unfold getPlayerTeam, is_player.
  destruct (String.eqb_spec p "a"), (String.eqb_spec p "b"),
           (String.eqb_spec p "c"), (String.eqb_spec p "d");
    cbn; intros H; inversion H; auto.
Qed.

Lemma update_team_players (t : option string) (f : TeamStats -> TeamStats)
    (stats stats' : Statistics) :
  update_team t f stats = Ok stats' -> players stats' = players stats.
Proof.
  unfold update_team. destruct t as [t'|]; [|discriminate].
  destruct (String.eqb t' "a"); [intros [= <-]; reflexivity|].
  destruct (String.eqb t' "b"); [intros [= <-]; reflexivity|discriminate].
Qed.

Lemma update_team_defined (t : string) (f : TeamStats -> TeamStats)
    (stats : Statistics) :
  t = "a" \/ t = "b" -> exists stats', update_team (Some t) f stats = Ok stats'.
Proof. intros [-> | ->]; eexists; reflexivity. Qed.

(** An update of a player's counters keeps the four keys and moves
    the total of a counter by what the update adds to it. *)
Lemma update_player_total (p : option string) (f : PlayerStats -> PlayerStats)
    (field : PlayerStats -> Z) (d : Z) (stats stats' : Statistics) :
  (forall ps, field (f ps) = field ps + d) ->
  four_players (players stats) ->
  update_player p f stats = Ok stats' ->
  four_players (players stats') /\
  players_total field stats' = players_total field stats + d.
Proof.
  intros Hf Hkeys. unfold update_player.
  destruct p as [p'|]; [|discriminate].
  destruct (players stats !! p') as [ps|] eqn:Hps; [|discriminate].
  intros [= <-]. cbn [players]. split.
  - intros q. rewrite lookup_insert_is_Some. rewrite <- (Hkeys q).
    split; [intros [-> | [_ H]]; [rewrite Hps; eauto | exact H]|].
    intros H. destruct (decide (p' = q)); auto.
  - assert (Hp : is_player p') by (apply Hkeys; rewrite Hps; eauto).
    unfold players_total. cbn [foldr players].
    destruct Hp as [-> | [-> | [-> | ->]]];
      rewrite lookup_insert_eq, !lookup_insert_ne, Hps by discriminate;
      cbn [from_option]; rewrite Hf; lia.
Qed.

Lemma update_player_defined (p : string) (f : PlayerStats -> PlayerStats)
    (stats : Statistics) :
  four_players (players stats) -> is_player p ->
  exists stats', update_player (Some p) f stats = Ok stats'.
Proof.
  intros Hkeys Hp. apply Hkeys in Hp. destruct Hp as [ps Hps].
  unfold update_player. rewrite Hps. eexists. reflexivity.
Qed.

Lemma bind_Ok {A B : Type} (a : A) (k : A -> JsResult B) : (Ok a ≫= k) = k a.
Proof. reflexivity. Qed.

Lemma bind_inv {A B : Type} (r : JsResult A) (k : A -> JsResult B) (b : B) :
  (r ≫= k) = Ok b -> exists a, r = Ok a /\ k a = Ok b.
Proof. destruct r as [a|]; [|discriminate]. intros H. exists a. auto. Qed.

(** One entry of the loop: it is passed over, or it throws, or it adds
    one sideout opportunity to one of the four players. *)
Lemma processEvent_total (sb : Scoreboard) (set : Z) (stats stats' : Statistics)
    (index : Z) (event : Event) :
  four_players (players stats) ->
  processEvent sb set stats index event = Ok stats' ->
  four_players (players stats') /\
  players_total sideoutOpportunities stats' =
    players_total sideoutOpportunities stats + (if skipped event then 0 else 1).
Proof.
  intros Hkeys. unfold processEvent. fold (skipped event).
  destruct (skipped event); [intros [= <-]; split; [exact Hkeys | lia]|].
  destruct (ev_team event) as [| | |t]; try discriminate.
  intros H.
  apply bind_inv in H as (servingPlayer & _ & H).
  apply bind_inv in H as (receivingPlayer & _ & H).
  apply bind_inv in H as (s1 & H1 & H).
  apply bind_inv in H as (s2 & H2 & H).
  apply bind_inv in H as (s3 & H3 & H).
  apply update_team_players in H1. rewrite <- H1 in Hkeys.
  destruct (update_player_total _ incr_breakOpportunities sideoutOpportunities 0
              _ _ ltac:(intros; cbn; lia) Hkeys H2) as [Hkeys2 Htot2].
  destruct (update_player_total _ incr_sideoutOpportunities sideoutOpportunities 1
              _ _ ltac:(intros; cbn; lia) Hkeys2 H3) as [Hkeys3 Htot3].
  assert (Htot1 : players_total sideoutOpportunities s1 =
                  players_total sideoutOpportunities stats)
    by (unfold players_total; rewrite H1; reflexivity).
  match type of H with (if ?b then _ else _) = _ => destruct b end.
  - apply bind_inv in H as (s4 & H4 & H).
    apply update_team_players in H4. rewrite <- H4 in Hkeys3.
    destruct (update_player_total _ incr_breaks sideoutOpportunities 0
                _ _ ltac:(intros; cbn; lia) Hkeys3 H) as [Hkeys5 Htot5].
    assert (Htot4 : players_total sideoutOpportunities s4 =
                    players_total sideoutOpportunities s3)
      by (unfold players_total; rewrite H4; reflexivity).
    split; [exact Hkeys5 | lia].
  - destruct (update_player_total _ incr_sideouts sideoutOpportunities 0
                _ _ ltac:(intros; cbn; lia) Hkeys3 H) as [Hkeys5 Htot5].
    split; [exact Hkeys5 | lia].
Qed.

Lemma processEvents_total (sb : Scoreboard) (set : Z) (events : list Event) :
  forall (stats stats' : Statistics) (index : Z),
  four_players (players stats) ->
  Forall (fun e => skipped e = false) events ->
  processEvents sb set stats index events = Ok stats' ->
  players_total sideoutOpportunities stats' =
    players_total sideoutOpportunities stats + Z.of_nat (length events).
Proof.
  induction events as [|event rest IH]; intros stats stats' index Hkeys Hall H.
  - cbn in H. injection H as <-. cbn. lia.
  - cbn [processEvents] in H. apply bind_inv in H as (s1 & H1 & H).
    inversion Hall as [|? ? Hevent Hrest]; subst.
    destruct (processEvent_total _ _ _ _ _ _ Hkeys H1) as [Hkeys1 Htot1].
    rewrite Hevent in Htot1.
    rewrite (IH _ _ _ Hkeys1 Hrest H). cbn [length]. lia.
Qed.

(** For a set other than 0 no event of the score history is passed
    over. *)
Lemma history_not_skipped (set : Z) (event : Event) :
  set <> 0 -> history_match set event = true -> skipped event = false.
Proof.
  intros Hset. unfold history_match, skipped.
  rewrite !andb_true_iff. intros [[[[_ Hs] Ht] _] _].
  rewrite Ht. cbn [negb orb].
  destruct (ev_set event) as [| |m|str]; cbn in Hs |- *; try discriminate.
  - destruct (Z.eqb_spec m 0); [|reflexivity].
    apply Z.eqb_eq in Hs. lia.
  - unfold string_to_number in Hs.
    destruct (String.eqb str ""); [|reflexivity].
    apply Z.eqb_eq in Hs. lia.
Qed.

Lemma getScoreHistory_not_skipped (sb : Scoreboard) (set : Z) :
  set <> 0 -> Forall (fun e => skipped e = false) (getScoreHistory sb set).
Proof.
  intros Hset. apply List.Forall_forall. intros e He.
  unfold getScoreHistory in He. apply filter_In in He as [_ He].
  exact (history_not_skipped set e Hset He).
Qed.

Section Returning.

Variable sb : Scoreboard.
Variable set : Z.

Hypothesis Hvalid :
  valid_configuration (getStartingServer sb set) (getStartingReceiver sb set).

Lemma serving_defined (p : Z) :
  0 <= p -> overtime_in_time sb set p ->
  exists s ts,
    getServingPlayerAtPoint sb p set = Ok (Some s) /\
    getPlayerTeam (Some s) = Some ts.
Proof.
  intros Hp Hot.
  destruct (serveOrder_teams _ _ Hvalid) as (t & order & _ & Ht & _ & _ & _ & Horder & _).
  destruct (Z.eqb_spec p 0) as [-> | Hp0].
  - unfold getServingPlayerAtPoint. rewrite Horder. cbn [Z.eqb]. eauto.
  - destruct (isInOvertime sb set (Some p)) eqn:Hmode.
    + destruct (Hot Hmode) as [-> | [Hwp Hfrom]]; [contradiction|].
      destruct (serving_overtime sb set Hvalid t p Ht ltac:(lia) Hmode Hwp Hfrom)
        as (s & Hs & Hteam).
      unfold slot_team in Hteam. eauto.
    + destruct (serving_normal sb set Hvalid t p Ht Hp Hmode) as (s & Hs & Hteam).
      unfold slot_team in Hteam. eauto.
Qed.

Lemma receiving_defined (p : Z) :
  0 <= p ->
  exists r tr,
    getReceivingPlayerAtPoint sb p set = Ok (Some r) /\
    getPlayerTeam (Some r) = Some tr.
Proof.
  intros Hp.
  destruct (serveOrder_teams _ _ Hvalid) as (t & order & _ & Ht & Hsr & _).
  destruct (Z.eqb_spec p 0) as [-> | Hp0].
  - destruct (receiveOrders_teams _ _ t Hvalid Ht) as (orders & Horders & _).
    unfold getReceivingPlayerAtPoint. rewrite Horders. cbn [Z.eqb]. eauto.
  - destruct (isInOvertime sb set (Some p)) eqn:Hmode.
    + destruct (receiving_overtime sb set Hvalid t p Ht ltac:(lia) Hmode)
        as (r & Hr & Hteam).
      unfold slot_team in Hteam. eauto.
    + destruct (receiving_normal sb set Hvalid t p Ht Hp Hmode) as (r & Hr & Hteam).
      unfold slot_team in Hteam. eauto.
Qed.

(** An entry of the score history is counted when both lookups of its
    point return a player. *)
Lemma processEvent_defined (stats : Statistics) (index : Z) (event : Event) :
  four_players (players stats) ->
  0 <= index -> overtime_in_time sb set index ->
  history_match set event = true ->
  exists stats', processEvent sb set stats index event = Ok stats'.
Proof.
  intros Hkeys Hindex Hot Hmatch.
  destruct (serving_defined index Hindex Hot) as (s & ts & Hs & Hts).
  destruct (receiving_defined index Hindex) as (r & tr & Hr & Htr).
  destruct (getPlayerTeam_is_player _ _ Hts) as [Hsp Hab].
  destruct (getPlayerTeam_is_player _ _ Htr) as [Hrp _].
  unfold history_match in Hmatch. rewrite !andb_true_iff in Hmatch.
  destruct Hmatch as [[[[_ _] Htruthy] Hstring] _].
  unfold processEvent.
  destruct (negb (truthy (ev_team event)) || negb (truthy (ev_set event)));
    [eauto|].
  destruct (ev_team event) as [| | |t]; try discriminate.
  rewrite Hs, Hr, !bind_Ok, Hts.
  destruct (update_team_defined ts incr_team_breakOpportunities stats Hab)
    as (s1 & H1).
  rewrite H1, bind_Ok.
  pose proof (update_team_players _ _ _ _ H1) as Hp1. rewrite <- Hp1 in Hkeys.
  destruct (update_player_defined s incr_breakOpportunities s1 Hkeys Hsp)
    as (s2 & H2).
  rewrite H2, bind_Ok.
  destruct (update_player_total _ incr_breakOpportunities sideoutOpportunities 0
              _ _ ltac:(intros; cbn; lia) Hkeys H2) as [Hkeys2 _].
  destruct (update_player_defined r incr_sideoutOpportunities s2 Hkeys2 Hrp)
    as (s3 & H3).
  rewrite H3, bind_Ok.
  destruct (update_player_total _ incr_sideoutOpportunities sideoutOpportunities 1
              _ _ ltac:(intros; cbn; lia) Hkeys2 H3) as [Hkeys3 _].
  destruct (String.eqb_spec (toLowerCase t) ts) as [-> | _].
  - destruct (update_team_defined ts incr_team_breaks s3 Hab) as (s4 & H4).
    rewrite H4, bind_Ok.
    pose proof (update_team_players _ _ _ _ H4) as Hp4. rewrite <- Hp4 in Hkeys3.
    exact (update_player_defined s incr_breaks s4 Hkeys3 Hsp).
  - exact (update_player_defined r incr_sideouts s3 Hkeys3 Hrp).
Qed.

Lemma processEvents_defined (events : list Event) :
  forall (stats : Statistics) (index : Z),
  four_players (players stats) ->
  0 <= index ->
  (forall i, index <= i < index + Z.of_nat (length events) -> overtime_in_time sb set i) ->
  Forall (fun e => history_match set e = true) events ->
  exists stats', processEvents sb set stats index events = Ok stats'.
Proof.
  induction events as [|event rest IH]; intros stats index Hkeys Hindex Hot Hall.
  - eexists. reflexivity.
  - inversion Hall as [|? ? Hevent Hrest]; subst.
    cbn [length] in Hot.
    destruct (processEvent_defined stats index event Hkeys Hindex
                (Hot index ltac:(lia)) Hevent) as (s1 & H1).
    cbn [processEvents]. rewrite H1, bind_Ok.
    destruct (processEvent_total _ _ _ _ _ _ Hkeys H1) as [Hkeys1 _].
    apply (IH s1 (index + 1) Hkeys1 ltac:(lia)); [|exact Hrest].
    intros i Hi. apply Hot. lia.
Qed.

End Returning.

(** C7 (as the code has it).  For a set other than 0, whenever
    [calculateStatistics('set', set)] returns, the sideout opportunities
    of the four players add up to the number of events in the score
    history of the set.  It returns when the starting configuration of
    the set is one of the eight and no point of the history is in
    overtime before point [2 * win_points - 2] (point 0 apart), with
    [win_points] at least 1. *)
Theorem sideout_opportunities_count_points (sb : Scoreboard) (set : Z) :
  set <> 0 ->
  (forall stats,
     calculateStatistics sb set = Ok stats ->
     players_total sideoutOpportunities stats =
       Z.of_nat (length (getScoreHistory sb set))) /\
  (valid_configuration (getStartingServer sb set) (getStartingReceiver sb set) ->
   (forall i, 0 <= i < Z.of_nat (length (getScoreHistory sb set)) ->
      isInOvertime sb set (Some i) = true ->
      i = 0 \/ (1 <= win_points (gameSettings sb) /\
                win_points (gameSettings sb) * 2 - 2 <= i)) ->
   exists stats, calculateStatistics sb set = Ok stats).
Proof.
  intros Hset. unfold calculateStatistics. split.
  - intros stats H.
    rewrite (processEvents_total sb set _ _ _ _ initial_statistics_players
               (getScoreHistory_not_skipped sb set Hset) H).
    reflexivity.
  - intros Hvalid Hot.
    apply (processEvents_defined sb set Hvalid _ _ _ initial_statistics_players);
      [lia | exact Hot |].
    apply List.Forall_forall. intros e He.
    unfold getScoreHistory in He. apply filter_In in He as [_ He]. exact He.
Qed.

Lemma sideout_opportunities_count_points_witness :
  exists stats,
    calculateStatistics three_point_board 1 = Ok stats /\
    players_total sideoutOpportunities stats = 3.
Proof.
  destruct (sideout_opportunities_count_points three_point_board 1
              ltac:(discriminate)) as [Hsum Hdefined].
  destruct Hdefined as [stats Hstats].
  - unfold valid_configuration, valid_pairs. cbn. tauto.
  - intros i Hi Hot. exfalso.
    assert (Hlen : length (getScoreHistory three_point_board 1) = 3%nat)
      by (vm_compute; reflexivity).
    rewrite Hlen in Hi.
    assert (i = 0 \/ i = 1 \/ i = 2) as [-> | [-> | ->]] by lia;
      vm_compute in Hot; discriminate.
  - exists stats. split; [exact Hstats|].
    rewrite (Hsum stats Hstats). reflexivity.
Defined.

(** C7 (counterexample).  On a board in overtime at its second point
    the run throws and returns no statistics for the two events of the
    set, as it does for one event with no starting players chosen; and
    the event logged for set 0 is passed over, so that no sideout
    opportunity stands against one event. *)
Lemma sideout_opportunities_miss_points :
  (calculateStatistics early_overtime_board 1 = TypeError /\
   length (getScoreHistory early_overtime_board 1) = 2%nat) /\
  (calculateStatistics unconfigured_point_board 1 = TypeError /\
   length (getScoreHistory unconfigured_point_board 1) = 1%nat) /\
  ((stats ← calculateStatistics set_zero_board 0;
    Ok (players_total sideoutOpportunities stats)) = Ok 0 /\
   length (getScoreHistory set_zero_board 0) = 1%nat).
Proof. repeat split; vm_compute; reflexivity. Qed.

(** * Further properties of the code *)

(** ** Winner and overtime *)

(** X1.  Below the hardcap a set is never both won and in overtime, and
    once a score has reached [win_points] it is one of the two; with no
    score at [win_points] or at the hardcap it is neither.  Once a score
    has reached the hardcap the set is both: won and in overtime. *)
Theorem winner_and_overtime (sb : Scoreboard) (set : Z) :
  let scoreA := getScore sb set "a" in
  let scoreB := getScore sb set "b" in
  let gs := gameSettings sb in
  (scoreA < hardcap gs /\ scoreB < hardcap gs ->
     (setWinner sb set = None \/ isInOvertime sb set None = false) /\
     (win_points gs <= scoreA \/ win_points gs <= scoreB ->
        setWinner sb set <> None \/ isInOvertime sb set None = true) /\
     (scoreA < win_points gs /\ scoreB < win_points gs ->
        setWinner sb set = None /\ isInOvertime sb set None = false)) /\
  (hardcap gs <= scoreA \/ hardcap gs <= scoreB ->
     setWinner sb set <> None /\ isInOvertime sb set None = true).
Proof.
  cbv zeta. unfold setWinner, isInOvertime.
  repeat match goal with
  | |- context [Z.leb ?a ?b] => destruct (Z.leb_spec a b)
  | |- context [Z.ltb ?a ?b] => destruct (Z.ltb_spec a b)
  end; cbn [orb andb].
  all: split; [intros [Ha Hb]; split; [|split; [intros Hw | intros [Hwa Hwb]]]
              | intros Hh].
  all: solve [ exfalso; lia | left; reflexivity | right; reflexivity
             | left; discriminate | split; reflexivity
             | split; [discriminate | reflexivity] ].
Qed.

(** ** How the log operations compose *)

Lemma getScoreHistory_sinceLastReset (sb : Scoreboard) (set : Z) :
  getScoreHistory sb set =
    List.filter (history_match set) (sinceLastReset (event_history sb)).
Proof. reflexivity. Qed.

Lemma each_break_bound {A : Type} (stop : A -> bool) (arr : list A) (i : nat) :
  each_break stop arr = Some i -> (i < length arr)%nat.
Proof.
  intros H. destruct (each_break_Some stop arr i H) as (pre & x & post & -> & <- & _).
  rewrite length_app. cbn [length]. lia.
Qed.

(** The slice after the last reset, event by event: a reset empties
    it, every other event is added to it. *)
Lemma sinceLastReset_snoc (log : list Event) (e : Event) :
  sinceLastReset (log ++ [e]) =
    if is_reset e then [] else sinceLastReset log ++ [e].
Proof.
  unfold sinceLastReset, getLastResetIndex. rewrite rev_unit. cbn [each_break].
  destruct (is_reset e).
  - unfold slice_from.
    replace (_ <? 0) with false by (rewrite length_app; cbn [length]; zbool).
    rewrite Z.min_r by lia. rewrite Nat2Z.id. apply skipn_all.
  - destruct (each_break is_reset (rev log)) as [i|] eqn:Hi; cbn [option_map].
    + apply each_break_bound in Hi. rewrite length_rev in Hi.
      unfold slice_from. rewrite length_app. cbn [length].
      replace (_ <? 0) with false by zbool.
      replace (_ <? 0) with false by zbool.
      rewrite !Z.min_l by lia.
      replace (Z.to_nat (Z.of_nat (length log + 1) - 1 - Z.of_nat (S i) + 1))
        with (length log - i)%nat by lia.
      replace (Z.to_nat (Z.of_nat (length log) - 1 - Z.of_nat i + 1))
        with (length log - i)%nat by lia.
      rewrite skipn_app.
      replace (length log - i - length log)%nat with 0%nat by lia.
      reflexivity.
    + rewrite !slice_from_zero. reflexivity.
Qed.

Lemma sinceLastReset_nil : sinceLastReset [] = [].
Proof. reflexivity. Qed.

(** The slice after the last reset of a log in two parts. *)
Lemma sinceLastReset_app (l1 l2 : list Event) :
  sinceLastReset (l1 ++ l2) =
    if existsb is_reset l2 then sinceLastReset l2 else sinceLastReset l1 ++ l2.
Proof.
  induction l2 as [|x l IH] using rev_ind.
  - rewrite !app_nil_r. reflexivity.
  - rewrite app_assoc, !sinceLastReset_snoc, existsb_app. cbn [existsb].
    rewrite orb_false_r.
    destruct (is_reset x); [rewrite orb_true_r; reflexivity|].
    rewrite orb_false_r, IH.
    destruct (existsb is_reset l); [reflexivity|].
    rewrite <- app_assoc. reflexivity.
Qed.

Lemma sinceLastReset_no_reset (log : list Event) :
  existsb is_reset log = false -> sinceLastReset log = log.
Proof.
  intros H. pose proof (sinceLastReset_app [] log) as Happ.
  rewrite H in Happ. exact Happ.
Qed.

(** The score history of a set after a push. *)
Lemma getScoreHistory_push (sb : Scoreboard) (e : Event) (set : Z) :
  getScoreHistory (with_event_history sb (push (event_history sb) e)) set =
    if is_reset e then []
    else if history_match set e then getScoreHistory sb set ++ [e]
    else getScoreHistory sb set.
Proof.
  rewrite !getScoreHistory_sinceLastReset. cbn [event_history with_event_history].
  unfold push. rewrite sinceLastReset_snoc.
  destruct (is_reset e); [reflexivity|].
  rewrite List.filter_app. cbn [List.filter].
  destruct (history_match set e); [reflexivity | apply app_nil_r].
Qed.

(** X2.  Pushing an event onto the log changes the score history of a
    set in one of three ways: a reset event empties it, an event that
    passes the filter of the set is added at its end, and every other
    event leaves it as it is. *)
Theorem getScoreHistory_after_push (sb : Scoreboard) (e : Event) (set : Z) :
  getScoreHistory (with_event_history sb (push (event_history sb) e)) set =
    if is_reset e then []
    else if history_match set e then getScoreHistory sb set ++ [e]
    else getScoreHistory sb set.
Proof.
  rewrite !getScoreHistory_sinceLastReset. cbn [event_history with_event_history].
  unfold push. rewrite sinceLastReset_snoc.
  destruct (is_reset e); [reflexivity|].
  rewrite List.filter_app. cbn [List.filter].
  destruct (history_match set e); [reflexivity | apply app_nil_r].
Qed.

(** The score history of a set across the cut of [handleEventHistory]. *)
Lemma history_after_cut (sb : Scoreboard) (set : Z) :
  (exists lost,
     getScoreHistory sb set = lost ++ getScoreHistory (handleEventHistory sb) set) /\
  (existsb is_reset (event_history (handleEventHistory sb)) = true ->
   getScoreHistory (handleEventHistory sb) set = getScoreHistory sb set).
Proof.
  rewrite !getScoreHistory_sinceLastReset, handleEventHistory_log.
  set (m := (length (event_history sb) - 200)%nat).
  assert (Hsplit : sinceLastReset (event_history sb) =
                   if existsb is_reset (skipn m (event_history sb))
                   then sinceLastReset (skipn m (event_history sb))
                   else sinceLastReset (firstn m (event_history sb))
                        ++ skipn m (event_history sb)).
  { rewrite <- (firstn_skipn m (event_history sb)) at 1.
    apply sinceLastReset_app. }
  rewrite Hsplit.
  destruct (existsb is_reset (skipn m (event_history sb))) eqn:Hreset.
  - split; [exists []; reflexivity | reflexivity].
  - split; [|discriminate].
    rewrite (sinceLastReset_no_reset _ Hreset), List.filter_app. eexists. reflexivity.
Qed.

(** X3.  [handleEventHistory] does nothing to a log it has already cut;
    the score history of a set after the cut is the end of the one
    before (the entries lost are the oldest), and is the same when a
    reset event is among the entries kept. *)
Theorem handleEventHistory_keeps_recent_history (sb : Scoreboard) (set : Z) :
  handleEventHistory (handleEventHistory sb) = handleEventHistory sb /\
  (exists lost,
     getScoreHistory sb set = lost ++ getScoreHistory (handleEventHistory sb) set) /\
  (existsb is_reset (event_history (handleEventHistory sb)) = true ->
   getScoreHistory (handleEventHistory sb) set = getScoreHistory sb set).
Proof.
  split; [apply handleEventHistory_short, handleEventHistory_length|].
  apply history_after_cut.
Qed.

Lemma strict_eq_refl (v : jsval) : strict_eq v v = true.
Proof.
  destruct v; cbn; auto using Z.eqb_refl. apply String.eqb_refl.
Qed.

Lemma loose_eq_num_unique (v : jsval) (n m : Z) :
  loose_eq v (JNum n) = true -> loose_eq v (JNum m) = true -> n = m.
Proof.
  destruct v as [| |k|s]; cbn; try discriminate.
  - intros H1 H2. apply Z.eqb_eq in H1, H2. lia.
  - destruct (string_to_number s) as [k|]; [|discriminate].
    intros H1 H2. apply Z.eqb_eq in H1, H2. lia.
Qed.

Lemma removal_match_not_reset (team : jsval) (newScore : Z) (set : jsval)
    (e : Event) :
  removal_match team newScore set e = true -> is_reset e = false.
Proof.
  unfold removal_match, is_reset. rewrite !andb_true_iff.
  intros [[[Htype _] _] _].
  destruct (ev_type e) as [| | |s]; try discriminate.
  cbn in Htype |- *. apply String.eqb_eq in Htype. subst s. reflexivity.
Qed.

Lemma getScoreHistory_ext (sb1 sb2 : Scoreboard) (set : Z) :
  event_history sb1 = event_history sb2 ->
  getScoreHistory sb1 set = getScoreHistory sb2 set.
Proof. intros H. unfold getScoreHistory. rewrite H. reflexivity. Qed.

(** X4.  [removeEventHistoryEvents] for a set leaves the score history
    of every other set as it is, and takes at most one event, one that
    passes its test, out of the score history of the set. *)
Theorem removal_touches_one_history (sb : Scoreboard) (team : jsval)
    (newScore n : Z) :
  let sb' := removeEventHistoryEvents sb team newScore (JNum n) in
  (forall set', set' <> n -> getScoreHistory sb' set' = getScoreHistory sb set') /\
  (getScoreHistory sb' n = getScoreHistory sb n \/
   exists h1 e h2,
     getScoreHistory sb n = h1 ++ e :: h2 /\
     getScoreHistory sb' n = h1 ++ h2 /\
     removal_match team newScore (JNum n) e = true).
Proof.
  cbv zeta.
  destruct (removeEventHistoryEvents_spec sb team newScore (JNum n))
    as [(before & e & after & Hlog & He & _ & Hlog') | [_ Hlog']].
  2: { split; [intros set' _ | left]; apply getScoreHistory_ext; exact Hlog'. }
  assert (Hslices :
            existsb is_reset after = true /\
            sinceLastReset (before ++ e :: after) = sinceLastReset (before ++ after) \/
            sinceLastReset (before ++ e :: after) = sinceLastReset before ++ e :: after /\
            sinceLastReset (before ++ after) = sinceLastReset before ++ after).
  { rewrite !sinceLastReset_app. cbn [existsb].
    rewrite (removal_match_not_reset _ _ _ _ He). cbn [orb].
    destruct (existsb is_reset after) eqn:Hr; [left | right; auto].
    split; [reflexivity|].
    pose proof (sinceLastReset_app [e] after) as Happ. rewrite Hr in Happ.
    exact Happ. }
  rewrite !getScoreHistory_sinceLastReset.
  setoid_rewrite getScoreHistory_sinceLastReset.
  rewrite Hlog', Hlog.
  destruct Hslices as [[_ ->] | [-> ->]]; [split; [reflexivity | left; reflexivity]|].
  rewrite !List.filter_app. cbn [List.filter]. split.
  - intros set' Hset'. rewrite !List.filter_app. cbn [List.filter].
    assert (Hno : history_match set' e = false).
    { destruct (history_match set' e) eqn:Hm; [|reflexivity].
      unfold history_match, removal_match in Hm, He.
      repeat rewrite andb_true_iff in Hm. repeat rewrite andb_true_iff in He.
      destruct Hm as [[[[_ Hm] _] _] _]. destruct He as [_ He].
      exfalso. apply Hset'. exact (loose_eq_num_unique _ _ _ Hm He). }
    rewrite Hno. reflexivity.
  - destruct (history_match n e); [right | left; reflexivity].
    do 3 eexists. split; [reflexivity|]. split; [reflexivity | exact He].
Qed.

(** What the handler leaves of a history update that fits the cap. *)
Lemma scoreInput_below_cap (sb : Scoreboard) (team : jsval) (set : option Z)
    (newScore : Z) (isSquadScore : bool) :
  (length (event_history (scoreInputHistory sb team set newScore isSquadScore))
   <= 200)%nat ->
  event_history (scoreInput sb team set newScore isSquadScore) =
  event_history (scoreInputHistory sb team set newScore isSquadScore).
Proof.
  intros H. unfold scoreInput.
  destruct (updateCurrentPlayersDisplay _); [|reflexivity].
  unfold uploadData. destruct (authorized _); [|reflexivity].
  rewrite handleEventHistory_short by exact H. reflexivity.
Qed.

Lemma oldScoreOf_after_push (log : list Event) (team : jsval) (n x : Z) :
  oldScoreOf (log ++ [mkEvent (JStr "score") team (JNum x) (JNum n)])
    "score" team (Some n) false = x.
Proof.
  unfold oldScoreOf. rewrite rev_unit. cbn [List.find ev_type ev_team ev_set ev_score].
  rewrite !strict_eq_refl. cbn [set_detail loose_eq orb andb].
  rewrite Z.eqb_refl. reflexivity.
Qed.

(** X5.  A score entry for a set that is no decrease adds one event to
    a log below the cap, after which the score read back from the log
    is the entered one; for a team that is a non-empty string the event
    is added to the score history of the set, and the score history of
    every other set stays as it is. *)
Theorem score_entry_is_logged (sb : Scoreboard) (team : jsval) (n x : Z) :
  oldScoreOf (event_history sb) "score" team (Some n) false <= x ->
  (length (event_history sb) < 200)%nat ->
  let entry := mkEvent (JStr "score") team (JNum x) (JNum n) in
  let sb' := scoreInput sb team (Some n) x false in
  event_history sb' = event_history sb ++ [entry] /\
  oldScoreOf (event_history sb') "score" team (Some n) false = x /\
  (truthy team && is_string team = true ->
   getScoreHistory sb' n = getScoreHistory sb n ++ [entry]) /\
  (forall set', set' <> n -> getScoreHistory sb' set' = getScoreHistory sb set').
Proof.
  intros Hold Hlen. cbv zeta.
  assert (Hstep : event_history (scoreInputHistory sb team (Some n) x false) =
                  event_history sb
                  ++ [mkEvent (JStr "score") team (JNum x) (JNum n)]).
  { unfold scoreInputHistory.
    replace (x <? _) with false by zbool. reflexivity. }
  assert (Hlog : event_history (scoreInput sb team (Some n) x false) =
                 event_history sb
                 ++ [mkEvent (JStr "score") team (JNum x) (JNum n)]).
  { rewrite scoreInput_below_cap; [exact Hstep|].
    rewrite Hstep, length_app. cbn [length]. lia. }
  assert (Hhist : forall set',
            getScoreHistory (scoreInput sb team (Some n) x false) set' =
            getScoreHistory
              (with_event_history sb
                 (push (event_history sb)
                    (mkEvent (JStr "score") team (JNum x) (JNum n)))) set')
    by (intros set'; apply getScoreHistory_ext; exact Hlog).
  split; [exact Hlog|]. split; [rewrite Hlog; apply oldScoreOf_after_push|].
  split.
  - intros Hteam. rewrite Hhist, getScoreHistory_push.
    apply andb_true_iff in Hteam as [Htruthy Hstring].
    unfold history_match, is_reset.
    cbn [ev_type ev_team ev_score ev_set strict_eq loose_eq is_defined].
    rewrite Htruthy, Hstring, Z.eqb_refl. reflexivity.
  - intros set' Hset'. rewrite Hhist, getScoreHistory_push.
    unfold history_match, is_reset.
    cbn [ev_type ev_team ev_score ev_set strict_eq loose_eq is_defined].
    replace (n =? set') with false by zbool. reflexivity.
Qed.

Lemma score_entry_is_logged_witness :
  getScoreHistory (scoreInput three_point_board (JStr "b") (Some 1) 2 false) 1 =
  getScoreHistory three_point_board 1 ++ [score_event "b" 2 1].
Proof.
  destruct (score_entry_is_logged three_point_board (JStr "b") 1 2
              ltac:(vm_compute; discriminate) ltac:(cbn; lia))
    as (_ & _ & H & _).
  exact (H eq_refl).
Defined.

(** X6.  A squad score entry always adds one event to the log, also
    when the entered value is below the latest one: nothing is removed.
    On a log below the cap the event is the last entry after the
    handler, and the score history of every set stays as it is. *)
Theorem squad_entry_only_appends (sb : Scoreboard) (team : jsval)
    (set : option Z) (x : Z) :
  event_history (scoreInputHistory sb team set x true) =
    event_history sb ++ [squad_score_event team x] /\
  ((length (event_history sb) < 200)%nat ->
   event_history (scoreInput sb team set x true) =
     event_history sb ++ [squad_score_event team x] /\
   forall set', getScoreHistory (scoreInput sb team set x true) set' =
                getScoreHistory sb set').
Proof.
  assert (Hstep : event_history (scoreInputHistory sb team set x true) =
                  event_history sb ++ [squad_score_event team x]).
  { unfold scoreInputHistory. rewrite andb_false_r. reflexivity. }
  split; [exact Hstep|]. intros Hlen.
  assert (Hlog : event_history (scoreInput sb team set x true) =
                 event_history sb ++ [squad_score_event team x]).
  { rewrite scoreInput_below_cap; [exact Hstep|].
    rewrite Hstep, length_app. cbn [length]. lia. }
  split; [exact Hlog|]. intros set'.
  rewrite (getScoreHistory_ext _
             (with_event_history sb
                (push (event_history sb) (squad_score_event team x))) set' Hlog).
  rewrite getScoreHistory_push. reflexivity.
Qed.

(** X7.  Undo.  After a score entry [x] for a set that is no decrease,
    on a log below the cap, entering a lower score [y] removes the
    event the first entry added: the log is the one before the two
    entries, whatever else of the board changed in between. *)
Theorem score_entry_undone (sb sb1 : Scoreboard) (team : jsval) (n x y : Z) :
  oldScoreOf (event_history sb) "score" team (Some n) false <= x ->
  y < x ->
  (length (event_history sb) < 200)%nat ->
  event_history sb1 = event_history (scoreInput sb team (Some n) x false) ->
  event_history (scoreInput sb1 team (Some n) y false) = event_history sb.
Proof.
  intros Hold Hyx Hlen Hsb1.
  assert (Hlog1 : event_history sb1 =
                  event_history sb
                  ++ [mkEvent (JStr "score") team (JNum x) (JNum n)]).
  { rewrite Hsb1. rewrite scoreInput_below_cap; unfold scoreInputHistory;
      replace (x <? _) with false by zbool; cbn [negb andb event_history
        with_event_history set_detail to_number or_zero]; unfold push;
      [reflexivity | rewrite length_app; cbn [length]; lia]. }
  assert (Hstep : event_history (scoreInputHistory sb1 team (Some n) y false) =
                  event_history sb).
  { unfold scoreInputHistory. rewrite Hlog1, oldScoreOf_after_push.
    replace (y <? x) with true by zbool. cbn [negb andb].
    destruct (removeEventHistoryEvents_spec sb1 team y (set_detail (Some n)))
      as [(before & e & after & Hsplit & He & Hafter & ->) | [Hnone _]].
    - rewrite Hlog1 in Hsplit.
      destruct after as [|a after' _] using rev_ind.
      + apply app_inj_tail in Hsplit as [-> _]. apply app_nil_r.
      + exfalso. rewrite app_comm_cons, app_assoc in Hsplit.
        apply app_inj_tail in Hsplit as [_ <-].
        apply Forall_app in Hafter as [_ Hlast].
        inversion Hlast as [|? ? Hmatch _]; subst.
        unfold removal_match in Hmatch.
        cbn [ev_type ev_team ev_score ev_set set_detail] in Hmatch.
        rewrite !strict_eq_refl in Hmatch. cbn in Hmatch.
        rewrite Z.eqb_refl in Hmatch.
        replace (y <? x) with true in Hmatch by zbool. discriminate.
    - exfalso. rewrite Hlog1 in Hnone.
      apply Forall_app in Hnone as [_ Hlast].
      inversion Hlast as [|? ? Hmatch _]; subst.
      unfold removal_match in Hmatch.
      cbn [ev_type ev_team ev_score ev_set set_detail] in Hmatch.
      rewrite !strict_eq_refl in Hmatch. cbn in Hmatch.
      rewrite Z.eqb_refl in Hmatch.
      replace (y <? x) with true in Hmatch by zbool. discriminate. }
  rewrite scoreInput_below_cap; [exact Hstep|]. rewrite Hstep. lia.
Qed.

Lemma score_entry_undone_witness :
  event_history
    (scoreInput (scoreInput three_point_board (JStr "b") (Some 1) 2 false)
       (JStr "b") (Some 1) 1 false)
  = event_history three_point_board.
Proof.
  apply (score_entry_undone three_point_board
           (scoreInput three_point_board (JStr "b") (Some 1) 2 false)
           (JStr "b") 1 2 1).
  - vm_compute. discriminate.
  - lia.
  - cbn. lia.
  - reflexivity.
Defined.

(** ** Score series *)

Lemma find_app {A : Type} (p : A -> bool) (l1 l2 : list A) :
  List.find p (l1 ++ l2) =
    match List.find p l1 with Some x => Some x | None => List.find p l2 end.
Proof.
  induction l1 as [|a l1 IH]; cbn; [reflexivity|].
  destruct (p a); [reflexivity | exact IH].
Qed.

(** An event of a score history counts in the series of every team. *)
Lemma history_event_counts (set : Z) (e : Event) :
  history_match set e = true ->
  exists t, ev_team e = JStr t /\
            strict_eq (ev_type e) (JStr "score") && truthy (ev_team e) = true.
Proof.
  unfold history_match. repeat rewrite andb_true_iff.
  intros [[[[Htype _] Htruthy] Hstring] _].
  destruct (ev_team e) as [| | |t]; try discriminate.
  exists t. rewrite Htype, Htruthy. auto.
Qed.

Lemma teamPoints_nth (set : Z) (team : string) (h : list Event) :
  Forall (fun e => history_match set e = true) h ->
  forall (i : nat) (lastScore : option Z),
  (i < length h)%nat ->
  nth_error (teamPoints lastScore h team) i =
    Some (match List.find (event_of_team team) (rev (firstn (S i) h)) with
          | Some e => to_number (ev_score e)
          | None => lastScore
          end).
Proof.
  induction h as [|e rest IH]; intros Hall i lastScore Hi; [cbn in Hi; lia|].
  inversion Hall as [|? ? He Hrest]; subst.
  destruct (history_event_counts set e He) as (t & Hteam & Hcounts).
  cbn [teamPoints]. rewrite Hteam in Hcounts |- *. cbv iota beta.
  rewrite Hcounts.
  assert (Hof : event_of_team team e = String.eqb (toLowerCase t) (toLowerCase team))
    by (unfold event_of_team; rewrite Hteam; reflexivity).
  destruct i as [|j].
  - cbn [nth_error]. change (firstn 1 (e :: rest)) with [e].
    cbn [rev app List.find]. rewrite Hof.
    destruct (String.eqb _ _); reflexivity.
  - cbn [nth_error length] in *. rewrite (IH Hrest j _ ltac:(lia)).
    change (firstn (S (S j)) (e :: rest)) with (e :: firstn (S j) rest).
    cbn [rev]. rewrite find_app. cbn [List.find]. rewrite Hof.
    destruct (List.find _ (rev (firstn (S j) rest))); [reflexivity|].
    destruct (String.eqb _ _); reflexivity.
Qed.

Lemma teamPoints_full_length (set : Z) (team : string) (h : list Event) :
  Forall (fun e => history_match set e = true) h ->
  forall lastScore, length (teamPoints lastScore h team) = length h.
Proof.
  induction h as [|e rest IH]; intros Hall lastScore; [reflexivity|].
  inversion Hall as [|? ? He Hrest]; subst.
  destruct (history_event_counts set e He) as (t & Hteam & Hcounts).
  cbn [teamPoints]. rewrite Hteam in Hcounts |- *. cbv iota beta.
  rewrite Hcounts.
  cbn [length]. rewrite (IH Hrest). reflexivity.
Qed.

Lemma getScoreHistory_all_match (sb : Scoreboard) (set : Z) :
  Forall (fun e => history_match set e = true) (getScoreHistory sb set).
Proof.
  apply List.Forall_forall. intros e He.
  unfold getScoreHistory in He. apply filter_In in He as [_ He]. exact He.
Qed.

(** X8.  The series [scoreHistoryToTeamPoints] builds from the score
    history of a set has one entry per event of the history, for every
    team name; two spellings of a team name that differ in case give
    the same series. *)
Theorem team_series_aligned (sb : Scoreboard) (set : Z) (team team' : string) :
  length (scoreHistoryToTeamPoints (getScoreHistory sb set) team) =
    length (getScoreHistory sb set) /\
  (toLowerCase team = toLowerCase team' ->
   scoreHistoryToTeamPoints (getScoreHistory sb set) team =
   scoreHistoryToTeamPoints (getScoreHistory sb set) team').
Proof.
  split.
  - apply (teamPoints_full_length set), getScoreHistory_all_match.
  - intros Hcase. unfold scoreHistoryToTeamPoints.
    generalize (Some 0). induction (getScoreHistory sb set) as [|e rest IH];
      intros lastScore; [reflexivity|].
    cbn [teamPoints]. destruct (ev_team e); try apply IH.
    rewrite Hcase. destruct (_ && _); [|apply IH].
    rewrite IH. reflexivity.
Qed.

(** X9.  The score of a team at a point index inside the score history
    of the set is the score of the latest event of that team among the
    events up to that index, read as a number, and 0 when there is none
    or the score is no number; at a point index past the history it is
    the score shown on the board. *)
Theorem getScoreAtPointIndex_latest_event (sb : Scoreboard) (set : Z)
    (team : string) (i : Z) :
  (0 <= i < Z.of_nat (length (getScoreHistory sb set)) ->
   getScoreAtPointIndex sb set team i =
     match List.find (event_of_team team)
             (rev (firstn (S (Z.to_nat i)) (getScoreHistory sb set))) with
     | Some e => or_zero (to_number (ev_score e))
     | None => 0
     end) /\
  (Z.of_nat (length (getScoreHistory sb set)) <= i ->
   getScoreAtPointIndex sb set team i = getScore sb set team).
Proof.
  unfold getScoreAtPointIndex, scoreHistoryToTeamPoints.
  rewrite (teamPoints_full_length set team _ (getScoreHistory_all_match sb set)).
  split; intros Hi.
  - replace (_ <=? i) with false by zbool.
    unfold index. replace (i <? 0) with false by zbool.
    rewrite (teamPoints_nth set team _ (getScoreHistory_all_match sb set)) by lia.
    cbn [mjoin option_join]. destruct (List.find _ _); reflexivity.
  - replace (_ <=? i) with true by zbool. reflexivity.
Qed.

(** ** The counters of the statistics *)

Lemma players_total_counts (field : PlayerStats -> Z) (stats : Statistics) :
  players_total field stats =
    player_count field stats "a" + player_count field stats "b"
    + player_count field stats "c" + player_count field stats "d".
Proof. unfold players_total, player_count. cbn [foldr]. lia. Qed.

(** An update of a player moves that player's counter and no other. *)
Lemma update_player_at (p : string) (f : PlayerStats -> PlayerStats)
    (field : PlayerStats -> Z) (d : Z) (stats stats' : Statistics) (q : string) :
  (forall ps, field (f ps) = field ps + d) ->
  update_player (Some p) f stats = Ok stats' ->
  player_count field stats' q =
    player_count field stats q + (if String.eqb p q then d else 0).
Proof.
  intros Hf. unfold update_player, player_count.
  destruct (players stats !! p) as [ps|] eqn:Hps; [|discriminate].
  intros [= <-]. cbn [players].
  destruct (String.eqb_spec p q) as [<- | Hne].
  - rewrite lookup_insert_eq, Hps. cbn [from_option]. apply Hf.
  - rewrite lookup_insert_ne by exact Hne. lia.
Qed.

Lemma update_player_teams (p : option string) (f : PlayerStats -> PlayerStats)
    (stats stats' : Statistics) :
  update_player p f stats = Ok stats' ->
  teamA stats' = teamA stats /\ teamB stats' = teamB stats /\
  exists p', p = Some p' /\ is_Some (players stats !! p').
Proof.
  unfold update_player. destruct p as [p'|]; [|discriminate].
  destruct (players stats !! p') as [ps|] eqn:Hps; [|discriminate].
  intros [= <-]. cbn. eauto.
Qed.

Lemma update_team_at (t : option string) (f : TeamStats -> TeamStats)
    (stats stats' : Statistics) :
  update_team t f stats = Ok stats' ->
  exists t', t = Some t' /\ (t' = "a" \/ t' = "b") /\
    teamA stats' = (if String.eqb t' "a" then f (teamA stats) else teamA stats) /\
    teamB stats' = (if String.eqb t' "b" then f (teamB stats) else teamB stats).
Proof.
  unfold update_team. destruct t as [t'|]; [|discriminate].
  destruct (String.eqb_spec t' "a") as [-> | Ha].
  - intros [= <-]. exists "a". cbn. auto.
  - destruct (String.eqb_spec t' "b") as [-> | Hb]; [|discriminate].
    intros [= <-]. exists "b". cbn. auto.
Qed.

(** The equations of one update of a player, for each of the four
    counters. *)
Ltac player_equations H f q :=
  let eq_for field :=
    first
      [ pose proof (update_player_at _ f field 1 _ _ q
                      ltac:(intros; reflexivity) H)
      | pose proof (update_player_at _ f field 0 _ _ q
                      ltac:(intros; cbn; lia) H) ] in
  eq_for sideouts; eq_for sideoutOpportunities;
  eq_for breaks; eq_for breakOpportunities.

(** What one counted entry of the loop does: the server [s] and the
    serving team get a break opportunity and the receiver [r] a sideout
    opportunity; when the team of the event serves, that team and the
    server get a break, otherwise the receiver gets a sideout. *)
Lemma processEvent_effect (sb : Scoreboard) (set : Z) (stats stats' : Statistics)
    (index : Z) (event : Event) :
  four_players (players stats) ->
  processEvent sb set stats index event = Ok stats' ->
  skipped event = false ->
  exists (s r ts : string) (isBreak : bool),
    is_player s /\ is_player r /\ getPlayerTeam (Some s) = Some ts /\
    (forall q,
       player_count sideoutOpportunities stats' q =
         player_count sideoutOpportunities stats q + one_if (String.eqb r q) /\
       player_count breakOpportunities stats' q =
         player_count breakOpportunities stats q + one_if (String.eqb s q) /\
       player_count breaks stats' q =
         player_count breaks stats q + one_if (isBreak && String.eqb s q) /\
       player_count sideouts stats' q =
         player_count sideouts stats q + one_if (negb isBreak && String.eqb r q)) /\
    team_breakOpportunities (teamA stats') =
      team_breakOpportunities (teamA stats) + one_if (String.eqb ts "a") /\
    team_breakOpportunities (teamB stats') =
      team_breakOpportunities (teamB stats) + one_if (String.eqb ts "b") /\
    team_breaks (teamA stats') =
      team_breaks (teamA stats) + one_if (isBreak && String.eqb ts "a") /\
    team_breaks (teamB stats') =
      team_breaks (teamB stats) + one_if (isBreak && String.eqb ts "b").
Proof.
  intros Hkeys. unfold processEvent. fold (skipped event). intros H Hskip.
  rewrite Hskip in H.
  destruct (ev_team event) as [| | |t]; try discriminate.
  apply bind_inv in H as (servingPlayer & _ & H).
  apply bind_inv in H as (receivingPlayer & _ & H).
  apply bind_inv in H as (s1 & H1 & H).
  apply bind_inv in H as (s2 & H2 & H).
  apply bind_inv in H as (s3 & H3 & H).
  pose proof (update_team_players _ _ _ _ H1) as Hp1.
  destruct (update_team_at _ _ _ _ H1) as (ts & Hts & Hab & HA1 & HB1).
  destruct (update_player_teams _ _ _ _ H2) as (HA2 & HB2 & s & -> & Hs).
  destruct (update_player_teams _ _ _ _ H3) as (HA3 & HB3 & r & -> & Hr).
  rewrite Hp1 in Hs. apply Hkeys in Hs.
  assert (Hrp : is_player r).
  { rewrite <- Hp1 in Hkeys.
    destruct (update_player_total _ incr_breakOpportunities sideoutOpportunities 0
                _ _ ltac:(intros; cbn; lia) Hkeys H2) as [Hkeys2 _].
    apply Hkeys2. exact Hr. }
  assert (Hcount1 : forall field q, player_count field s1 q = player_count field stats q)
    by (intros; unfold player_count; rewrite Hp1; reflexivity).
  rewrite Hts in H.
  destruct (String.eqb (toLowerCase t) ts) eqn:Hbreak.
  - apply bind_inv in H as (s4 & H4 & H).
    pose proof (update_team_players _ _ _ _ H4) as Hp4.
    destruct (update_team_at _ _ _ _ H4) as (t4 & [= <-] & _ & HA4 & HB4).
    apply String.eqb_eq in Hbreak. rewrite Hbreak in HA4, HB4.
    destruct (update_player_teams _ _ _ _ H) as (HA5 & HB5 & _).
    assert (Hcount4 : forall field q, player_count field s4 q = player_count field s3 q)
      by (intros; unfold player_count; rewrite Hp4; reflexivity).
    exists s, r, ts, true. split; [exact Hs|]. split; [exact Hrp|].
    split; [exact Hts|]. split.
    + intros q.
      player_equations H2 incr_breakOpportunities q.
      player_equations H3 incr_sideoutOpportunities q.
      player_equations H incr_breaks q.
      rewrite !Hcount1 in *. rewrite !Hcount4 in *.
      unfold one_if. cbn [negb andb].
      destruct (String.eqb s q), (String.eqb r q); repeat split; lia.
    + rewrite HA5, HB5, HA4, HB4, HA3, HB3, HA2, HB2, HA1, HB1.
      unfold one_if. cbn [andb].
      destruct Hab as [-> | ->]; cbn; repeat split; lia.
  - destruct (update_player_teams _ _ _ _ H) as (HA5 & HB5 & _).
    exists s, r, ts, false. split; [exact Hs|]. split; [exact Hrp|].
    split; [exact Hts|]. split.
    + intros q.
      player_equations H2 incr_breakOpportunities q.
      player_equations H3 incr_sideoutOpportunities q.
      player_equations H incr_sideouts q.
      rewrite !Hcount1 in *.
      unfold one_if. cbn [negb andb].
      destruct (String.eqb s q), (String.eqb r q); repeat split; lia.
    + rewrite HA5, HB5, HA3, HB3, HA2, HB2, HA1, HB1.
      unfold one_if. cbn [andb].
      destruct Hab as [-> | ->]; cbn; repeat split; lia.
Qed.

Lemma initial_statistics_counters :
  counters_consistent initial_statistics /\ counters_add_up 0 initial_statistics.
Proof.
  unfold counters_consistent, counters_add_up.
  repeat split; try reflexivity;
    destruct H as [-> | [-> | [-> | ->]]]; vm_compute; discriminate.
Qed.

(** A counted entry keeps the counters consistent and counts one more
    point. *)
Lemma processEvent_counters (sb : Scoreboard) (set : Z) (stats stats' : Statistics)
    (index n : Z) (event : Event) :
  four_players (players stats) ->
  processEvent sb set stats index event = Ok stats' ->
  skipped event = false ->
  counters_consistent stats -> counters_add_up n stats ->
  counters_consistent stats' /\ counters_add_up (n + 1) stats'.
Proof.
  intros Hkeys H Hskip Hcons Hadd.
  destruct (processEvent_effect _ _ _ _ _ _ Hkeys H Hskip)
    as (s & r & ts & isBreak & Hs & Hr & Hts & Hq & HAo & HBo & HAb & HBb).
  destruct Hcons as (C1 & C2 & C3 & C4 & C5).
  destruct Hadd as (A1 & A2 & A3).
  repeat rewrite players_total_counts in A1.
  repeat rewrite players_total_counts in A2.
  repeat rewrite players_total_counts in A3.
  pose proof (C5 "a" ltac:(unfold is_player; auto)) as [Ca1 Ca2].
  pose proof (C5 "b" ltac:(unfold is_player; auto)) as [Cb1 Cb2].
  pose proof (C5 "c" ltac:(unfold is_player; auto)) as [Cc1 Cc2].
  pose proof (C5 "d" ltac:(unfold is_player; auto)) as [Cd1 Cd2].
  destruct (Hq "a") as (Qa1 & Qa2 & Qa3 & Qa4).
  destruct (Hq "b") as (Qb1 & Qb2 & Qb3 & Qb4).
  destruct (Hq "c") as (Qc1 & Qc2 & Qc3 & Qc4).
  destruct (Hq "d") as (Qd1 & Qd2 & Qd3 & Qd4).
  clear Hq C5 Hkeys H Hskip.
  unfold counters_consistent, counters_add_up.
  repeat rewrite players_total_counts.
  destruct Hs as [-> | [-> | [-> | ->]]]; cbn in Hts; injection Hts as <-;
    destruct Hr as [-> | [-> | [-> | ->]]]; destruct isBreak;
    cbn in Qa1, Qa2, Qa3, Qa4, Qb1, Qb2, Qb3, Qb4,
           Qc1, Qc2, Qc3, Qc4, Qd1, Qd2, Qd3, Qd4, HAo, HBo, HAb, HBb;
    (split; [|lia]);
    (split; [lia|]); (split; [lia|]); (split; [lia|]); (split; [lia|]);
    intros q [-> | [-> | [-> | ->]]]; lia.
Qed.

Lemma processEvent_skipped (sb : Scoreboard) (set : Z) (stats : Statistics)
    (index : Z) (event : Event) :
  skipped event = true -> processEvent sb set stats index event = Ok stats.
Proof.
  intros H. unfold processEvent. fold (skipped event). rewrite H. reflexivity.
Qed.

Lemma processEvents_counters (sb : Scoreboard) (set : Z) (events : list Event) :
  forall (stats stats' : Statistics) (index n : Z),
  four_players (players stats) ->
  processEvents sb set stats index events = Ok stats' ->
  counters_consistent stats -> counters_add_up n stats ->
  counters_consistent stats' /\
  counters_add_up
    (n + Z.of_nat (length (List.filter (fun e => negb (skipped e)) events))) stats'.
Proof.
  induction events as [|event rest IH];
    intros stats stats' index n Hkeys H Hcons Hadd.
  - cbn in H. injection H as <-. cbn. rewrite Z.add_0_r. auto.
  - cbn [processEvents] in H. apply bind_inv in H as (s1 & H1 & H).
    cbn [List.filter]. destruct (skipped event) eqn:Hskip; cbn [negb].
    + rewrite processEvent_skipped in H1 by exact Hskip. injection H1 as <-.
      exact (IH _ _ _ _ Hkeys H Hcons Hadd).
    + destruct (processEvent_counters _ _ _ _ _ _ _ Hkeys H1 Hskip Hcons Hadd)
        as [Hcons1 Hadd1].
      destruct (processEvent_total _ _ _ _ _ _ Hkeys H1) as [Hkeys1 _].
      destruct (IH _ _ _ _ Hkeys1 H Hcons1 Hadd1) as [Hcons' Hadd'].
      split; [exact Hcons'|]. cbn [length].
      replace (n + Z.of_nat (S (length (List.filter (fun e => negb (skipped e)) rest))))
        with (n + 1 + Z.of_nat (length (List.filter (fun e => negb (skipped e)) rest)))
        by lia.
      exact Hadd'.
Qed.

Lemma filter_all {A : Type} (p : A -> bool) (l : list A) :
  Forall (fun x => p x = true) l -> List.filter p l = l.
Proof.
  induction 1 as [|x l Hx _ IH]; [reflexivity|].
  cbn. rewrite Hx, IH. reflexivity.
Qed.

(** The counters of a returning single-set run. *)
Lemma calculateStatistics_counters (sb : Scoreboard) (set : Z) (stats : Statistics) :
  calculateStatistics sb set = Ok stats ->
  counters_consistent stats /\
  (set <> 0 -> counters_add_up (Z.of_nat (length (getScoreHistory sb set))) stats).
Proof.
  intros H. unfold calculateStatistics in H.
  destruct initial_statistics_counters as [Hcons Hadd].
  destruct (processEvents_counters _ _ _ _ _ _ _ initial_statistics_players
              H Hcons Hadd) as [Hcons' Hadd'].
  split; [exact Hcons'|]. intros Hset.
  rewrite filter_all in Hadd'; [exact Hadd'|].
  pose proof (getScoreHistory_not_skipped sb set Hset) as Hall.
  apply List.Forall_forall. intros e He.
  rewrite List.Forall_forall in Hall. rewrite (Hall e He). reflexivity.
Qed.

(** The run on the three points a, b, a returns. *)
Lemma three_point_board_returns :
  exists stats, calculateStatistics three_point_board 1 = Ok stats.
Proof.
  unfold calculateStatistics.
  apply (processEvents_defined three_point_board 1).
  - unfold valid_configuration, valid_pairs. cbn. tauto.
  - exact initial_statistics_players.
  - lia.
  - intros i Hi Hot. exfalso.
    assert (Hlen : length (getScoreHistory three_point_board 1) = 3%nat)
      by (vm_compute; reflexivity).
    rewrite Hlen in Hi.
    assert (i = 0 \/ i = 1 \/ i = 2) as [-> | [-> | ->]] by lia;
      vm_compute in Hot; discriminate.
  - apply getScoreHistory_all_match.
Qed.

(** X10.  In the statistics of a set other than 0, every event of the
    score history is one break opportunity: the break opportunities of
    the two teams add up to the number of events, and so do those of the
    four players; the break opportunities of a team are those of its two
    players. *)
Theorem break_opportunities_count_points (sb : Scoreboard) (set : Z)
    (stats : Statistics) :
  set <> 0 ->
  calculateStatistics sb set = Ok stats ->
  team_breakOpportunities (teamA stats) + team_breakOpportunities (teamB stats)
    = Z.of_nat (length (getScoreHistory sb set)) /\
  players_total breakOpportunities stats
    = Z.of_nat (length (getScoreHistory sb set)) /\
  team_breakOpportunities (teamA stats) =
    player_count breakOpportunities stats "a"
    + player_count breakOpportunities stats "b" /\
  team_breakOpportunities (teamB stats) =
    player_count breakOpportunities stats "c"
    + player_count breakOpportunities stats "d".
Proof.
  intros Hset H.
  destruct (calculateStatistics_counters sb set stats H)
    as [(C1 & C2 & _) Hadd].
  destruct (Hadd Hset) as (A1 & _).
  rewrite players_total_counts in A1 |- *. repeat split; lia.
Qed.

Lemma break_opportunities_count_points_witness :
  exists stats,
    calculateStatistics three_point_board 1 = Ok stats /\
    team_breakOpportunities (teamA stats) + team_breakOpportunities (teamB stats) = 3.
Proof.
  destruct three_point_board_returns as [stats Hstats].
  exists stats. split; [exact Hstats|].
  exact (proj1 (break_opportunities_count_points three_point_board 1 stats
                  ltac:(discriminate) Hstats)).
Defined.

(** X11.  In the statistics of a set other than 0, every event of the
    score history is counted once as a break or as a sideout: the breaks
    of the two teams and the sideouts of the four players add up to the
    number of events; the breaks of a team are those of its two
    players. *)
Theorem every_point_break_or_sideout (sb : Scoreboard) (set : Z)
    (stats : Statistics) :
  set <> 0 ->
  calculateStatistics sb set = Ok stats ->
  team_breaks (teamA stats) + team_breaks (teamB stats)
    + players_total sideouts stats
    = Z.of_nat (length (getScoreHistory sb set)) /\
  team_breaks (teamA stats) =
    player_count breaks stats "a" + player_count breaks stats "b" /\
  team_breaks (teamB stats) =
    player_count breaks stats "c" + player_count breaks stats "d".
Proof.
  intros Hset H.
  destruct (calculateStatistics_counters sb set stats H)
    as [(_ & _ & C3 & C4 & _) Hadd].
  destruct (Hadd Hset) as (_ & _ & A3).
  repeat rewrite players_total_counts in A3.
  repeat rewrite players_total_counts. repeat split; lia.
Qed.

Lemma every_point_break_or_sideout_witness :
  exists stats,
    calculateStatistics three_point_board 1 = Ok stats /\
    team_breaks (teamA stats) + team_breaks (teamB stats)
      + players_total sideouts stats = 3.
Proof.
  destruct three_point_board_returns as [stats Hstats].
  exists stats. split; [exact Hstats|].
  exact (proj1 (every_point_break_or_sideout three_point_board 1 stats
                  ltac:(discriminate) Hstats)).
Defined.

(** X12.  In the statistics of every set no count exceeds its
    opportunities: the breaks of a team are between 0 and its break
    opportunities, and the sideouts and breaks of each player are
    between 0 and the player's sideout and break opportunities. *)
Theorem counts_within_opportunities (sb : Scoreboard) (set : Z)
    (stats : Statistics) :
  calculateStatistics sb set = Ok stats ->
  0 <= team_breaks (teamA stats) <= team_breakOpportunities (teamA stats) /\
  0 <= team_breaks (teamB stats) <= team_breakOpportunities (teamB stats) /\
  forall q, is_player q ->
    0 <= player_count sideouts stats q <= player_count sideoutOpportunities stats q /\
    0 <= player_count breaks stats q <= player_count breakOpportunities stats q.
Proof.
  intros H.
  destruct (calculateStatistics_counters sb set stats H)
    as [(C1 & C2 & C3 & C4 & C5) _].
  pose proof (C5 "a" ltac:(unfold is_player; auto)).
  pose proof (C5 "b" ltac:(unfold is_player; auto)).
  pose proof (C5 "c" ltac:(unfold is_player; auto)).
  pose proof (C5 "d" ltac:(unfold is_player; auto)).
  split; [lia|]. split; [lia | exact C5].
Qed.

Lemma counts_within_opportunities_witness :
  exists stats,
    calculateStatistics three_point_board 1 = Ok stats /\
    0 <= team_breaks (teamA stats) <= team_breakOpportunities (teamA stats).
Proof.
  destruct three_point_board_returns as [stats Hstats].
  exists stats. split; [exact Hstats|].
  exact (proj1 (counts_within_opportunities three_point_board 1 stats Hstats)).
Defined.

(** X13.  With starting players outside the eight configurations, the
    statistics of a set other than 0 are the all-zero statistics when
    the set has no score event, and the run throws as soon as it has
    one. *)
Theorem statistics_outside_configurations (sb : Scoreboard) (set : Z) :
  set <> 0 ->
  ~ valid_configuration (getStartingServer sb set) (getStartingReceiver sb set) ->
  (getScoreHistory sb set = [] ->
   calculateStatistics sb set = Ok initial_statistics) /\
  (getScoreHistory sb set <> [] -> calculateStatistics sb set = TypeError).
Proof.
  intros Hset Hinvalid. unfold calculateStatistics. split.
  - intros ->. reflexivity.
  - pose proof (getScoreHistory_all_match sb set) as Hall.
    pose proof (getScoreHistory_not_skipped sb set Hset) as Hskip.
    destruct (getScoreHistory sb set) as [|e rest]; [congruence|]. intros _.
    inversion Hall as [|? ? He _]; subst.
    inversion Hskip as [|? ? Hs _]; subst.
    destruct (history_event_counts set e He) as (t & Hteam & _).
    cbn [processEvents]. unfold processEvent. fold (skipped e).
    rewrite Hs, Hteam.
    rewrite (proj1 (rotation_lookups_throw sb set 0 Hinvalid)). reflexivity.
Qed.

Lemma statistics_outside_configurations_witness :
  calculateStatistics unconfigured_board 1 = Ok initial_statistics /\
  calculateStatistics unconfigured_point_board 1 = TypeError.
Proof.
  split.
  - apply (statistics_outside_configurations unconfigured_board 1);
      [discriminate | | reflexivity].
    unfold valid_configuration, valid_pairs. cbn.
    intuition discriminate.
  - apply (statistics_outside_configurations unconfigured_point_board 1);
      [discriminate | | discriminate].
    unfold valid_configuration, valid_pairs. cbn.
    intuition discriminate.
Defined.

(** ** The rhythm of the rotation *)

(** The two lookups in normal play after point 0, as reads of the
    arrays. *)
Lemma serving_normal_read (sb : Scoreboard) (set p : Z) (order : list string) :
  serveOrderOf (getStartingServer sb set) (getStartingReceiver sb set) = Some order ->
  p <> 0 -> isInOvertime sb set (Some p) = false ->
  getServingPlayerAtPoint sb p set =
    Ok (index order
          (Z.rem (indexOf order (getStartingServer sb set)
                  + Z.rem (p + 1) 8 / 2) 4)).
Proof.
  intros Horder Hp Hmode. unfold getServingPlayerAtPoint.
  rewrite Horder, Hmode. replace (p =? 0) with false by zbool.
  cbn [negb]. rewrite normal_steps. reflexivity.
Qed.

Lemma receiving_normal_read (sb : Scoreboard) (set p : Z) (orders : ReceiveOrders) :
  receiveOrdersOf (getStartingServer sb set) (getStartingReceiver sb set)
    = Some orders ->
  p <> 0 -> isInOvertime sb set (Some p) = false ->
  getReceivingPlayerAtPoint sb p set =
    Ok (index (receivingOrder orders)
          (Z.rem (indexOf (receivingOrder orders) (getStartingReceiver sb set)
                  + Z.rem p 8) 8)).
Proof.
  intros Horders Hp Hmode. unfold getReceivingPlayerAtPoint.
  rewrite Horders, Hmode. replace (p =? 0) with false by zbool. reflexivity.
Qed.

(** X14.  In normal play the rotation repeats every eight points: from
    point 1 on, the server and the receiver of point [p + 8] are those
    of point [p], whatever the starting players. *)
Theorem rotation_period_eight (sb : Scoreboard) (set p : Z) :
  1 <= p ->
  isInOvertime sb set (Some p) = false ->
  isInOvertime sb set (Some (p + 8)) = false ->
  getServingPlayerAtPoint sb (p + 8) set = getServingPlayerAtPoint sb p set /\
  getReceivingPlayerAtPoint sb (p + 8) set = getReceivingPlayerAtPoint sb p set.
Proof.
  intros Hp H0 H8. split.
  - destruct (serveOrderOf (getStartingServer sb set) (getStartingReceiver sb set))
      as [order|] eqn:Horder.
    + rewrite !(serving_normal_read sb set _ order Horder) by (auto; lia).
      do 3 f_equal. zdiv.
    + unfold getServingPlayerAtPoint. rewrite Horder. reflexivity.
  - destruct (receiveOrdersOf (getStartingServer sb set) (getStartingReceiver sb set))
      as [orders|] eqn:Horders.
    + rewrite !(receiving_normal_read sb set _ orders Horders) by (auto; lia).
      do 3 f_equal. zdiv.
    + unfold getReceivingPlayerAtPoint. rewrite Horders. reflexivity.
Qed.

Lemma rotation_period_eight_witness :
  getServingPlayerAtPoint (board default_settings 0 0 "a" "c" []) 11 1 =
  getServingPlayerAtPoint (board default_settings 0 0 "a" "c" []) 3 1.
Proof.
  apply (rotation_period_eight (board default_settings 0 0 "a" "c" []) 1 3);
    [lia | reflexivity | reflexivity].
Defined.

(** The two receivers of a serving turn of normal play: slots [2g + 1]
    and [2g + 2] of [receivingOrder] hold the two players of one
    team. *)
Lemma receivingOrder_turns (ss sr : string) :
  valid_configuration ss sr ->
  exists orders,
    receiveOrdersOf ss sr = Some orders /\
    forall g, 0 <= g < 4 ->
      exists r1 r2,
        index (receivingOrder orders)
          (Z.rem (indexOf (receivingOrder orders) sr + (2 * g + 1)) 8) = Some r1 /\
        index (receivingOrder orders)
          (Z.rem (indexOf (receivingOrder orders) sr + Z.rem (2 * g + 2) 8) 8)
          = Some r2 /\
        r1 <> r2 /\ getPlayerTeam (Some r1) = getPlayerTeam (Some r2).
Proof.
  intros H. each_configuration H.
  all: eexists; split; [reflexivity|].
  all: intros g Hg; each_of_four g Hg; do 2 eexists.
  all: split; [reflexivity|]; split; [reflexivity|]; split;
    [discriminate | reflexivity].
Qed.

Lemma even_flips (a b : Z) :
  (a + b) mod 2 = 1 -> Z.even b = negb (Z.even a).
Proof.
  intros H. rewrite !Zeven_mod.
  destruct (Z.eqb_spec (a mod 2) 0), (Z.eqb_spec (b mod 2) 0);
    try reflexivity; exfalso; zdiv.
Qed.

Lemma slot_team_flips (t : string) (own : bool) :
  t = "a" \/ t = "b" -> slot_team t own <> slot_team t (negb own).
Proof. intros [-> | ->]; destruct own; cbn; discriminate. Qed.

(** X15.  A serving turn of normal play is two points: on an odd point
    and the point after it the same player serves, and the two players
    of the other team receive, one point each. *)
Theorem serving_turn_two_points (sb : Scoreboard) (set p : Z) :
  valid_configuration (getStartingServer sb set) (getStartingReceiver sb set) ->
  Z.odd p = true -> 1 <= p ->
  isInOvertime sb set (Some p) = false ->
  isInOvertime sb set (Some (p + 1)) = false ->
  exists s r1 r2,
    getServingPlayerAtPoint sb p set = Ok (Some s) /\
    getServingPlayerAtPoint sb (p + 1) set = Ok (Some s) /\
    getReceivingPlayerAtPoint sb p set = Ok (Some r1) /\
    getReceivingPlayerAtPoint sb (p + 1) set = Ok (Some r2) /\
    r1 <> r2 /\
    getPlayerTeam (Some r1) = getPlayerTeam (Some r2) /\
    getPlayerTeam (Some s) <> getPlayerTeam (Some r1).
Proof.
  intros Hvalid Hodd Hp H0 H1.
  apply Z.odd_spec in Hodd. destruct Hodd as [m ->].
  destruct (serveOrder_teams _ _ Hvalid)
    as (t & order & Ht & Hss & _ & _ & _ & Horder & _).
  destruct (serving_normal sb set Hvalid t (2 * m + 1) Hss ltac:(lia) H0)
    as (s & Hs & Hts).
  destruct (receiving_normal sb set Hvalid t (2 * m + 1) Hss ltac:(lia) H0)
    as (r & Hr & Htr).
  destruct (receivingOrder_turns _ _ Hvalid) as (orders & Horders & Hturns).
  destruct (Hturns (Z.rem (2 * m + 1) 8 / 2) ltac:(zdiv))
    as (r1 & r2 & Hr1 & Hr2 & Hneq & Hteam).
  assert (Hrp : getReceivingPlayerAtPoint sb (2 * m + 1) set = Ok (Some r1)).
  { rewrite (receiving_normal_read sb set _ orders Horders) by (auto; lia).
    rewrite <- Hr1. do 3 f_equal. zdiv. }
  assert (r = r1) as -> by congruence.
  exists s, r1, r2. split; [exact Hs|]. split.
  - rewrite <- Hs.
    rewrite !(serving_normal_read sb set _ order Horder) by (auto; lia).
    do 3 f_equal. zdiv.
  - split; [exact Hrp|]. split.
    + rewrite (receiving_normal_read sb set _ orders Horders) by (auto; lia).
      rewrite <- Hr2. do 3 f_equal. zdiv.
    + split; [exact Hneq|]. split; [exact Hteam|].
      rewrite Hts, Htr. apply slot_team_flips, Ht.
Qed.

Lemma serving_turn_two_points_witness :
  exists s r1 r2,
    getServingPlayerAtPoint (board default_settings 0 0 "a" "c" []) 3 1 = Ok (Some s) /\
    getServingPlayerAtPoint (board default_settings 0 0 "a" "c" []) (3 + 1) 1
      = Ok (Some s) /\
    getReceivingPlayerAtPoint (board default_settings 0 0 "a" "c" []) 3 1
      = Ok (Some r1) /\
    getReceivingPlayerAtPoint (board default_settings 0 0 "a" "c" []) (3 + 1) 1
      = Ok (Some r2) /\
    r1 <> r2 /\
    getPlayerTeam (Some r1) = getPlayerTeam (Some r2) /\
    getPlayerTeam (Some s) <> getPlayerTeam (Some r1).
Proof.
  apply (serving_turn_two_points (board default_settings 0 0 "a" "c" []) 1 3);
    [ unfold valid_configuration, valid_pairs; cbn; tauto
    | reflexivity | lia | reflexivity | reflexivity ].
Defined.

(** X16.  In overtime, from point [2 * win_points - 2] on, the serve
    changes team with every point and so does the reception, for an
    even [win_points] as well; and both lookups repeat every four
    points. *)
Theorem overtime_rhythm (sb : Scoreboard) (set p : Z) :
  valid_configuration (getStartingServer sb set) (getStartingReceiver sb set) ->
  1 <= win_points (gameSettings sb) ->
  1 <= p -> win_points (gameSettings sb) * 2 - 2 <= p ->
  isInOvertime sb set (Some p) = true ->
  (isInOvertime sb set (Some (p + 1)) = true ->
   exists s s' r r',
     getServingPlayerAtPoint sb p set = Ok (Some s) /\
     getServingPlayerAtPoint sb (p + 1) set = Ok (Some s') /\
     getReceivingPlayerAtPoint sb p set = Ok (Some r) /\
     getReceivingPlayerAtPoint sb (p + 1) set = Ok (Some r') /\
     getPlayerTeam (Some s) <> getPlayerTeam (Some s') /\
     getPlayerTeam (Some r) <> getPlayerTeam (Some r')) /\
  (isInOvertime sb set (Some (p + 4)) = true ->
   getServingPlayerAtPoint sb (p + 4) set = getServingPlayerAtPoint sb p set /\
   getReceivingPlayerAtPoint sb (p + 4) set = getReceivingPlayerAtPoint sb p set).
Proof.
  intros Hvalid Hwp Hp Hfrom H0.
  destruct (serveOrder_teams _ _ Hvalid)
    as (t & order & Ht & Hss & _ & _ & _ & Horder & _).
  split.
  - intros H1.
    destruct (serving_overtime sb set Hvalid t p Hss Hp H0 Hwp Hfrom)
      as (s & Hs & Hts).
    destruct (serving_overtime sb set Hvalid t (p + 1) Hss ltac:(lia) H1 Hwp
                ltac:(lia)) as (s' & Hs' & Hts').
    destruct (receiving_overtime sb set Hvalid t p Hss Hp H0) as (r & Hr & Htr).
    destruct (receiving_overtime sb set Hvalid t (p + 1) Hss ltac:(lia) H1)
      as (r' & Hr' & Htr').
    exists s, s', r, r'. do 4 (split; [assumption|]).
    rewrite Hts, Hts', Htr, Htr'. split.
    + set (k := Z.rem (Z.rem (win_points (gameSettings sb) * 2 - 2 + 1) 8
                       + 2 * Z.rem (p - (win_points (gameSettings sb) * 2 - 2)) 4) 8 / 2).
      set (k' := Z.rem (Z.rem (win_points (gameSettings sb) * 2 - 2 + 1) 8
                        + 2 * Z.rem (p + 1 - (win_points (gameSettings sb) * 2 - 2)) 4)
                   8 / 2).
      assert (Hk : (k + k') mod 2 = 1) by (subst k k'; zdiv).
      rewrite (even_flips k k' Hk). apply slot_team_flips, Ht.
    + assert (Hi : (Z.rem (p - 1) 4 + Z.rem (p + 1 - 1) 4) mod 2 = 1) by zdiv.
      rewrite (even_flips _ _ Hi). apply slot_team_flips, Ht.
  - intros H4. split.
    + unfold getServingPlayerAtPoint. rewrite Horder, H0, H4.
      replace (p =? 0) with false by zbool.
      replace (p + 4 =? 0) with false by zbool.
      cbn [negb]. rewrite !overtime_steps. do 3 f_equal. zdiv.
    + destruct (receiveOrders_teams _ _ t Hvalid Hss) as (orders & Horders & _).
      unfold getReceivingPlayerAtPoint. rewrite Horders, H0, H4.
      replace (p =? 0) with false by zbool.
      replace (p + 4 =? 0) with false by zbool.
      cbn [negb].
      replace (Z.rem (p + 4 - 1) 4) with (Z.rem (p - 1) 4) by zdiv.
      reflexivity.
Qed.

Lemma overtime_rhythm_witness :
  getServingPlayerAtPoint (board default_settings 15 15 "a" "c" []) (30 + 4) 1 =
    getServingPlayerAtPoint (board default_settings 15 15 "a" "c" []) 30 1 /\
  getReceivingPlayerAtPoint (board default_settings 15 15 "a" "c" []) (30 + 4) 1 =
    getReceivingPlayerAtPoint (board default_settings 15 15 "a" "c" []) 30 1.
Proof.
  apply (overtime_rhythm (board default_settings 15 15 "a" "c" []) 1 30);
    [ unfold valid_configuration, valid_pairs; cbn; tauto
    | cbn; lia | lia | cbn; lia | reflexivity | reflexivity ].
Defined.

(** X17.  [getServeInfo] reads the starting server only: it is [null]
    exactly when no starting server is chosen, never throws, and for a
    starting pair outside the eight configurations it still names a
    serving team while the player lookup of the same point throws. *)
Theorem getServeInfo_without_rotation (sb : Scoreboard) :
  (getServeInfo sb = None <-> getStartingServer sb (active_set sb) = "") /\
  (getStartingServer sb (active_set sb) <> "" ->
   exists info,
     getServeInfo sb = Some info /\
     (team info = "a" \/ team info = "b") /\
     isOvertime info = isInOvertime sb (active_set sb) None /\
     (~ valid_configuration (getStartingServer sb (active_set sb))
          (getStartingReceiver sb (active_set sb)) ->
      getServingPlayerAtPoint sb
        (getTotalPointsInSet sb (active_set sb)) (active_set sb) = TypeError)).
Proof.
  unfold getServeInfo, getStartingTeam.
  destruct (String.eqb_spec (getStartingServer sb (active_set sb)) "") as [He | Hne].
  - cbn [negb]. split; [tauto | intros H; contradiction].
  - cbn [negb]. cbv zeta.
    assert (Hteams : forall c : bool, forall t : string,
              (t = "a" \/ t = "b") ->
              (if c then t else other_team t) = "a" \/
              (if c then t else other_team t) = "b").
    { intros [] t [-> | ->]; cbn; auto. }
    assert (Ht : (if String.eqb (getStartingServer sb (active_set sb)) "a"
                     || String.eqb (getStartingServer sb (active_set sb)) "b"
                  then "a" else "b") = "a" \/
                 (if String.eqb (getStartingServer sb (active_set sb)) "a"
                     || String.eqb (getStartingServer sb (active_set sb)) "b"
                  then "a" else "b") = "b")
      by (destruct (_ || _); auto).
    set (t := if _ || _ then "a" else "b") in *.
    split.
    + split; [|intros H; contradiction].
      destruct (isInOvertime sb (active_set sb) None); [discriminate|].
      destruct (_ =? 0); discriminate.
    + intros _.
      assert (Hthrow : ~ valid_configuration (getStartingServer sb (active_set sb))
                (getStartingReceiver sb (active_set sb)) ->
              getServingPlayerAtPoint sb
                (getTotalPointsInSet sb (active_set sb)) (active_set sb) = TypeError)
        by (intros H; apply (proj1 (rotation_lookups_throw sb _ _ H))).
      destruct (isInOvertime sb (active_set sb) None).
      * eexists. split; [reflexivity|]. cbn.
        split; [|split; [reflexivity | exact Hthrow]].
        apply (Hteams _ t Ht).
      * destruct (_ =? 0).
        -- eexists. split; [reflexivity|]. cbn.
           split; [exact Ht | split; [reflexivity | exact Hthrow]].
        -- eexists. split; [reflexivity|]. cbn.
           split; [|split; [reflexivity | exact Hthrow]].
           destruct (_ =? 0); [|exact Ht].
           apply (Hteams false t Ht).
Qed.

(** ** Sets and reset *)

Lemma getScoreHistory_after_set_event (sb : Scoreboard) (n set : Z) :
  getScoreHistory (with_event_history sb (push (event_history sb) (set_event n))) set
  = getScoreHistory sb set.
Proof.
  rewrite !getScoreHistory_sinceLastReset. cbn [event_history with_event_history].
  unfold push. rewrite sinceLastReset_snoc. cbn [is_reset set_event].
  change (is_reset (set_event n)) with false. cbv iota.
  rewrite List.filter_app. cbn. apply app_nil_r.
Qed.

(** X18.  A set change button moves [active_set] only within 1..7 and
    logs one set event; the scores are not touched, the score history
    of every set keeps its most recent events (all of them while the
    log is under its cap), and a direct input on the counter changes no
    score history at all. *)
Theorem set_change_keeps_histories (sb : Scoreboard) (change currentSet : option Z) :
  let sb' := setChangeButton sb change currentSet in
  (1 <= active_set sb <= 7 -> 1 <= active_set sb' <= 7) /\
  (sb' = sb \/
   exists c d,
     currentSet = Some c /\ change = Some d /\ 1 <= c + d <= 7 /\
     active_set sb' = c + d /\
     exists kept, event_history sb' = kept ++ [set_event (c + d)]) /\
  score_field sb' = score_field sb /\
  (forall set, exists lost,
     getScoreHistory sb set = lost ++ getScoreHistory sb' set) /\
  ((length (event_history sb) < 200)%nat ->
   forall set, getScoreHistory sb' set = getScoreHistory sb set) /\
  (forall set, getScoreHistory (setCounterInput sb) set = getScoreHistory sb set).
Proof.
  cbv zeta. unfold setChangeButton.
  assert (Hsame : forall set, exists lost : list Event,
            getScoreHistory sb set = lost ++ getScoreHistory sb set)
    by (intros set; exists []; reflexivity).
  assert (Hinput : forall set,
            getScoreHistory (setCounterInput sb) set = getScoreHistory sb set)
    by (intros set; apply getScoreHistory_after_set_event).
  destruct currentSet as [c|], change as [d|];
    try (split; [tauto|]; split; [left; reflexivity|]; split; [reflexivity|];
         split; [exact Hsame|]; split; [reflexivity | exact Hinput]).
  destruct ((0 <? c + d) && (c + d <=? 7)) eqn:Hrange;
    [| split; [tauto|]; split; [left; reflexivity|]; split; [reflexivity|];
       split; [exact Hsame|]; split; [reflexivity | exact Hinput] ].
  apply andb_true_iff in Hrange as [Hlo Hhi].
  apply Z.ltb_lt in Hlo. apply Z.leb_le in Hhi.
  set (sb1 := setCounterInput (with_active_set sb (c + d))).
  assert (Hh1 : forall set, getScoreHistory sb1 set = getScoreHistory sb set).
  { intros set. subst sb1. unfold setCounterInput.
    rewrite (getScoreHistory_after_set_event (with_active_set sb (c + d))).
    apply getScoreHistory_ext. reflexivity. }
  assert (Hlog1 : event_history sb1 = event_history sb ++ [set_event (c + d)])
    by reflexivity.
  unfold uploadData. change (authorized sb1) with (authorized sb).
  destruct (authorized sb).
  - assert (Hfields : score_field (handleEventHistory sb1) = score_field sb
                      /\ active_set (handleEventHistory sb1) = c + d)
      by (unfold handleEventHistory; destruct (200 <? _); split; reflexivity).
    destruct Hfields as [Hscore Hset].
    split; [intros _; rewrite Hset; lia|]. split.
    { right. exists c, d. do 3 (split; [auto; lia|]). split; [exact Hset|].
      rewrite handleEventHistory_log, Hlog1.
      rewrite length_app. cbn [length].
      rewrite skipn_app.
      replace (length (event_history sb) + 1 - 200 - length (event_history sb))%nat
        with 0%nat by lia.
      eexists. reflexivity. }
    split; [exact Hscore|]. split.
    { intros set. rewrite <- (Hh1 set). apply history_after_cut. }
    split; [|exact Hinput].
    intros Hshort set. rewrite handleEventHistory_short; [apply Hh1|].
    rewrite Hlog1, length_app. cbn [length]. lia.
  - split; [intros _; cbn; lia|]. split.
    { right. exists c, d. do 3 (split; [auto; lia|]). split; [reflexivity|].
      eexists. exact Hlog1. }
    split; [reflexivity|]. split.
    { intros set. exists []. rewrite Hh1. reflexivity. }
    split; [intros _; exact Hh1 | exact Hinput].
Qed.

(** X19.  The reset button leaves a log of one reset event and set 1
    active: no set has a score history, the statistics of every set are
    the all-zero statistics, and no set is counted as won, whatever the
    board held before. *)
Theorem reset_clears_derived_state (sb : Scoreboard) (set : Z) (sets : nat)
    (team : string) :
  let sb' := resetScores sb in
  active_set sb' = 1 /\
  event_history sb' = [reset_event] /\
  getScoreHistory sb' set = [] /\
  getTotalPointsInSet sb' set = 0 /\
  calculateStatistics sb' set = Ok initial_statistics /\
  getSetScore sb' sets team = 0 /\
  gameSettings sb' = gameSettings sb /\
  getStartingServer sb' set = getStartingServer sb set /\
  getStartingReceiver sb' set = getStartingReceiver sb set.
Proof.
  cbv zeta. unfold resetScores, uploadData.
  cbn [authorized].
  rewrite handleEventHistory_short by (cbn; lia).
  assert (Hplayed : forall n sb0, active_set sb0 = 1 -> getPlayedSets sb0 n = []).
  { intros n sb0 H1. unfold getPlayedSets. rewrite H1.
    generalize 0%nat. induction n as [|n IH]; intros start; [reflexivity|].
    cbn [seq List.filter]. replace (_ <? 1) with false by zbool. apply IH. }
  destruct (authorized sb).
  all: repeat split; try reflexivity.
  all: unfold getSetScore; rewrite Hplayed by reflexivity; reflexivity.
Qed.

Lemma fold_left_count {A : Type} (p : A -> bool) (l : list A) (z : Z) :
  fold_left (fun acc x => if p x then acc + 1 else acc) l z =
    z + Z.of_nat (length (List.filter p l)).
Proof.
  revert z. induction l as [|x l IH]; intros z; cbn [fold_left List.filter];
    [cbn; lia|].
  rewrite IH. destruct (p x); cbn [length]; lia.
Qed.

Lemma getPlayedSets_prefix (sb : Scoreboard) (sets : nat) :
  getPlayedSets sb sets = seq 0 (Nat.min sets (Z.to_nat (active_set sb - 1))).
Proof.
  unfold getPlayedSets. induction sets as [|n IH]; [reflexivity|].
  rewrite seq_S, List.filter_app, IH. cbn [List.filter Nat.add].
  destruct (Z.ltb_spec (Z.of_nat n + 1) (active_set sb)) as [Hlt | Hge].
  - replace (Nat.min n (Z.to_nat (active_set sb - 1))) with n by lia.
    replace (Nat.min (S n) (Z.to_nat (active_set sb - 1))) with (S n) by lia.
    rewrite seq_S. reflexivity.
  - replace (Nat.min (S n) (Z.to_nat (active_set sb - 1)))
      with (Nat.min n (Z.to_nat (active_set sb - 1))) by lia.
    apply app_nil_r.
Qed.

Lemma setWinner_values (sb : Scoreboard) (set : Z) :
  setWinner sb set = None \/ setWinner sb set = Some "a" \/ setWinner sb set = Some "b".
Proof.
  unfold setWinner.
  repeat match goal with
  | |- context [if ?c then _ else _] => destruct c
  end; auto.
Qed.

Lemma filter_split_count {A : Type} (p q r : A -> bool) (l : list A) :
  (forall x, (if r x then 1 else 0)%nat
             = ((if p x then 1 else 0) + (if q x then 1 else 0))%nat) ->
  length (List.filter r l) =
    (length (List.filter p l) + length (List.filter q l))%nat.
Proof.
  intros H. induction l as [|x l IH]; [reflexivity|].
  cbn [List.filter]. specialize (H x).
  destruct (p x), (q x), (r x); cbn [length] in *; lia.
Qed.

(** X20.  The sets [getPlayedSets] keeps are the first
    [min(sets, active_set - 1)] ones, so the position [getSetScore]
    counts by is the set number less one; the set scores of the two
    teams add up to the number of played sets that have a winner, and
    with set 1 active both are 0. *)
Theorem set_scores_count_decided_sets (sb : Scoreboard) (sets : nat) :
  getPlayedSets sb sets = seq 0 (length (getPlayedSets sb sets)) /\
  length (getPlayedSets sb sets) = Nat.min sets (Z.to_nat (active_set sb - 1)) /\
  getSetScore sb sets "a" + getSetScore sb sets "b" =
    Z.of_nat (length (List.filter (decided sb) (getPlayedSets sb sets))) /\
  0 <= getSetScore sb sets "a" /\ 0 <= getSetScore sb sets "b" /\
  getSetScore sb sets "a" + getSetScore sb sets "b"
    <= Z.of_nat (length (getPlayedSets sb sets)) /\
  (active_set sb <= 1 ->
   getSetScore sb sets "a" = 0 /\ getSetScore sb sets "b" = 0).
Proof.
  pose proof (getPlayedSets_prefix sb sets) as Hprefix.
  assert (Hlen : length (getPlayedSets sb sets)
                 = Nat.min sets (Z.to_nat (active_set sb - 1)))
    by (rewrite Hprefix; apply length_seq).
  assert (Hsum : length (List.filter (decided sb) (getPlayedSets sb sets)) =
                 (length (List.filter (won_by sb "a") (getPlayedSets sb sets))
                  + length (List.filter (won_by sb "b") (getPlayedSets sb sets)))%nat).
  { apply filter_split_count. intros i. unfold decided, won_by.
    destruct (setWinner_values sb (Z.of_nat i + 1)) as [-> | [-> | ->]];
      reflexivity. }
  pose proof (List.filter_length_le (decided sb) (getPlayedSets sb sets)) as Hle.
  rewrite <- Hlen in Hprefix.
  split; [exact Hprefix|]. split; [exact Hlen|].
  unfold getSetScore. rewrite !fold_left_count, <- Hprefix.
  split; [lia|]. split; [lia|]. split; [lia|]. split; [lia|].
  intros Hset.
  assert (Hnone : getPlayedSets sb sets = []).
  { rewrite Hprefix, Hlen.
    replace (Nat.min sets (Z.to_nat (active_set sb - 1))) with 0%nat by lia.
    reflexivity. }
  rewrite Hnone. split; reflexivity.
Qed.

(** ** Score history display and statistics *)

(** What one counted entry of the statistics adds to the breaks of the
    teams: one for the team of the server when the event is of that
    team. *)
Lemma processEvent_breaks (sb : Scoreboard) (set : Z) (stats stats' : Statistics)
    (index : Z) (event : Event) :
  processEvent sb set stats index event = Ok stats' ->
  skipped event = false ->
  exists t s ts,
    ev_team event = JStr t /\
    getServingPlayerAtPoint sb index set = Ok (Some s) /\
    getPlayerTeam (Some s) = Some ts /\
    team_breaks (teamA stats') =
      team_breaks (teamA stats)
      + one_if (String.eqb (toLowerCase t) ts && String.eqb ts "a") /\
    team_breaks (teamB stats') =
      team_breaks (teamB stats)
      + one_if (String.eqb (toLowerCase t) ts && String.eqb ts "b").
Proof.
  unfold processEvent. fold (skipped event). intros H Hskip. rewrite Hskip in H.
  destruct (ev_team event) as [| | |t]; try discriminate.
  apply bind_inv in H as (servingPlayer & Hserve & H).
  apply bind_inv in H as (receivingPlayer & _ & H).
  apply bind_inv in H as (s1 & H1 & H).
  apply bind_inv in H as (s2 & H2 & H).
  apply bind_inv in H as (s3 & H3 & H).
  destruct (update_team_at _ _ _ _ H1) as (ts & Hts & Hab & HA1 & HB1).
  destruct (update_player_teams _ _ _ _ H2) as (HA2 & HB2 & s & -> & Hs).
  destruct (update_player_teams _ _ _ _ H3) as (HA3 & HB3 & _).
  rewrite Hts in H.
  exists t, s, ts. split; [reflexivity|]. split; [exact Hserve|].
  split; [exact Hts|].
  destruct (String.eqb (toLowerCase t) ts) eqn:Hbreak.
  - apply bind_inv in H as (s4 & H4 & H).
    destruct (update_team_at _ _ _ _ H4) as (t4 & [= <-] & _ & HA4 & HB4).
    apply String.eqb_eq in Hbreak. rewrite Hbreak in HA4, HB4.
    destruct (update_player_teams _ _ _ _ H) as (HA5 & HB5 & _).
    rewrite HA5, HB5, HA4, HB4, HA3, HB3, HA2, HB2, HA1, HB1.
    unfold one_if. cbn [andb].
    destruct Hab as [-> | ->]; cbn; split; lia.
  - destruct (update_player_teams _ _ _ _ H) as (HA5 & HB5 & _).
    rewrite HA5, HB5, HA3, HB3, HA2, HB2, HA1, HB1.
    unfold one_if. cbn [andb].
    destruct Hab as [-> | ->]; cbn; split; lia.
Qed.

Lemma num_gt_irrefl (x : option Z) : num_gt x x = false.
Proof. destruct x as [n|]; [apply Z.ltb_irrefl | reflexivity]. Qed.

Lemma previous_score_snoc (pre tl : list (option Z)) (v : option Z) :
  previous_score ((pre ++ [v]) ++ tl) (Z.of_nat (length (pre ++ [v]))) = v.
Proof.
  unfold previous_score, index. rewrite length_app. cbn [length].
  replace (0 <? _) with true by zbool.
  replace (_ <? 0) with false by zbool.
  replace (Z.to_nat (Z.of_nat (length pre + 1) - 1)) with (length pre) by lia.
  rewrite <- app_assoc. rewrite nth_error_app2 by lia.
  rewrite Nat.sub_diag. reflexivity.
Qed.

Section DisplayAndStatistics.

Variable sb : Scoreboard.
Variable set : Z.
Variable team : string.
Variable side : Statistics -> TeamStats.

Hypothesis Hside :
  (team = "a" /\ side = teamA) \/ (team = "b" /\ side = teamB).

Lemma team_lower : toLowerCase team = team.
Proof. destruct Hside as [[-> _] | [-> _]]; reflexivity. Qed.

Lemma side_breaks (stats stats' : Statistics) (index : Z) (event : Event) :
  processEvent sb set stats index event = Ok stats' ->
  skipped event = false ->
  exists t s ts,
    ev_team event = JStr t /\
    getServingPlayerAtPoint sb index set = Ok (Some s) /\
    getPlayerTeam (Some s) = Some ts /\
    team_breaks (side stats') =
      team_breaks (side stats)
      + one_if (String.eqb (toLowerCase t) ts && String.eqb ts team).
Proof.
  intros H Hskip.
  destruct (processEvent_breaks _ _ _ _ _ _ H Hskip)
    as (t & s & ts & Ht & Hs & Hts & HA & HB).
  exists t, s, ts. do 3 (split; [assumption|]).
  destruct Hside as [[-> ->] | [-> ->]]; assumption.
Qed.

(** The loop of the display beside the loop of the statistics, from any
    position of the history on. *)
Lemma scoreItems_beside_statistics (rest : list Event) :
  forall (pre : list (option Z)) (prev : option Z) (streak : Z)
         (stats stats' : Statistics),
  Forall (fun e => history_match set e = true) rest ->
  Forall (fun e => skipped e = false) rest ->
  (forall tl, previous_score (pre ++ tl) (Z.of_nat (length pre)) = prev) ->
  processEvents sb set stats (Z.of_nat (length pre)) rest = Ok stats' ->
  exists items,
    scoreItems sb set team (pre ++ teamPoints prev rest team)
      (Z.of_nat (length pre)) streak (teamPoints prev rest team) = Ok items /\
    length items = length rest /\
    team_breaks (side stats) + breaks_shown items <= team_breaks (side stats') /\
    team_breaks (side stats') <=
      team_breaks (side stats) + breaks_shown items + not_raising team rest items /\
    Forall2 (fun e item => item_active item = true -> event_of_team team e = true)
      rest items.
Proof.
  induction rest as [|e rest IH];
    intros pre prev streak stats stats' Hall Hskip Hprev H.
  - cbn in H. injection H as <-. exists []. cbn.
    unfold breaks_shown, not_raising. cbn.
    split; [reflexivity|]. split; [reflexivity|]. split; [lia|]. split; [lia|].
    constructor.
  - inversion Hall as [|? ? He Hrest]; subst.
    inversion Hskip as [|? ? Hse Hsrest]; subst.
    cbn [processEvents] in H. apply bind_inv in H as (stats1 & H1 & H).
    destruct (side_breaks _ _ _ _ H1 Hse) as (t & s & ts & Ht & Hs & Hts & Hb).
    destruct (history_event_counts set e He) as (t' & Hteam & Hcounts).
    assert (t' = t) as -> by congruence.
    assert (Hown : event_of_team team e = String.eqb (toLowerCase t) team)
      by (unfold event_of_team; rewrite Ht, team_lower; reflexivity).
    cbn [teamPoints]. rewrite Hteam in Hcounts |- *. cbv iota beta.
    rewrite Hcounts. rewrite team_lower. cbv zeta.
    set (v := if String.eqb (toLowerCase t) team
              then to_number (ev_score e) else prev).
    replace (pre ++ v :: teamPoints v rest team)
      with ((pre ++ [v]) ++ teamPoints v rest team)
      by (rewrite <- app_assoc; reflexivity).
    replace (Z.of_nat (length pre) + 1) with (Z.of_nat (length (pre ++ [v]))) in H
      by (rewrite length_app; cbn [length]; lia).
    destruct (IH (pre ++ [v]) v
                (if num_gt v prev then streak + 1 else 0) stats1 stats'
                Hrest Hsrest (fun tl => previous_score_snoc pre tl v) H)
      as (items & Hitems & Hlen & Hlow & Hhigh & Hactive).
    cbn [scoreItems].
    rewrite <- (app_assoc pre [v]). cbn [app].
    rewrite (Hprev (v :: teamPoints v rest team)).
    replace (Z.of_nat (length pre) + 1) with (Z.of_nat (length (pre ++ [v])))
      by (rewrite length_app; cbn [length]; lia).
    replace (pre ++ v :: teamPoints v rest team)
      with ((pre ++ [v]) ++ teamPoints v rest team)
      by (rewrite <- app_assoc; reflexivity).
    assert (Hstale : num_gt v prev = true -> String.eqb (toLowerCase t) team = true).
    { subst v. destruct (String.eqb (toLowerCase t) team); [reflexivity|].
      rewrite num_gt_irrefl. discriminate. }
    destruct (num_gt v prev) eqn:Hgt.
    + rewrite Hs. cbn [bind mbind JsResult_bind]. rewrite Hts.
      cbn. rewrite Hitems. cbn.
      eexists. split; [reflexivity|]. cbn [length]. split; [lia|].
      specialize (Hstale eq_refl). apply String.eqb_eq in Hstale.
      unfold breaks_shown, not_raising in *. cbn [List.filter combine fst snd
        item_break item_active negb andb length].
      rewrite Hown. rewrite Hstale in Hb |- *. rewrite String.eqb_refl.
      cbn [andb negb].
      assert (Hsym : String.eqb team ts = String.eqb ts team)
        by apply String.eqb_sym.
      rewrite Hsym in Hb.
      unfold one_if in Hb.
      split; [destruct (String.eqb ts team); cbn [andb length] in *; lia|].
      split; [destruct (String.eqb ts team); cbn [andb length] in *; lia|].
      constructor; [intros _; rewrite Hown, Hstale; apply String.eqb_refl | exact Hactive].
    + cbn. rewrite Hitems. cbn.
      eexists. split; [reflexivity|]. cbn [length]. split; [lia|].
      unfold breaks_shown, not_raising in *. cbn [List.filter combine fst snd
        item_break item_active negb andb length].
      rewrite Hown. unfold one_if in Hb.
      destruct (String.eqb_spec (toLowerCase t) team) as [Heq | Hne].
      * cbn [andb negb length].
        split; [destruct (_ && _); lia|].
        split; [destruct (_ && _); lia|].
        constructor; [discriminate | exact Hactive].
      * assert (Hnone : String.eqb (toLowerCase t) ts && String.eqb ts team = false).
        { destruct (String.eqb_spec (toLowerCase t) ts) as [E1|]; [|reflexivity].
          destruct (String.eqb_spec ts team) as [E2|]; [|reflexivity].
          congruence. }
        rewrite Hnone in Hb. cbn [andb negb].
        split; [lia|]. split; [lia|].
        constructor; [discriminate | exact Hactive].
Qed.

Lemma display_beside_statistics (stats : Statistics) :
  set <> 0 ->
  calculateStatistics sb set = Ok stats ->
  exists items,
    updateScoreHistoryForContainer sb team set = Ok items /\
    length items = length (getScoreHistory sb set) /\
    breaks_shown items <= team_breaks (side stats) /\
    team_breaks (side stats) <=
      breaks_shown items + not_raising team (getScoreHistory sb set) items /\
    Forall2 (fun e item => item_active item = true -> event_of_team team e = true)
      (getScoreHistory sb set) items.
Proof.
  intros Hset H. unfold calculateStatistics in H.
  destruct (scoreItems_beside_statistics (getScoreHistory sb set) [] (Some 0) 0
              initial_statistics stats
              (getScoreHistory_all_match sb set)
              (getScoreHistory_not_skipped sb set Hset)
              (fun tl => eq_refl) H)
    as (items & Hitems & Hlen & Hlow & Hhigh & Hactive).
  exists items. split; [exact Hitems|]. split; [exact Hlen|].
  assert (Hzero : team_breaks (side initial_statistics) = 0)
    by (destruct Hside as [[_ ->] | [_ ->]]; reflexivity).
  rewrite Hzero in Hlow, Hhigh.
  split; [lia|]. split; [lia | exact Hactive].
Qed.

End DisplayAndStatistics.

(** X21.  Whenever the statistics of a set other than 0 are computed,
    the score history display of the set is drawn for both teams, with
    one element per event; an element is active for at most one of the
    two teams; and the elements marked as a break for a team are never
    more than the breaks the statistics count for it, the difference
    being at most the number of the team's events that do not raise its
    score. *)
Theorem shown_breaks_within_statistics (sb : Scoreboard) (set : Z)
    (stats : Statistics) :
  set <> 0 ->
  calculateStatistics sb set = Ok stats ->
  exists itemsA itemsB,
    updateScoreHistoryForContainer sb "a" set = Ok itemsA /\
    updateScoreHistoryForContainer sb "b" set = Ok itemsB /\
    length itemsA = length (getScoreHistory sb set) /\
    length itemsB = length (getScoreHistory sb set) /\
    breaks_shown itemsA <= team_breaks (teamA stats) /\
    team_breaks (teamA stats) <=
      breaks_shown itemsA + not_raising "a" (getScoreHistory sb set) itemsA /\
    breaks_shown itemsB <= team_breaks (teamB stats) /\
    team_breaks (teamB stats) <=
      breaks_shown itemsB + not_raising "b" (getScoreHistory sb set) itemsB /\
    forall i ia ib,
      nth_error itemsA i = Some ia -> nth_error itemsB i = Some ib ->
      item_active ia && item_active ib = false.
Proof.
  intros Hset H.
  destruct (display_beside_statistics sb set "a" teamA
              ltac:(left; split; reflexivity) stats Hset H)
    as (itemsA & HA & HlenA & HlowA & HhighA & HactA).
  destruct (display_beside_statistics sb set "b" teamB
              ltac:(right; split; reflexivity) stats Hset H)
    as (itemsB & HB & HlenB & HlowB & HhighB & HactB).
  exists itemsA, itemsB. do 8 (split; [assumption|]).
  clear HA HB HlenA HlenB HlowA HlowB HhighA HhighB H.
  revert itemsB HactB.
  induction HactA as [|e ia' events itemsA' Ha _ IH]; intros itemsB HactB i ia ib Hia Hib.
  - destruct i; discriminate.
  - inversion HactB as [|? ib' ? itemsB' Hb Hrest]; subst.
    destruct i as [|i]; cbn [nth_error] in Hia, Hib.
    + injection Hia as <-. injection Hib as <-.
      destruct (item_active ia') eqn:Ea; [|reflexivity].
      destruct (item_active ib') eqn:Eb; [|reflexivity].
      specialize (Ha eq_refl). specialize (Hb eq_refl).
      unfold event_of_team in Ha, Hb.
      destruct (ev_team e) as [| | |t]; try discriminate.
      apply String.eqb_eq in Ha, Hb. rewrite Ha in Hb. discriminate.
    + exact (IH itemsB' Hrest i ia ib Hia Hib).
Qed.

Lemma shown_breaks_within_statistics_witness :
  exists stats itemsA,
    calculateStatistics three_point_board 1 = Ok stats /\
    updateScoreHistoryForContainer three_point_board "a" 1 = Ok itemsA /\
    breaks_shown itemsA <= team_breaks (teamA stats).
Proof.
  destruct three_point_board_returns as [stats Hstats].
  destruct (shown_breaks_within_statistics three_point_board 1 stats
              ltac:(discriminate) Hstats)
    as (itemsA & itemsB & HA & _ & _ & _ & Hlow & _).
  exists stats, itemsA. auto.
Defined.

Lemma scoreItems_returns (sb : Scoreboard) (set : Z) (team : string)
    (scoresList : list (option Z)) (rest : list (option Z)) :
  valid_configuration (getStartingServer sb set) (getStartingReceiver sb set) ->
  forall i streak,
  exists items,
    scoreItems sb set team scoresList i streak rest = Ok items /\
    length items = length rest.
Proof.
  intros Hvalid. induction rest as [|score rest IH]; intros i streak.
  - exists []. split; reflexivity.
  - cbn [scoreItems].
    destruct (serving_returns sb set i Hvalid) as [player Hplayer].
    destruct (IH (i + 1)
                (if num_gt score (previous_score scoresList i)
                 then streak + 1 else 0)) as (items & Hitems & Hlen).
    destruct (num_gt score (previous_score scoresList i)).
    + rewrite Hplayer. cbn. rewrite Hitems. cbn.
      eexists. split; [reflexivity|]. cbn [length]. lia.
    + cbn. rewrite Hitems. cbn.
      eexists. split; [reflexivity|]. cbn [length]. lia.
Qed.

(** X22.  In each of the eight starting configurations the score
    history display is drawn for every team name and every set, one
    element per event of the history: no server lookup of the display
    throws, and a server that is [undefined] marks no break. *)
Theorem display_returns_in_valid_configuration (sb : Scoreboard) (team : string)
    (set : Z) :
  valid_configuration (getStartingServer sb set) (getStartingReceiver sb set) ->
  exists items,
    updateScoreHistoryForContainer sb team set = Ok items /\
    length items = length (getScoreHistory sb set).
Proof.
  intros Hvalid. unfold updateScoreHistoryForContainer. cbv zeta.
  destruct (scoreItems_returns sb set team
              (scoreHistoryToTeamPoints (getScoreHistory sb set) team)
              (scoreHistoryToTeamPoints (getScoreHistory sb set) team)
              Hvalid 0 0) as (items & Hitems & Hlen).
  exists items. split; [exact Hitems|]. rewrite Hlen.
  apply (teamPoints_full_length set), getScoreHistory_all_match.
Qed.

Lemma display_returns_in_valid_configuration_witness :
  (exists items,
     updateScoreHistoryForContainer early_overtime_board "b" 1 = Ok items /\
     length items = length (getScoreHistory early_overtime_board 1)) /\
  calculateStatistics early_overtime_board 1 = TypeError.
Proof.
  split.
  - apply (display_returns_in_valid_configuration early_overtime_board "b" 1).
    unfold valid_configuration, valid_pairs. cbn. tauto.
  - vm_compute. reflexivity.
Defined.

(** ** Serve indicator *)

(** A set without a winner is in overtime exactly when a score has
    reached [win_points]. *)
Lemma overtime_of_open_set (sb : Scoreboard) (set : Z) :
  setWinner sb set = None ->
  isInOvertime sb set None =
    (win_points (gameSettings sb) <=? getScore sb set "a")
    || (win_points (gameSettings sb) <=? getScore sb set "b").
Proof.
  unfold setWinner, isInOvertime.
  destruct (_ || _); [discriminate|].
  destruct (_ || _); [|reflexivity].
  cbv zeta. destruct (Z.leb_spec (min_win_margin (gameSettings sb))
                        (Z.abs (getScore sb set "a" - getScore sb set "b")));
    [discriminate|].
  intros _. zbool.
Qed.

(** X23.  While the active set has no winner and a starting server is
    chosen, the serve indicator is shown for one of the two teams with
    exactly one of the classes [serve_1] and [serve_2]; it is a single
    serve exactly at 0:0 and once a score has reached [win_points], and
    a single serve is never a second serve. *)
Theorem serve_indicator_of_open_set (sb : Scoreboard) :
  let set := active_set sb in
  setWinner sb set = None ->
  getStartingServer sb set <> "" ->
  0 <= getTotalPointsInSet sb set ->
  exists t,
    indicator_shown (updateServeIndicator sb) = true /\
    indicator_team (updateServeIndicator sb) = Some t /\
    (t = "a" \/ t = "b") /\
    (single_serve (updateServeIndicator sb) = true <->
       getTotalPointsInSet sb set = 0 \/
       win_points (gameSettings sb) <= getScore sb set "a" \/
       win_points (gameSettings sb) <= getScore sb set "b") /\
    serve_1 (updateServeIndicator sb) = negb (serve_2 (updateServeIndicator sb)) /\
    (single_serve (updateServeIndicator sb) = true ->
     serve_1 (updateServeIndicator sb) = true).
Proof.
  cbv zeta. intros Hopen Hserver Htotal.
  pose proof (overtime_of_open_set sb _ Hopen) as Hmode.
  unfold updateServeIndicator. rewrite Hopen.
  unfold getServeInfo, getStartingTeam.
  destruct (String.eqb_spec (getStartingServer sb (active_set sb)) "");
    [contradiction|].
  cbn [negb]. cbv zeta.
  set (t := if _ || _ then "a" else "b").
  assert (Ht : t = "a" \/ t = "b") by (unfold t; destruct (String.eqb _ _ || String.eqb _ _); auto).
  clearbody t.
  assert (Hother : other_team t = "a" \/ other_team t = "b")
    by (destruct Ht as [-> | ->]; cbn; auto).
  set (total := getTotalPointsInSet sb (active_set sb)) in *.
  assert (Hreached :
            (win_points (gameSettings sb) <=? getScore sb (active_set sb) "a")
            || (win_points (gameSettings sb) <=? getScore sb (active_set sb) "b")
            = true <->
            win_points (gameSettings sb) <= getScore sb (active_set sb) "a" \/
            win_points (gameSettings sb) <= getScore sb (active_set sb) "b").
  { rewrite orb_true_iff, !Z.leb_le. reflexivity. }
  rewrite Hmode.
  destruct (Z.leb _ _ || Z.leb _ _) eqn:Hot.
  - eexists. cbn.
    split; [reflexivity|]. split; [reflexivity|].
    split; [destruct (Z.rem total 2 =? 0); assumption|].
    rewrite orb_true_r.
    split; [split; [intros _; right; apply Hreached; reflexivity | reflexivity]|].
    split; reflexivity.
  - destruct (Z.eqb_spec total 0) as [H0 | Hpos].
    + eexists. cbn.
      split; [reflexivity|]. split; [reflexivity|]. split; [exact Ht|].
      split; [split; [intros _; left; exact H0 | reflexivity]|].
      split; reflexivity.
    + eexists. cbn [indicator_shown indicator_team single_serve serve_1 serve_2
                    team serveNumber isOvertime orb].
      split; [reflexivity|]. split; [reflexivity|].
      split; [destruct (Z.rem ((total - 1) / 2) 2 =? 0); assumption|].
      split.
      { split; [discriminate|].
        intros [H0 | Hwp]; [contradiction|].
        apply Hreached in Hwp. discriminate. }
      split; [|discriminate].
      assert (Hrem : Z.rem (total - 1) 2 = 0 \/ Z.rem (total - 1) 2 = 1) by zdiv.
      destruct Hrem as [-> | ->]; reflexivity.
Qed.

Lemma serve_indicator_of_open_set_witness :
  exists t,
    indicator_shown (updateServeIndicator three_point_board) = true /\
    indicator_team (updateServeIndicator three_point_board) = Some t /\
    (t = "a" \/ t = "b") /\
    (single_serve (updateServeIndicator three_point_board) = true <->
       getTotalPointsInSet three_point_board (active_set three_point_board) = 0 \/
       win_points (gameSettings three_point_board)
         <= getScore three_point_board (active_set three_point_board) "a" \/
       win_points (gameSettings three_point_board)
         <= getScore three_point_board (active_set three_point_board) "b") /\
    serve_1 (updateServeIndicator three_point_board)
      = negb (serve_2 (updateServeIndicator three_point_board)) /\
    (single_serve (updateServeIndicator three_point_board) = true ->
     serve_1 (updateServeIndicator three_point_board) = true).
Proof.
  apply (serve_indicator_of_open_set three_point_board);
    [reflexivity | discriminate | apply Z.leb_le; reflexivity].
Defined.

(** ** Score entry and upload *)

(** X24.  Whether a score entry is uploaded depends on the starting
    players of the active set: in one of the eight configurations the
    handler ends with the upload, which for an authorised user cuts the
    log to its cap; outside them the refresh of the player display
    throws and the handler ends before the upload, with the log updated
    and not cut. *)
Theorem score_entry_upload (sb : Scoreboard) (team : jsval) (set : option Z)
    (newScore : Z) (isSquadScore : bool) :
  let sb1 := scoreInputHistory sb team set newScore isSquadScore in
  let configured :=
    valid_configuration (getStartingServer sb (active_set sb))
      (getStartingReceiver sb (active_set sb)) in
  (configured ->
   scoreInput sb team set newScore isSquadScore = uploadData sb1 /\
   (authorized sb = true ->
    (length (event_history (scoreInput sb team set newScore isSquadScore))
     <= 200)%nat)) /\
  (~ configured ->
   updateCurrentPlayersDisplay sb1 = TypeError /\
   scoreInput sb team set newScore isSquadScore = sb1).
Proof.
  cbv zeta. unfold scoreInput.
  rewrite (scoreInputHistory_fields sb team set newScore isSquadScore).
  set (log1 := event_history (scoreInputHistory sb team set newScore isSquadScore)).
  split.
  - intros Hvalid.
    assert (Hvalid1 : valid_configuration
              (getStartingServer (with_event_history sb log1)
                 (active_set (with_event_history sb log1)))
              (getStartingReceiver (with_event_history sb log1)
                 (active_set (with_event_history sb log1)))) by exact Hvalid.
    unfold updateCurrentPlayersDisplay.
    destruct (serving_returns _ _
                (getTotalPointsInSet (with_event_history sb log1)
                   (active_set (with_event_history sb log1))) Hvalid1) as [s ->].
    destruct (receiving_returns _ _
                (getTotalPointsInSet (with_event_history sb log1)
                   (active_set (with_event_history sb log1))) Hvalid1) as [r ->].
    cbn [mbind mret JsResult_bind bind]. split; [reflexivity|].
    intros Hauth. unfold uploadData. cbn [authorized with_event_history].
    rewrite Hauth. apply handleEventHistory_length.
  - intros Hinvalid.
    assert (Hthrow : updateCurrentPlayersDisplay (with_event_history sb log1)
                     = TypeError).
    { unfold updateCurrentPlayersDisplay.
      rewrite (proj1 (rotation_lookups_throw (with_event_history sb log1) _ _
                        Hinvalid)).
      reflexivity. }
    rewrite Hthrow. split; reflexivity.
Qed.
